(** * xcoff_tool: snapshot capture, comparison and storage

    A shallow embedding of the Python package [xcoff_tool] (modules
    [core], [analyzers] and [storage]) and of the loader capture of
    the stand-alone script [xcoff_snapshot.py], followed by the
    properties established about them.

    Conventions.
    - Python [str] values are [string]s; a character is a code point
      below 256, and the character classes of the Python runtime
      ([str.isspace], [str.isdigit], the classes of [re]) are written
      out for that range.
    - Python integers are [Z].
    - A call that may raise is a value of [py_result]: [Ok v] when it
      returns [v], [Raise e] when the exception [e] leaves the call.
    - A [dict] with string keys is a [gmap string _]; Python compares
      dicts without regard to insertion order, and so does [=] on
      [gmap].  [set] values are [gset]s.  The order in which Python
      iterates a [set] is not specified by the language; where a list
      is built from one, the model uses the order of [elements].
    - The files of the store are modelled with the file system of
      the host: [pathlib] joins and the host resolves paths as on a
      POSIX system, names are compared character by character, and
      there are no symbolic links. *)

From Stdlib Require Import ZArith Ascii String List Bool Lia Strings.Byte DecimalString HexadecimalString.
From stdpp Require Import base decidable option list gmap strings fin_maps fin_sets sorting.

Local Set Warnings "-register-all".
Local Open Scope Z_scope.
Local Open Scope string_scope.

(** ** The Python runtime: exceptions and string methods *)

Module Py.

(** The exception classes that the modelled code can meet. *)
Inductive exn : Type :=
  | KeyError (key : string)
  | AttributeError
  | TypeError
  | ValueError (msg : string)
  | UnicodeDecodeError
  | JSONDecodeError
  | IsADirectoryError
  | NotADirectoryError
  | FileNotFoundError
  | OtherException (msg : string).

Inductive py_result (A : Type) : Type :=
  | Ok (a : A)
  | Raise (e : exn).
Arguments Ok {A} a.
Arguments Raise {A} e.

(** Sequencing: the first exception raised ends the computation.
    [x ← r; k] is stdpp's notation for [mbind]. *)
Global Instance py_ret : MRet py_result := fun _ a => Ok a.
Global Instance py_bind : MBind py_result := fun _ _ k r =>
  match r with
  | Ok a => k a
  | Raise e => Raise e
  end.

Definition code (c : ascii) : nat := nat_of_ascii c.

Definition in_range (lo hi : nat) (c : ascii) : bool :=
  (Nat.leb lo (code c) && Nat.leb (code c) hi)%bool.

(** [str.isspace] on one character: TAB..CR, FS..US, space, NEL and
    the no-break space. *)
Definition isspace (c : ascii) : bool :=
  (in_range 9 13 c || in_range 28 32 c
   || Nat.eqb (code c) 133 || Nat.eqb (code c) 160)%bool.

(** The decimal digits [0-9]. *)
Definition isdecimal (c : ascii) : bool := in_range 48 57 c.

(** [str.isdigit] on one character: the decimal digits and the
    superscripts two, three and one. *)
Definition isdigit_char (c : ascii) : bool :=
  (isdecimal c || Nat.eqb (code c) 178 || Nat.eqb (code c) 179
   || Nat.eqb (code c) 185)%bool.

(** [str.isalnum] on one character, which is what [\w] of [re] tests
    besides the underscore. *)
Definition isalnum (c : ascii) : bool :=
  (isdecimal c || in_range 65 90 c || in_range 97 122 c
   || Nat.eqb (code c) 170 || Nat.eqb (code c) 178 || Nat.eqb (code c) 179
   || Nat.eqb (code c) 181 || Nat.eqb (code c) 185 || Nat.eqb (code c) 186
   || in_range 188 190 c || in_range 192 214 c || in_range 216 246 c
   || in_range 248 255 c)%bool.

Definition char_eqb (a b : ascii) : bool := Ascii.eqb a b.
Global Arguments char_eqb : simpl never.

(** Membership of a character in the argument of [strip(chars)]. *)
Fixpoint mem_char (c : ascii) (chars : string) : bool :=
  match chars with
  | EmptyString => false
  | String d rest => (char_eqb c d || mem_char c rest)%bool
  end.

(** [s.lstrip(chars)]: drop the longest prefix made of [chars]. *)
Fixpoint lstrip_by (p : ascii -> bool) (s : string) : string :=
  match s with
  | EmptyString => EmptyString
  | String c rest => if p c then lstrip_by p rest else s
  end.

(** [s.rstrip(chars)]: drop the longest suffix made of [chars]. *)
Fixpoint rstrip_by (p : ascii -> bool) (s : string) : string :=
  match s with
  | EmptyString => EmptyString
  | String c rest =>
      match rstrip_by p rest with
      | EmptyString => if p c then EmptyString else String c EmptyString
      | r => String c r
      end
  end.

Definition lstrip (chars s : string) : string :=
  lstrip_by (fun c => mem_char c chars) s.
Definition rstrip (chars s : string) : string :=
  rstrip_by (fun c => mem_char c chars) s.

(** [s.strip()] with no argument strips white space on both sides. *)
Definition strip (s : string) : string := rstrip_by isspace (lstrip_by isspace s).

(** [s.replace(c, "")] for a one-character [c]. *)
Fixpoint remove_char (c : ascii) (s : string) : string :=
  match s with
  | EmptyString => EmptyString
  | String d rest =>
      if char_eqb d c then remove_char c rest else String d (remove_char c rest)
  end.

(** [s.startswith(p)]. *)
Fixpoint startswith (p s : string) : bool :=
  match p, s with
  | EmptyString, _ => true
  | String a p', String b s' => (char_eqb a b && startswith p' s')%bool
  | String _ _, EmptyString => false
  end.

(** [p in s] for strings. *)
Fixpoint contains (p s : string) : bool :=
  match s with
  | EmptyString => startswith p EmptyString
  | String _ rest => (startswith p s || contains p rest)%bool
  end.

(** The last character of a string, if any. *)
Fixpoint last_char (s : string) : option ascii :=
  match s with
  | EmptyString => None
  | String c EmptyString => Some c
  | String _ rest => last_char rest
  end.

(** [s.endswith(c)] for a one-character [c]. *)
Definition endswith_char (c : ascii) (s : string) : bool :=
  match last_char s with
  | Some d => char_eqb d c
  | None => false
  end.

(** [bool(s)]: a string is true when it is not empty. *)
Definition truthy (s : string) : bool :=
  match s with
  | EmptyString => false
  | String _ _ => true
  end.

Fixpoint all_chars (p : ascii -> bool) (s : string) : bool :=
  match s with
  | EmptyString => true
  | String c rest => (p c && all_chars p rest)%bool
  end.

(** [s.isdigit()]: not empty and every character a digit. *)
Definition isdigit (s : string) : bool := (truthy s && all_chars isdigit_char s)%bool.

(** The characters at which [str.splitlines] ends a line: LF, VT,
    FF, CR, FS, GS, RS and NEL. *)
Definition is_linebreak (c : ascii) : bool :=
  (in_range 10 13 c || in_range 28 30 c || Nat.eqb (code c) 133)%bool.

Definition snoc (s : string) (c : ascii) : string := s +:+ String c EmptyString.

(** [s.splitlines()], with [cur] the line read so far and [after_cr]
    set when the last character was a CR, whose following LF belongs
    to the same line end. *)
Fixpoint splitlines_from (cur : string) (after_cr : bool) (s : string) : list string :=
  match s with
  | EmptyString => if truthy cur then [cur] else []
  | String c rest =>
      if (after_cr && char_eqb c "010")%bool then splitlines_from EmptyString false rest
      else if is_linebreak c then
        cur :: splitlines_from EmptyString (char_eqb c "013") rest
      else splitlines_from (snoc cur c) false rest
  end.

Definition splitlines (s : string) : list string :=
  splitlines_from EmptyString false s.

(** [s.split()] with no argument: the maximal runs of characters
    that are not white space. *)
Fixpoint split_from (cur : string) (s : string) : list string :=
  match s with
  | EmptyString => if truthy cur then [cur] else []
  | String c rest =>
      if isspace c then
        if truthy cur then cur :: split_from EmptyString rest
        else split_from EmptyString rest
      else split_from (snoc cur c) rest
  end.

Definition split (s : string) : list string := split_from EmptyString s.

(** The longest prefix of [s] whose characters satisfy [p], and the
    rest of [s]. *)
Fixpoint span (p : ascii -> bool) (s : string) : string * string :=
  match s with
  | EmptyString => (EmptyString, EmptyString)
  | String c rest =>
      if p c then let '(run, tl) := span p rest in (String c run, tl)
      else (EmptyString, s)
  end.

(** The number that a string of decimal digits writes. *)
Definition decimal_value (s : string) : Z :=
  fold_left (fun acc c => acc * 10 + Z.of_nat (code c - 48))
            (list_ascii_of_string s) 0.

(** [str(n)] for an integer [n]. *)
Definition str_of_int (n : Z) : string :=
  DecimalString.NilZero.string_of_int (Z.to_int n).

(** The most digits that [int] converts
    ([sys.get_int_max_str_digits()], as the interpreter sets it). *)
Definition int_max_str_digits : nat := 4300.

(** The text of the [ValueError] that [int] raises for a string of
    too many digits. *)
Definition int_limit_message (digits : nat) : string :=
  "Exceeds the limit (4300 digits) for integer string conversion: value has "
  +:+ str_of_int (Z.of_nat digits)
  +:+ " digits; use sys.set_int_max_str_digits() to increase the limit".

(** [int(s)] for a string [s] that [isdigit] or [\d+] accepted:
    the superscript digits are digits for [isdigit] and not for
    [int], and a string of more than [int_max_str_digits] digits,
    leading zeros counted, is refused. *)
Definition py_int (s : string) : py_result Z :=
  if negb (truthy s && all_chars isdecimal s)%bool then
    Raise (ValueError ("invalid literal for int() with base 10: '" +:+ s +:+ "'"))
  else if (int_max_str_digits <? String.length s)%nat then
    Raise (ValueError (int_limit_message (String.length s)))
  else Ok (decimal_value s).

Definition upper_hex (c : ascii) : ascii :=
  if in_range 97 102 c then ascii_of_nat (code c - 32) else c.

Fixpoint map_chars (f : ascii -> ascii) (s : string) : string :=
  match s with
  | EmptyString => EmptyString
  | String c rest => String (f c) (map_chars f rest)
  end.

Fixpoint zeros (n : nat) : string :=
  match n with
  | O => EmptyString
  | S k => String "0" (zeros k)
  end.

(** The format [{n:04X}] for [0 <= n]: upper-case hexadecimal,
    padded with zeros to four digits. *)
Definition format_04X (n : Z) : string :=
  let digits := map_chars upper_hex
    (HexadecimalString.NilZero.string_of_uint (N.to_hex_uint (Z.to_N n))) in
  zeros (4 - String.length digits) +:+ digits.

(** The pieces of [s] between the characters that satisfy [p]: one
    more piece than there are such characters. *)
Fixpoint split_where (p : ascii -> bool) (s : string) : list string :=
  match s with
  | EmptyString => [EmptyString]
  | String c rest =>
      if p c then EmptyString :: split_where p rest
      else match split_where p rest with
           | piece :: pieces => String c piece :: pieces
           | [] => [String c EmptyString]
           end
  end.

(** [s.split(sep)] for a one-character [sep]. *)
Definition split_on (sep : ascii) (s : string) : list string :=
  split_where (fun c => char_eqb c sep) s.

(** The lines that iterating over a file opened in text mode gives,
    without their line ends: the file object ends a line at LF, at
    CR and at CR LF.  (Between a CR and its LF, and after a last
    line end, this list has an empty string, which the file object
    does not give; the loops that read the lines skip blank lines.) *)
Definition is_line_end (c : ascii) : bool :=
  (char_eqb c "010" || char_eqb c "013")%bool.

Definition text_lines (text : string) : list string :=
  split_where is_line_end text.

(** [s.endswith(suffix)] *)
Definition endswith (suffix s : string) : bool :=
  (Nat.leb (String.length suffix) (String.length s)
   && String.eqb (substring (String.length s - String.length suffix)
                            (String.length suffix) s) suffix)%bool.

(** The order of [sorted] on strings: by code points. *)
Definition str_le (a b : string) : Prop := String.leb a b = true.
Global Instance str_le_dec : RelDecision str_le := fun a b => decide (String.leb a b = true).

(** [sep.join(parts)] *)
Fixpoint join (sep : string) (parts : list string) : string :=
  match parts with
  | [] => EmptyString
  | [x] => x
  | x :: rest => x +:+ sep +:+ join sep rest
  end.

End Py.

(** ** core.py: values, dataclasses and serialisation *)

Module Core.
Import Py.

(** The values that [json.load] returns and [json.dump] accepts:
    [None], booleans, integers, strings, lists and dicts with string
    keys.  (Floating-point numbers are left out: no analyzer produces
    one.) *)
Inductive json : Type :=
  | JNull
  | JBool (b : bool)
  | JInt (z : Z)
  | JStr (s : string)
  | JList (l : list json)
  | JDict (m : gmap string json).

Global Instance json_eq_dec : EqDecision json.
Proof.
  refine (fix go (x y : json) {struct x} : Decision (x = y) :=
    let _ : EqDecision json := go in
    match x, y with
    | JNull, JNull => left _
    | JBool a, JBool b => cast_if (decide (a = b))
    | JInt a, JInt b => cast_if (decide (a = b))
    | JStr a, JStr b => cast_if (decide (a = b))
    | JList a, JList b => cast_if (decide (a = b))
    | JDict a, JDict b => cast_if (decide (a = b))
    | _, _ => right _
    end); abstract congruence.
Defined.

(** Python's [==] takes [True] and [False] for the integers 1 and 0,
    also inside containers.  [norm] maps a value to the representative
    of its [==] class, so that [a == b] is [norm a = norm b]. *)
Fixpoint norm (v : json) : json :=
  match v with
  | JBool b => JInt (if b then 1 else 0)
  | JList l => JList (map norm l)
  | JDict m => JDict (norm <$> m)
  | _ => v
  end.

(** [a == b] and [a != b] *)
Definition py_eqb (a b : json) : bool := bool_decide (norm a = norm b).
Definition py_neqb (a b : json) : bool := negb (py_eqb a b).

(** [d.get(key, default)] on a dict *)
Definition get (d : gmap string json) (key : string) (dflt : json) : json :=
  default dflt (d !! key).

(** [d[key]] on a dict *)
Definition getitem (d : gmap string json) (key : string) : py_result json :=
  match d !! key with
  | Some v => Ok v
  | None => Raise (KeyError key)
  end.

(** [class AnalysisResult] *)
Record AnalysisResult : Type := {
  analyzer_name : string;
  success : bool;
  data : gmap string json;
  error : option string;
  truncated : bool;
}.

(** [class Snapshot] *)
Record Snapshot : Type := {
  filepath : string;
  timestamp : string;
  file_size : Z;
  file_mtime : string;
  file_type : string;
  name : option string;
  results : gmap string AnalysisResult;
}.

(** An [Optional[str]] attribute as a JSON value. *)
Definition of_optional (o : option string) : json :=
  match o with
  | Some s => JStr s
  | None => JNull
  end.

Definition result_to_dict (r : AnalysisResult) : json :=
  JDict (<["success" := JBool (success r)]>
        (<["data" := JDict (data r)]>
        (<["error" := of_optional (error r)]>
        (<["truncated" := JBool (truncated r)]> ∅)))).

(** [Snapshot.to_dict] *)
Definition to_dict (self : Snapshot) : json :=
  JDict (<["version" := JStr "1.0"]>
        (<["name" := of_optional (name self)]>
        (<["filepath" := JStr (filepath self)]>
        (<["timestamp" := JStr (timestamp self)]>
        (<["file_size" := JInt (file_size self)]>
        (<["file_mtime" := JStr (file_mtime self)]>
        (<["file_type" := JStr (file_type self)]>
        (<["results" := JDict (result_to_dict <$> results self)]> ∅)))))))).

(** The dataclasses check no types when an object is built, so
    [from_dict] can return an object whose attributes are not of the
    annotated types.  Such an object is [Untyped]; an object that
    fits its class is [Typed]. *)
Inductive instance (A : Type) : Type :=
  | Typed (a : A)
  | Untyped.
Arguments Typed {A} a.
Arguments Untyped {A}.

Definition as_bool (v : json) : option bool :=
  match v with JBool b => Some b | _ => None end.
Definition as_int (v : json) : option Z :=
  match v with JInt z => Some z | _ => None end.
Definition as_str (v : json) : option string :=
  match v with JStr s => Some s | _ => None end.
Definition as_optional (v : json) : option (option string) :=
  match v with JNull => Some None | JStr s => Some (Some s) | _ => None end.
Definition as_dict (v : json) : option (gmap string json) :=
  match v with JDict m => Some m | _ => None end.

Definition is_dict (v : json) : bool :=
  match v with JDict _ => true | _ => false end.

(** The [AnalysisResult(...)] call in the loop of [from_dict], for
    an entry [r] that is a dict: [None] when an attribute is not of
    its annotated type. *)
Definition result_from_dict (key : string) (r : json) : option AnalysisResult :=
  match r with
  | JDict rm =>
      match as_bool (get rm "success" (JBool false)),
            as_dict (get rm "data" (JDict ∅)),
            as_optional (get rm "error" JNull),
            as_bool (get rm "truncated" (JBool false)) with
      | Some su, Some da, Some er, Some tr =>
          Some {| analyzer_name := key; success := su; data := da;
                  error := er; truncated := tr |}
      | _, _, _, _ => None
      end
  | _ => None
  end.

(** The loop of [from_dict] over [data.get("results", {}).items()]:
    [r.get] raises [AttributeError] on an entry that is not a dict. *)
Definition results_from_dict (items : gmap string json)
  : py_result (instance (gmap string AnalysisResult)) :=
  if forallb (fun kv => is_dict kv.2) (map_to_list items) then
    if forallb (fun kv => bool_decide (is_Some (result_from_dict kv.1 kv.2)))
               (map_to_list items)
    then Ok (Typed (map_imap result_from_dict items))
    else Ok Untyped
  else Raise AttributeError.

(** [Snapshot.from_dict] *)
Definition from_dict (d : json) : py_result (instance Snapshot) :=
  match d with
  | JDict m =>
      items ← match get m "results" (JDict ∅) with
              | JDict rm => Ok rm
              | _ => Raise AttributeError
              end;
      rs ← results_from_dict items;
      fp ← getitem m "filepath";
      ts ← getitem m "timestamp";
      fs ← getitem m "file_size";
      fm ← getitem m "file_mtime";
      let ft := get m "file_type" (JStr "unknown") in
      let nm := get m "name" JNull in
      match rs, as_str fp, as_str ts, as_int fs, as_str fm, as_str ft, as_optional nm with
      | Typed rs', Some fp', Some ts', Some fs', Some fm', Some ft', Some nm' =>
          Ok (Typed {| filepath := fp'; timestamp := ts'; file_size := fs';
                       file_mtime := fm'; file_type := ft'; name := nm';
                       results := rs' |})
      | _, _, _, _, _, _, _ => Ok Untyped
      end
  | _ => Raise AttributeError
  end.

End Core.
(** ** core.py: [class XCOFFValidator] *)

Module XCOFFValidator.
Import Py Core.

(** [class ValidationResult] *)
Record ValidationResult : Type := {
  valid : bool;
  vfile_type : option string;
  verror : option string;
  details : gmap string json;
}.

(** What the validator sees of a file: whether [os.access] grants
    reading, its bytes, and the [IOError] that opening or reading it
    raises, if any. *)
Record file : Type := {
  readable : bool;
  content : list byte;
  fault : option string;
}.

(** The files that exist, by path. *)
Definition filesystem : Type := string -> option file.

Global Instance byte_eq_dec : EqDecision byte := Byte.byte_eq_dec.

Definition MAGIC_32 : Z := 0x01DF.
Definition MAGIC_64 : Z := 0x01F7.
Definition AR_MAGIC : list byte := [x21; x3c; x61; x72; x63; x68; x3e; x0a].

(** A big-endian unsigned integer, as [struct.unpack] reads the
    fields [H] and [I] under [">"]. *)
Definition be_uint (bs : list byte) : Z :=
  fold_left (fun acc b => acc * 256 + Z.of_N (Byte.to_N b)) bs 0.

(** The slice [b[off : off + len]] *)
Definition slice (off len : nat) (b : list byte) : list byte :=
  firstn len (skipn off b).

(** [XCOFFValidator._validate_xcoff] *)
Definition _validate_xcoff (header : list byte) (file_size : Z) (file_type : string)
  : ValidationResult :=
  let magic := be_uint (slice 0 2 header) in
  let nscns := be_uint (slice 2 2 header) in
  let timdat := be_uint (slice 4 4 header) in
  let symptr := be_uint (slice 8 4 header) in
  let nsyms := be_uint (slice 12 4 header) in
  let opthdr := be_uint (slice 16 2 header) in
  let flags := be_uint (slice 18 2 header) in
  let details : gmap string json :=
    <["magic" := JStr ("0x" +:+ format_04X magic)]>
    (<["sections" := JInt nscns]>
    (<["timestamp" := JInt timdat]>
    (<["symbol_table_offset" := JInt symptr]>
    (<["symbol_count" := JInt nsyms]>
    (<["optional_header_size" := JInt opthdr]>
    (<["flags" := JStr ("0x" +:+ format_04X flags)]>
    (<["file_size" := JInt file_size]> ∅))))))) in
  let errors : list string :=
    ((if (1000 <? nscns)%Z then ["Suspicious section count: " +:+ str_of_int nscns] else [])
     ++ (if ((0 <? symptr) && (file_size <? symptr))%Z
         then ["Symbol table offset beyond file size"] else [])
     ++ (if (1024 <? opthdr)%Z
         then ["Suspicious optional header size: " +:+ str_of_int opthdr] else []))%list in
  match errors with
  | _ :: _ =>
      {| valid := false; vfile_type := Some file_type;
         verror := Some (join "; " errors); details := details |}
  | [] =>
      {| valid := true; vfile_type := Some file_type;
         verror := None; details := details |}
  end.

(** [XCOFFValidator.validate] *)
Definition validate (fs : filesystem) (filepath : string) : ValidationResult :=
  match fs filepath with
  | None =>
      {| valid := false; vfile_type := None;
         verror := Some ("File not found: " +:+ filepath); details := ∅ |}
  | Some f =>
      if negb (readable f) then
        {| valid := false; vfile_type := None;
           verror := Some ("File not readable: " +:+ filepath); details := ∅ |}
      else
        let file_size := Z.of_nat (length (content f)) in
        if (file_size <? 20)%Z then
          {| valid := false; vfile_type := None;
             verror := Some ("File too small: " +:+ str_of_int file_size +:+ " bytes");
             details := {["file_size" := JInt file_size]} |}
        else
          match fault f with
          | Some e =>
              {| valid := false; vfile_type := None;
                 verror := Some ("I/O error: " +:+ e); details := ∅ |}
          | None =>
              let header := firstn 20 (content f) in
              if bool_decide (firstn 8 header = AR_MAGIC) then
                {| valid := true; vfile_type := Some "archive"; verror := None;
                   details := {["file_size" := JInt file_size]} |}
              else
                let magic := be_uint (slice 0 2 header) in
                if (magic =? MAGIC_32)%Z then _validate_xcoff header file_size "xcoff32"
                else if (magic =? MAGIC_64)%Z then _validate_xcoff header file_size "xcoff64"
                else
                  {| valid := false; vfile_type := None;
                     verror := Some ("Invalid magic: 0x" +:+ format_04X magic);
                     details := <["magic" := JInt magic]>
                                {["file_size" := JInt file_size]} |}
          end
  end.

End XCOFFValidator.

(** ** core.py: [class ComparisonEngine] *)

Module ComparisonEngine.
Import Py Core.

(** [class ComparisonResult]; the values of [analyzer_diffs] are the
    dicts that [compare] and the diff routines build, one constructor
    per shape. *)
Inductive status : Type := StAdded | StRemoved.

Definition status_str (st : status) : string :=
  match st with
  | StAdded => "added"
  | StRemoved => "removed"
  end.

(** A hashable value (a member of a [set], a key of a [dict]) up to
    Python's [==]: [True] and [False] are the integers 1 and 0. *)
Inductive hkey : Type :=
  | HNone
  | HInt (z : Z)
  | HStr (s : string).

Global Instance hkey_eq_dec : EqDecision hkey.
Proof. solve_decision. Defined.

Global Instance hkey_countable : Countable hkey.
Proof.
  refine (inj_countable'
    (fun k => match k with
              | HNone => inl ()
              | HInt z => inr (inl z)
              | HStr s => inr (inr s)
              end)
    (fun x => match x with
              | inl _ => HNone
              | inr (inl z) => HInt z
              | inr (inr s) => HStr s
              end) _).
  intros []; reflexivity.
Defined.

(** One entry of the dict that [_diff_sections] returns. *)
Inductive section_change : Type :=
  | SecAdded (new : json)
  | SecRemoved (old : json)
  | SecModified (old new : json).

Inductive diff_entry : Type :=
  | DMetadata (old new : Z)
  | DStatus (st : status)
  | DWhat (added removed : list hkey) (unchanged : nat)
  | DSections (changes : gmap hkey section_change)
  | DLoader (imports exports : option (list hkey * list hkey))
  | DGeneric (old new : gmap string json).

Record ComparisonResult : Type := {
  filepath1 : string;
  filepath2 : string;
  has_differences : bool;
  summary : string;
  analyzer_diffs : gmap string diff_entry;
}.

(** [hash(v)]: lists and dicts are not hashable. *)
Definition hash_key (v : json) : py_result hkey :=
  match v with
  | JNull => Ok HNone
  | JBool b => Ok (HInt (if b then 1 else 0))
  | JInt z => Ok (HInt z)
  | JStr s => Ok (HStr s)
  | JList _ | JDict _ => Raise TypeError
  end.

(** The items that [for s in v] visits: the members of a list, the
    characters of a string, the keys of a dict; other values are not
    iterable. *)
Definition iterate (v : json) : py_result (list json) :=
  match v with
  | JList l => Ok l
  | JStr s => Ok (map (fun c => JStr (String c EmptyString)) (list_ascii_of_string s))
  | JDict m => Ok (map (fun kv => JStr kv.1) (map_to_list m))
  | JNull | JBool _ | JInt _ => Raise TypeError
  end.

(** [s[key]] for a string [key]: only a dict can be subscripted by a
    string. *)
Definition subscript (s : json) (key : string) : py_result json :=
  match s with
  | JDict m => getitem m key
  | _ => Raise TypeError
  end.

(** [s.get(key, dflt)]: only a dict has the method. *)
Definition get_method (s : json) (key : string) (dflt : json) : py_result json :=
  match s with
  | JDict m => Ok (get m key dflt)
  | _ => Raise AttributeError
  end.

(** [set(v)] *)
Definition to_set (v : json) : py_result (gset hkey) :=
  l ← iterate v;
  ks ← mapM hash_key l;
  Ok (list_to_set ks).

Definition nonempty_set (s : gset hkey) : bool := negb (bool_decide (s = ∅)).

(** [ComparisonEngine._diff_what] *)
Definition _diff_what (data1 data2 : gmap string json) : py_result (option diff_entry) :=
  strings1 ← to_set (get data1 "strings" (JList []));
  strings2 ← to_set (get data2 "strings" (JList []));
  let added := strings2 ∖ strings1 in
  let removed := strings1 ∖ strings2 in
  if nonempty_set added || nonempty_set removed then
    Ok (Some (DWhat (elements added) (elements removed) (size (strings1 ∩ strings2))))
  else Ok None.

(** The comprehension [{s["name"]: s for s in v}]: a later section
    replaces an earlier one of the same name. *)
Definition by_name (v : json) : py_result (gmap hkey json) :=
  l ← iterate v;
  pairs ← mapM (fun s => n ← subscript s "name"; k ← hash_key n; Ok (k, s)) l;
  Ok (foldl (fun acc (p : hkey * json) => <[p.1 := p.2]> acc) ∅ pairs).

(** The body of the loop of [_diff_sections] for one name. *)
Definition classify (s1 s2 : option json) : option section_change :=
  match s1, s2 with
  | None, Some new => Some (SecAdded new)
  | Some old, None => Some (SecRemoved old)
  | Some old, Some new =>
      if py_neqb old new then Some (SecModified old new) else None
  | None, None => None
  end.

(** [ComparisonEngine._diff_sections] *)
Definition _diff_sections (data1 data2 : gmap string json) : py_result (option diff_entry) :=
  secs1 ← by_name (get data1 "sections" (JList []));
  secs2 ← by_name (get data2 "sections" (JList []));
  let changes : gmap hkey section_change := merge classify secs1 secs2 in
  if bool_decide (changes = ∅) then Ok None else Ok (Some (DSections changes)).

(** [set(s.get("name", "") for s in v)] *)
Definition names_of (v : json) : py_result (gset hkey) :=
  l ← iterate v;
  ks ← mapM (fun s => n ← get_method s "name" (JStr ""); hash_key n) l;
  Ok (list_to_set ks).

Definition name_changes (old new : gset hkey) : option (list hkey * list hkey) :=
  if bool_decide (old = new) then None
  else Some (elements (new ∖ old), elements (old ∖ new)).

(** [ComparisonEngine._diff_loader] *)
Definition _diff_loader (data1 data2 : gmap string json) : py_result (option diff_entry) :=
  imp1 ← names_of (get data1 "imports" (JList []));
  imp2 ← names_of (get data2 "imports" (JList []));
  exp1 ← names_of (get data1 "exports" (JList []));
  exp2 ← names_of (get data2 "exports" (JList []));
  match name_changes imp1 imp2, name_changes exp1 exp2 with
  | None, None => Ok None
  | imports, exports => Ok (Some (DLoader imports exports))
  end.

(** [ComparisonEngine._diff_data] *)
Definition _diff_data (analyzer : string) (data1 data2 : gmap string json)
  : py_result (option diff_entry) :=
  if String.eqb analyzer "what" then _diff_what data1 data2
  else if String.eqb analyzer "dump-h" then _diff_sections data1 data2
  else if String.eqb analyzer "dump-T" then _diff_loader data1 data2
  else if py_neqb (JDict data1) (JDict data2) then Ok (Some (DGeneric data1 data2))
  else Ok None.

(** The body of the loop of [compare] for one analyzer name: the
    entry it stores in [diffs], if any. *)
Definition analyzer_entry (name : string) (r1 r2 : option AnalysisResult)
  : py_result (option diff_entry) :=
  match r1, r2 with
  | None, _ => Ok (Some (DStatus StAdded))
  | Some _, None => Ok (Some (DStatus StRemoved))
  | Some a, Some b =>
      if py_neqb (JDict (data a)) (JDict (data b)) then _diff_data name (data a) (data b)
      else Ok None
  end.

(** The loop of [compare] over [all_analyzers], threading [diffs]
    and [has_differences]. *)
Fixpoint compare_loop (snap1 snap2 : Snapshot) (names : list string)
    (acc : gmap string diff_entry * bool)
  : py_result (gmap string diff_entry * bool) :=
  match names with
  | [] => Ok acc
  | name :: rest =>
      e ← analyzer_entry name (results snap1 !! name) (results snap2 !! name);
      match e with
      | Some diff => compare_loop snap1 snap2 rest (<[name := diff]> acc.1, true)
      | None => compare_loop snap1 snap2 rest acc
      end
  end.

Section Summary.

(** [str] of a section entry, which [_build_summary] formats into
    the summary when a section is itself named "status"; the text
    is that of the Python runtime. *)
Variable repr_change : section_change -> string.

(** [len] of a section entry. *)
Definition change_len (c : section_change) : nat :=
  match c with
  | SecAdded _ | SecRemoved _ => 2
  | SecModified _ _ => 3
  end.

Definition str_of_len (n : nat) : string := str_of_int (Z.of_nat n).

(** The fragment of the summary for one entry of [diffs]. *)
Definition summary_part (name : string) (diff : diff_entry) : string :=
  if String.eqb name "_metadata" then "file size changed"
  else
    match diff with
    | DWhat added removed _ =>
        name +:+ ": +" +:+ str_of_len (length added)
             +:+ " -" +:+ str_of_len (length removed)
    | DStatus st => name +:+ ": " +:+ status_str st
    | DSections changes =>
        match changes !! HStr "added", changes !! HStr "removed" with
        | Some a, Some r =>
            name +:+ ": +" +:+ str_of_len (change_len a)
                 +:+ " -" +:+ str_of_len (change_len r)
        | _, _ =>
            match changes !! HStr "status" with
            | Some c => name +:+ ": " +:+ repr_change c
            | None => name +:+ ": changed"
            end
        end
    | DMetadata _ _ | DLoader _ _ | DGeneric _ _ => name +:+ ": changed"
    end.

(** [ComparisonEngine._build_summary] *)
Definition _build_summary (snap1 snap2 : Snapshot) (diffs : gmap string diff_entry)
  : string :=
  if bool_decide (diffs = ∅) then "No differences"
  else
    let parts := map (fun kv => summary_part kv.1 kv.2) (map_to_list diffs) in
    match parts with
    | [] => "differences found"
    | _ => join "; " parts
    end.

(** [ComparisonEngine.compare] *)
Definition compare (snap1 snap2 : Snapshot) : py_result ComparisonResult :=
  let start : gmap string diff_entry * bool :=
    if bool_decide (file_size snap1 ≠ file_size snap2)
    then ({["_metadata" := DMetadata (file_size snap1) (file_size snap2)]}, true)
    else (∅, false) in
  let all_analyzers := elements (dom (results snap1) ∪ dom (results snap2)) in
  acc ← compare_loop snap1 snap2 all_analyzers start;
  let summary := _build_summary snap1 snap2 acc.1 in
  Ok {| filepath1 := filepath snap1; filepath2 := filepath snap2;
        has_differences := acc.2; summary := summary;
        analyzer_diffs := acc.1 |}.

End Summary.

End ComparisonEngine.

(** ** analyzers.py: [class Analyzer] and the external commands *)

Module Analyzer.
Import Py Core.

Definition command : Type := list string.

(** What [subprocess.run] does with a command: it completes with an
    exit status and the two captured streams, it runs out of time
    ([subprocess.TimeoutExpired]), or it raises another exception
    [e], of which the analyzers use [str(e)]. *)
Inductive outcome : Type :=
  | Completed (returncode : Z) (stdout stderr : string)
  | TimedOut
  | Failed (msg : string).

(** The platform's commands: the outcome of each command line under
    a time limit. *)
Definition runner : Type := command -> Z -> outcome.

(** [Analyzer._run_command], with the list of the commands it
    started. *)
Definition _run_command (run : runner) (cmd : command) (timeout : Z)
  : outcome * list command :=
  (run cmd timeout, [cmd]).

(** [AnalysisResult(analyzer_name=..., success=False, error=...)] *)
Definition failed (name msg : string) : AnalysisResult :=
  {| analyzer_name := name; success := false; data := ∅;
     error := Some msg; truncated := false |}.

(** [AnalysisResult(analyzer_name=..., success=True, data=...)] *)
Definition succeeded (name : string) (d : gmap string json) : AnalysisResult :=
  {| analyzer_name := name; success := true; data := d;
     error := None; truncated := false |}.

(** [result.stderr.strip() or f"Exit code {result.returncode}"] *)
Definition exit_message (returncode : Z) (stderr : string) : string :=
  if truthy (strip stderr) then strip stderr
  else "Exit code " +:+ str_of_int returncode.

Definition timeout_message (timeout : Z) : string :=
  "Timeout after " +:+ str_of_int timeout +:+ "s".

(** [str(e)] for an exception raised while parsing.  The parsers
    raise nothing but the [ValueError] of [int]; the classes that
    carry no text here do not occur. *)
Definition exn_message (e : exn) : string :=
  match e with
  | KeyError k => "'" +:+ k +:+ "'"
  | ValueError m | OtherException m => m
  | AttributeError | TypeError | JSONDecodeError | UnicodeDecodeError
  | IsADirectoryError | NotADirectoryError | FileNotFoundError => ""
  end.

End Analyzer.

(** ** analyzers.py: [class WhatAnalyzer] *)

Module WhatAnalyzer.
Import Py Core Analyzer.

Definition name : string := "what".

(** [WhatAnalyzer._parse_output] *)
Definition _parse_output (output : string) : list string :=
  filter (fun line => truthy line && negb (endswith_char ":" line) = true)
         (map strip (splitlines output)).

(** [WhatAnalyzer.analyze] *)
Definition analyze (run : runner) (filepath : string) (timeout : Z)
  : AnalysisResult * list command :=
  let '(result, started) := _run_command run ["what"; filepath] timeout in
  (match result with
   | Completed returncode stdout stderr =>
       if negb (returncode =? 0)%Z && negb (truthy stdout) then
         failed name (exit_message returncode stderr)
       else
         let strings := _parse_output stdout in
         succeeded name
           (<["strings" := JList (map JStr strings)]>
            {["count" := JInt (Z.of_nat (length strings))]})
   | TimedOut => failed name (timeout_message timeout)
   | Failed msg => failed name msg
   end, started).

End WhatAnalyzer.

(** ** analyzers.py: [class DumpHeadersAnalyzer] *)

Module DumpHeadersAnalyzer.
Import Py Core Analyzer.

Definition name : string := "dump-h".

(** The header row of the white-space table:
    ["Idx" in line and "Name" in line]. *)
Definition is_header_row (line : string) : bool :=
  contains "Idx" line && contains "Name" line.

(** The state of the loop of [_parse_output]. *)
Record table_state : Type := {
  sections : list json;
  in_section_table : bool;
  header_line : option string;
}.

(** [parts[i]] when [len(parts) >= i + 1], stored under [key]. *)
Definition with_field (key : string) (i : nat) (parts : list string)
    (section : gmap string json) : gmap string json :=
  match parts !! i with
  | Some v => <[key := JStr v]> section
  | None => section
  end.

(** The section that a row of the table describes. *)
Definition table_section (parts : list string) : py_result (option json) :=
  match parts with
  | p0 :: p1 :: _ =>
      if isdigit p0 then
        index ← py_int p0;
        let section : gmap string json :=
          <["index" := JInt index]> {["name" := JStr p1]} in
        let section := with_field "size" 2 parts section in
        let section := with_field "vma" 3 parts section in
        let section := with_field "lma" 4 parts section in
        let section := with_field "file_offset" 5 parts section in
        Ok (Some (JDict section))
      else Ok None
  | _ => Ok None
  end.

(** One turn of the loop of [_parse_output]. *)
Definition table_step (st : table_state) (raw_line : string) : py_result table_state :=
  let line := strip raw_line in
  if negb (truthy line) then Ok st
  else if is_header_row line then
    Ok {| sections := sections st; in_section_table := true;
          header_line := Some line |}
  else if in_section_table st then
    sec ← table_section (split line);
    match sec with
    | Some section =>
        Ok {| sections := (sections st ++ [section])%list;
              in_section_table := in_section_table st;
              header_line := header_line st |}
    | None => Ok st
    end
  else Ok st.

Fixpoint table_loop (st : table_state) (lines : list string) : py_result table_state :=
  match lines with
  | [] => Ok st
  | line :: rest => st' ← table_step st line; table_loop st' rest
  end.

(** One match of [section_pattern]: its four groups. *)
Record section_match : Type := {
  group1 : string;
  group2 : string;
  group3 : string;
  group4 : string;
}.

(** The character classes of the pattern: [\s], [\d], [\w] and
    [[0-9a-fA-Fx]]. *)
Definition re_space : ascii -> bool := isspace.
Definition re_digit : ascii -> bool := isdecimal.
Definition re_word (c : ascii) : bool := isalnum c || char_eqb c "_".
Definition re_hex (c : ascii) : bool :=
  in_range 48 57 c || in_range 97 102 c || in_range 65 70 c || char_eqb c "x".

(** A match of
    [\s*(\d+)\s+(\.\w+|\w+)\s+([0-9a-fA-Fx]+)\s+([0-9a-fA-Fx]+)]
    at the start of [s], with the text that follows it.  Each
    repetition is greedy and is followed by a class disjoint from
    its own, so that the longest run is the only one that can lead
    to a match. *)
Definition match_here (s : string) : option (section_match * string) :=
  let '(_, s) := span re_space s in
  let '(g1, s) := span re_digit s in
  let '(w1, s) := span re_space s in
  let '(dot, s) := match s with
                   | String "." s' => (".", s')
                   | _ => (EmptyString, s)
                   end in
  let '(word, s) := span re_word s in
  let '(w2, s) := span re_space s in
  let '(g3, s) := span re_hex s in
  let '(w3, s) := span re_space s in
  let '(g4, s) := span re_hex s in
  if truthy g1 && truthy w1 && truthy word && truthy w2 && truthy g3
     && truthy w3 && truthy g4
  then Some ({| group1 := g1; group2 := dot +:+ word; group3 := g3; group4 := g4 |}, s)
  else None.

(** [section_pattern.finditer(output)] under [re.MULTILINE]: the
    matches from left to right, none overlapping another.  [bol]
    holds where [^] matches (at the start of the text and after a
    LF); [skip] counts the characters of the last match that are
    still to be passed. *)
Fixpoint finditer_from (bol : bool) (skip : nat) (s : string) : list section_match :=
  match s with
  | EmptyString => []
  | String c rest =>
      let next_bol := char_eqb c "010" in
      match skip with
      | S k => finditer_from next_bol k rest
      | O =>
          if bol then
            match match_here s with
            | Some (m, after) =>
                m :: finditer_from next_bol
                       (String.length s - String.length after - 1) rest
            | None => finditer_from next_bol 0 rest
            end
          else finditer_from next_bol 0 rest
      end
  end.

Definition finditer (output : string) : list section_match :=
  finditer_from true 0 output.

(** The dict that [_parse_aix_format] appends for one match. *)
Definition aix_section (m : section_match) : py_result json :=
  index ← py_int (group1 m);
  Ok (JDict (<["index" := JInt index]>
            (<["name" := JStr (group2 m)]>
            (<["size" := JStr (group3 m)]>
            {["address" := JStr (group4 m)]})))).

(** [DumpHeadersAnalyzer._parse_aix_format] *)
Definition _parse_aix_format (output : string) : py_result (list json) :=
  mapM aix_section (finditer output).

(** [DumpHeadersAnalyzer._parse_output] *)
Definition _parse_output (output : string) : py_result (list json) :=
  st ← table_loop {| sections := []; in_section_table := false; header_line := None |}
                  (splitlines output);
  match sections st with
  | [] => _parse_aix_format output
  | found => Ok found
  end.

(** [DumpHeadersAnalyzer.analyze] *)
Definition analyze (run : runner) (filepath : string) (timeout : Z)
  : AnalysisResult * list command :=
  let '(result, started) := _run_command run ["dump"; "-h"; filepath] timeout in
  (match result with
   | Completed returncode stdout stderr =>
       if negb (returncode =? 0)%Z then failed name (exit_message returncode stderr)
       else
         match _parse_output stdout with
         | Ok sections =>
             succeeded name
               (<["sections" := JList sections]>
               (<["count" := JInt (Z.of_nat (length sections))]>
                {["raw" := JStr stdout]}))
         | Raise e => failed name (exn_message e)
         end
   | TimedOut => failed name (timeout_message timeout)
   | Failed msg => failed name msg
   end, started).

End DumpHeadersAnalyzer.

(** ** analyzers.py: [class DumpLoaderAnalyzer] *)

Module DumpLoaderAnalyzer.
Import Py Core Analyzer.

Definition name : string := "dump-T".

Definition is_field_keyword (part : string) : bool :=
  bool_decide (part ∈ ["IMP"; "EXP"; "EXTref"; "SECdef"; "DS"]).

(** [DumpLoaderAnalyzer._extract_symbol_name]; [rparts] is
    [reversed(parts)]. *)
Fixpoint name_among (rparts : list string) : option string :=
  match rparts with
  | [] => None
  | part :: rest =>
      if is_field_keyword part then name_among rest
      else if startswith "0x" part || startswith "[" part then name_among rest
      else if isdigit part then name_among rest
      else if truthy part && negb (startswith "." part) then Some part
      else name_among rest
  end.

Definition _extract_symbol_name (parts : list string) : option string :=
  name_among (rev parts).

(** [DumpLoaderAnalyzer._extract_address] *)
Fixpoint _extract_address (parts : list string) : option string :=
  match parts with
  | [] => None
  | part :: rest => if startswith "0x" part then Some part else _extract_address rest
  end.

Definition is_import_line (line : string) : bool :=
  contains "IMP" line || contains "EXTref" line.
Definition is_export_line (line : string) : bool :=
  contains "EXP" line || contains "SECdef" line.

Definition import_entry (symbol line : string) : json :=
  JDict (<["name" := JStr symbol]> (<["type" := JStr "IMP"]> {["raw" := JStr line]})).

Definition export_entry (symbol : string) (address : option string) (line : string) : json :=
  JDict (<["name" := JStr symbol]>
        (<["type" := JStr "EXP"]>
        (<["address" := of_optional address]> {["raw" := JStr line]}))).

(** One turn of the loop of [_parse_output], on the lists [imports]
    and [exports] built so far. *)
Definition parse_line (acc : list json * list json) (raw_line : string)
  : list json * list json :=
  let '(imports, exports) := acc in
  let line := strip raw_line in
  if negb (truthy line) then acc
  else
    let parts := split line in
    if (length parts <? 4)%nat then acc
    else if is_import_line line then
      match _extract_symbol_name parts with
      | Some symbol => ((imports ++ [import_entry symbol line])%list, exports)
      | None => acc
      end
    else if is_export_line line then
      match _extract_symbol_name parts with
      | Some symbol =>
          let address := _extract_address parts in
          (imports, (exports ++ [export_entry symbol address line])%list)
      | None => acc
      end
    else acc.

(** [DumpLoaderAnalyzer._parse_output] on the lines of the output *)
Definition parse_lines (lines : list string) : list json * list json :=
  foldl parse_line ([], []) lines.

(** [DumpLoaderAnalyzer._parse_output] *)
Definition _parse_output (output : string) : list json * list json :=
  parse_lines (splitlines output).

(** [DumpLoaderAnalyzer.analyze] *)
Definition analyze (run : runner) (filepath : string) (timeout : Z)
  : AnalysisResult * list command :=
  let '(result, started) := _run_command run ["dump"; "-Tv"; filepath] timeout in
  (match result with
   | Completed returncode stdout stderr =>
       if negb (returncode =? 0)%Z then failed name (exit_message returncode stderr)
       else
         let '(imports, exports) := _parse_output stdout in
         succeeded name
           (<["imports" := JList imports]>
           (<["exports" := JList exports]>
           (<["import_count" := JInt (Z.of_nat (length imports))]>
           (<["export_count" := JInt (Z.of_nat (length exports))]>
            {["raw" := JStr stdout]}))))
   | TimedOut => failed name (timeout_message timeout)
   | Failed msg => failed name msg
   end, started).

End DumpLoaderAnalyzer.

(** ** analyzers.py: the registry; core.py: [class SnapshotManager] *)

Module SnapshotManager.
Import Py Core Analyzer.

(** The [analyze] method of an analyzer. *)
Definition analyzer : Type := runner -> string -> Z -> AnalysisResult * list command.

(** [get_all_analyzers()]: the three analyzers, in the order in which
    they are registered. *)
Definition get_all_analyzers : list (string * analyzer) :=
  [(WhatAnalyzer.name, WhatAnalyzer.analyze);
   (DumpHeadersAnalyzer.name, DumpHeadersAnalyzer.analyze);
   (DumpLoaderAnalyzer.name, DumpLoaderAnalyzer.analyze)].

(** [get_analyzer(name)] *)
Definition get_analyzer (name : string) : option analyzer :=
  (list_to_map get_all_analyzers : gmap string analyzer) !! name.

(** The keys of a dict comprehension, in the order in which it first
    meets them. *)
Fixpoint first_seen {A : Type} (seen : list string) (l : list (string * A))
  : list (string * A) :=
  match l with
  | [] => []
  | (n, a) :: rest =>
      if bool_decide (n ∈ seen) then first_seen seen rest
      else (n, a) :: first_seen (n :: seen) rest
  end.

(** The analyzers that [capture] runs: those asked for that the
    registry knows, or all of them, without those excluded. *)
Definition selected (analyzers exclude : option (list string)) : list (string * analyzer) :=
  let chosen :=
    match analyzers with
    | Some ((_ :: _) as wanted) =>
        first_seen [] (omap (fun n => pair n <$> get_analyzer n) wanted)
    | _ => get_all_analyzers
    end in
  match exclude with
  | Some ((_ :: _) as unwanted) =>
      filter (fun na : string * analyzer => na.1 ∉ unwanted) chosen
  | _ => chosen
  end.

(** The machine that a capture runs on: its files, its commands, its
    clock, and the canonical form and the modification time of a
    path. *)
Record host : Type := {
  files : XCOFFValidator.filesystem;
  run : runner;
  now : string;
  resolve : string -> string;
  mtime : string -> string;
}.

(** [SnapshotManager.capture], with the commands started.  [path.stat()]
    raises when the file is not there. *)
Definition capture (h : host) (timeout : Z) (filepath : string)
    (analyzers exclude : option (list string))
  : py_result (Snapshot * list command) :=
  match files h filepath with
  | None => Raise (OtherException ("No such file or directory: " +:+ filepath))
  | Some f =>
      let validation := XCOFFValidator.validate (files h) filepath in
      let file_type :=
        match XCOFFValidator.vfile_type validation with
        | Some t => if truthy t then t else "unknown"
        | None => "unknown"
        end in
      let runs :=
        map (fun na : string * analyzer => (na.1, na.2 (run h) filepath timeout))
            (selected analyzers exclude) in
      Ok ({| Core.filepath := resolve h filepath; timestamp := now h;
             file_size := Z.of_nat (length (XCOFFValidator.content f));
             file_mtime := mtime h filepath; Core.file_type := file_type;
             name := None;
             results := foldl (fun m (nr : string * (AnalysisResult * list command)) =>
                                 <[nr.1 := nr.2.1]> m) ∅ runs |},
          concat (map (fun nr : string * (AnalysisResult * list command) => nr.2.2) runs))
  end.

End SnapshotManager.

(** ** xcoff_snapshot.py: the loader capture of [class XCOFFSnapshot] *)

Module XCOFFSnapshot.
Import Py Core Analyzer.

(** [XCOFFSnapshot.run_command]: the triple of exit status and
    streams, with [-1] and a message for a command that did not
    complete. *)
Definition run_command (run : runner) (cmd : command)
  : (Z * string * string) * list command :=
  (match run cmd 60 with
   | Completed returncode stdout stderr => (returncode, stdout, stderr)
   | TimedOut => (-1, "", "Command timed out")
   | Failed msg => (-1, "", msg)
   end, [cmd]).

(** [XCOFFSnapshot.capture_loader_symbols] up to the call of
    [_parse_loader_symbols]: the message appended to [errors], or
    the output handed to the parser. *)
Definition capture_loader_symbols (run : runner) (bits : Z) (filepath : string)
  : (string + string) * list command :=
  let x_flag := "-X" +:+ str_of_int bits in
  let '((rc, stdout, stderr), started1) :=
    run_command run ["dump"; x_flag; "-Tv"; filepath] in
  if negb (rc =? 0)%Z then
    let '((rc, stdout, stderr), started2) :=
      run_command run ["dump"; x_flag; "-T"; filepath] in
    if negb (rc =? 0)%Z then
      (inl ("dump -T failed: " +:+ stderr), (started1 ++ started2)%list)
    else (inr stdout, (started1 ++ started2)%list)
  else (inr stdout, started1).

End XCOFFSnapshot.

(** ** storage.py: [class Storage] *)

Module Storage.
Import Py Core.

(** [Storage._filepath_to_relpath] *)
Definition _filepath_to_relpath (filepath : string) : string :=
  let rel := lstrip "\" (lstrip "/" filepath) in
  let rel := remove_char ":" rel in
  rel +:+ ".json".

(** [Storage._relpath_to_filepath] *)
Definition _relpath_to_filepath (relpath : string) : string :=
  let fp := rstrip ".json" relpath in
  "/" +:+ fp.

(** *** Record files *)

(** What a record file holds, by what [open] and [json.load] make of
    it: a text that denotes a JSON value, a text that is not JSON, or
    bytes that are no text in the encoding of the host.  [json.dump]
    writes a text that denotes the value it is given. *)
Inductive file_content : Type :=
  | Document (v : json)
  | Garbage (text : string)
  | Undecodable.

Definition json_dump (v : json) : file_content := Document v.

Definition json_load (c : file_content) : py_result json :=
  match c with
  | Document v => Ok v
  | Garbage _ => Raise JSONDecodeError
  | Undecodable => Raise UnicodeDecodeError
  end.

(** *** Paths *)

(** A [pathlib] path anchored at the root, by its components.
    [pathlib] drops empty components and [.] when it reads a segment,
    and keeps [..]. *)
Definition path : Type := list string.

Definition path_parts (segment : string) : path :=
  filter (fun c : string => c <> "" /\ c <> ".") (split_on "/" segment).

(** [base / segment]: a segment that starts with a separator is
    anchored at the root itself and takes the place of [base]. *)
Definition joinpath (base : path) (segment : string) : path :=
  if startswith "/" segment then path_parts segment
  else (base ++ path_parts segment)%list.

(** [p.parent] and [p.name] *)
Definition parent (p : path) : path := removelast p.
Definition file_name (p : path) : string := List.last p "".

(** *** The file system *)

(** A [Storage] object with the file system of its host: [db_path],
    taken as anchored at the root; the directories and the regular
    files of the host by their location, which is the list of the
    names from the root down to them; and the text of
    [registry.txt], in the directory at [db_path], when that file is
    there.  The root is a directory.  The host has no symbolic
    links, tells names apart by their characters, and denies no
    access.  ([registry.txt] is kept apart from [records], which
    hold the other regular files: the name of a record ends in
    [.json].) *)
Record database : Type := {
  db_path : path;
  dirs : gset path;
  records : gmap path file_content;
  registry : option string;
}.

Definition is_dir (ds : gset path) (location : path) : bool :=
  bool_decide (location = [] \/ location ∈ ds).

(** The location that a component leads to from the directory
    [cur]: its parent for [..] (the root is its own parent), the
    entry of that name otherwise. *)
Definition enter (cur : path) (c : string) : path :=
  if bool_decide (c = "..") then removelast cur else (cur ++ [c])%list.

(** The location that the host finds for a path, one component after
    the other: each component is looked up in a directory that must
    be there. *)
Fixpoint locate_from (ds : gset path) (cur : path) (p : path) : option path :=
  match p with
  | [] => Some cur
  | c :: rest => if is_dir ds cur then locate_from ds (enter cur c) rest else None
  end.

Definition locate (ds : gset path) (p : path) : option path := locate_from ds [] p.

(** What [os.stat] finds at a path. *)
Inductive entry : Type :=
  | Regular (c : file_content)
  | Directory.

Definition stat (db : database) (p : path) : option entry :=
  location ← locate (dirs db) p;
  match records db !! location with
  | Some c => Some (Regular c)
  | None => if is_dir (dirs db) location then Some Directory else None
  end.

(** The path leads to [registry.txt]. *)
Definition at_registry (db : database) (p : path) : bool :=
  match registry db, locate (dirs db) (db_path db), locate (dirs db) p with
  | Some _, Some home, Some location =>
      bool_decide (location = (home ++ ["registry.txt"])%list)
  | _, _, _ => false
  end.

(** [p.exists()] *)
Definition path_exists (db : database) (p : path) : bool :=
  bool_decide (is_Some (stat db p)) || at_registry db p.

(** [p.mkdir(parents=True, exist_ok=True)] for a path [p] that goes
    on from [cur]: every directory on the way is made when it is not
    there; the result is the directories afterwards and the location
    of [p].  (Where a regular file is in the way the host refuses
    with an [OSError].) *)
Fixpoint mkdir_from (ds : gset path) (cur : path) (p : path) : gset path * path :=
  match p with
  | [] => (ds, cur)
  | c :: rest => mkdir_from ({[enter cur c]} ∪ ds) (enter cur c) rest
  end.

Definition mkdir_parents (ds : gset path) (p : path) : gset path * path :=
  mkdir_from ds [] p.

(** [self.db_path / "snapshots" / name] *)
Definition snap_dir (db : database) (name : string) : path :=
  joinpath (joinpath (db_path db) "snapshots") name.

(** [snap_dir / rel_path] for a file path *)
Definition json_path (db : database) (name filepath : string) : path :=
  joinpath (snap_dir db name) (_filepath_to_relpath filepath).

(** [location] lies below the directory [d]. *)
Definition below (d location : path) : bool :=
  (length d <? length location)%nat && bool_decide (take (length d) location = d).

(** Every directory between [d] and [location] is there. *)
Definition reachable (ds : gset path) (d location : path) : bool :=
  forallb (fun k => is_dir ds (take k location))
          (seq (length d) (length location - length d)).

(** [snap_dir.rglob("*.json")], each path relative to [snap_dir]:
    the regular files and the directories below [snap_dir] whose
    name ends in [.json].  The host gives them in an order of its
    own; the model takes the order of [elements]. *)
Definition rglob_json (db : database) (snap : path) : list path :=
  match locate (dirs db) snap with
  | Some d =>
      if is_dir (dirs db) d then
        map (drop (length d))
            (filter (fun location =>
                       below d location && reachable (dirs db) d location
                       && endswith ".json" (file_name location) = true)
                    (elements (dirs db ∪ dom (records db))))
      else []
  | None => []
  end.

(** *** The registry *)

(** The loop that reads [registry.txt] into [entries]. *)
Definition read_row (entries : gmap string (list string)) (raw_line : string)
  : gmap string (list string) :=
  let line := strip raw_line in
  if startswith "#" line || negb (truthy line) then entries
  else
    let parts := split_on "009" line in
    if (3 <=? length parts)%nat then <[List.hd "" parts := parts]> entries
    else entries.

Definition read_registry (text : string) : gmap string (list string) :=
  foldl read_row ∅ (text_lines text).

Definition LF : string := String "010" EmptyString.
Definition TAB : string := String "009" EmptyString.

(** The text that [_write_registry] writes: two lines of comment,
    and one line for each entry, by the order of the names. *)
Definition registry_text (entries : gmap string (list string)) : string :=
  "# XCOFF Scan Registry" +:+ LF
  +:+ "# NAME<TAB>CREATED<TAB>FILE_COUNT<TAB>DESCRIPTION" +:+ LF
  +:+ foldr (fun name rest => join TAB (default [] (entries !! name)) +:+ LF +:+ rest)
            EmptyString
            (merge_sort str_le (elements (dom entries))).

(** [Storage._write_registry] *)
Definition _write_registry (entries : gmap string (list string)) (db : database)
  : database :=
  {| db_path := db_path db;
     dirs := (mkdir_parents (dirs db) (db_path db)).1;
     records := records db;
     registry := Some (registry_text entries) |}.

(** The entries that the methods read: none when there is no
    [registry.txt]. *)
Definition registry_entries (db : database) : gmap string (list string) :=
  match registry db with
  | Some text => read_registry text
  | None => ∅
  end.

(** [Storage._update_registry], at the time [now] *)
Definition _update_registry (now name : string) (db : database) : database :=
  let file_count := length (rglob_json db (snap_dir db name)) in
  let entries := registry_entries db in
  let entries :=
    match entries !! name with
    | Some parts =>
        <[name := <[2%nat := str_of_int (Z.of_nat file_count)]> parts]> entries
    | None => <[name := [name; now; str_of_int (Z.of_nat file_count); ""]]> entries
    end in
  _write_registry entries db.

(** [Storage._remove_from_registry] *)
Definition _remove_from_registry (name : string) (db : database) : database :=
  match registry db with
  | None => db
  | Some text =>
      _write_registry (filter (fun kv : string * list string => kv.1 <> name)
                              (read_registry text)) db
  end.

(** *** Snapshots *)

(** [Storage.store], at the time [now]: the database afterwards, the
    snapshot with its [name] set, and the path of the record.  The
    method makes the directories on the way, writes the record and
    brings the registry up to date.  (The host refuses with an
    exception, and the method stores nothing, where a regular file
    stands in the place of one of the directories or a directory in
    the place of the record, and where a name is one that the host
    does not take; the model is of the store that the host accepts.) *)
Definition store (now : string) (db : database) (name : string) (snapshot : Snapshot)
  : database * Snapshot * path :=
  let snapshot :=
    {| filepath := filepath snapshot; timestamp := timestamp snapshot;
       file_size := file_size snapshot; file_mtime := file_mtime snapshot;
       file_type := file_type snapshot; Core.name := Some name;
       results := results snapshot |} in
  let path := json_path db name (filepath snapshot) in
  let made := (mkdir_parents (dirs db) (snap_dir db name)).1 in
  let '(made, directory) := mkdir_parents made (parent path) in
  let db := {| db_path := db_path db;
               dirs := made;
               records := <[enter directory (file_name path)
                            := json_dump (to_dict snapshot)]> (records db);
               registry := registry db |} in
  (_update_registry now name db, snapshot, path).

(** [Storage.load]: [open] raises [IsADirectoryError] on a
    directory. *)
Definition load (db : database) (name filepath : string)
  : py_result (option (instance Snapshot)) :=
  let path := json_path db name filepath in
  match stat db path with
  | None => Ok None
  | Some Directory => Raise IsADirectoryError
  | Some (Regular text) =>
      match (d ← json_load text; from_dict d) with
      | Ok snapshot => Ok (Some snapshot)
      | Raise JSONDecodeError | Raise (KeyError _) => Ok None
      | Raise e => Raise e
      end
  end.

(** [Storage.list_files] *)
Definition list_files (db : database) (name : string) : list string :=
  let snap := snap_dir db name in
  if negb (path_exists db snap) then []
  else map (fun rel => _relpath_to_filepath (join "/" rel)) (rglob_json db snap).

(** The file system after [shutil.rmtree] has removed what is below
    the directory at [d]. *)
Definition emptied (db : database) (d : path) : database :=
  {| db_path := db_path db;
     dirs := filter (fun location => below d location = false) (dirs db);
     records := filter (fun kv : path * file_content => below d kv.1 = false)
                       (records db);
     registry :=
       match locate (dirs db) (db_path db) with
       | Some home => if below d (home ++ ["registry.txt"])%list then None
                      else registry db
       | None => registry db
       end |}.

(** [Storage.delete_snapshot].  [shutil.rmtree] raises on a regular
    file; it removes what is below the directory and then the
    directory itself, by the path it was given, which the host must
    still find. *)
Definition delete_snapshot (db : database) (name : string)
  : py_result (database * bool) :=
  let snap := snap_dir db name in
  if at_registry db snap then Raise NotADirectoryError else
  match stat db snap with
  | None => Ok (db, false)
  | Some (Regular _) => Raise NotADirectoryError
  | Some Directory =>
      let d := default [] (locate (dirs db) snap) in
      let db := emptied db d in
      if bool_decide (locate (dirs db) snap = Some d /\ d <> []) then
        let db := {| db_path := db_path db; dirs := dirs db ∖ {[d]};
                     records := records db; registry := registry db |} in
        Ok (_remove_from_registry name db, true)
      else Raise FileNotFoundError
  end.

End Storage.

(** * Notions used in the statements *)

Module Notions.
Import Py Core ComparisonEngine Analyzer Storage XCOFFValidator.


(** The [results] of a snapshot map the name of each analyzer to its
    result: every result is filed under its own [analyzer_name]. *)
Definition keyed (s : Snapshot) : Prop :=
  forall key r, results s !! key = Some r -> analyzer_name r = key.

(** How an entry of [analyzer_diffs] classifies its analyzer. *)
Inductive change_kind : Type := KAdded | KRemoved | KChanged.

Definition kind_of (d : diff_entry) : change_kind :=
  match d with
  | DStatus StAdded => KAdded
  | DStatus StRemoved => KRemoved
  | _ => KChanged
  end.

Definition mirror_kind (k : change_kind) : change_kind :=
  match k with
  | KAdded => KRemoved
  | KRemoved => KAdded
  | KChanged => KChanged
  end.

(** Two calls return together or raise together, and their values
    are related by [P] when they return. *)
Definition alike {A : Type} (P : A -> A -> Prop) (x y : py_result A) : Prop :=
  match x, y with
  | Ok a, Ok b => P a b
  | Raise _, Raise _ => True
  | _, _ => False
  end.

(** What a diff routine returns in the two directions: nothing both
    times, or a payload both times. *)
Definition payload_alike (e1 e2 : option diff_entry) : Prop :=
  match e1, e2 with
  | Some a, Some b => kind_of a = KChanged /\ kind_of b = KChanged
  | None, None => True
  | _, _ => False
  end.

(** The two results classify the same names, added and removed
    exchanged. *)
Definition mirrored (c1 c2 : ComparisonResult) : Prop :=
  dom (analyzer_diffs c1) = dom (analyzer_diffs c2)
  /\ forall n, kind_of <$> analyzer_diffs c2 !! n
               = mirror_kind <$> (kind_of <$> analyzer_diffs c1 !! n).

Definition start (a b : Snapshot) : gmap string diff_entry * bool :=
  if bool_decide (file_size a ≠ file_size b)
  then ({["_metadata" := DMetadata (file_size a) (file_size b)]}, true)
  else (∅, false).

Definition is_str (v : json) : bool :=
  match v with JStr _ => true | _ => false end.

(** A list of strings, as [data.strings] of the identification
    analyzer. *)
Definition string_list (v : json) : bool :=
  match v with JList l => forallb is_str l | _ => false end.

(** A dict whose [name] is a string. *)
Definition named (s : json) : bool :=
  match s with
  | JDict m => match m !! "name" with Some (JStr _) => true | _ => false end
  | _ => false
  end.

(** A list of named dicts, as [data.sections], [data.imports] and
    [data.exports] of the two dump analyzers. *)
Definition named_list (v : json) : bool :=
  match v with JList l => forallb named l | _ => false end.

Definition shaped (analyzer : string) (d : gmap string json) : bool :=
  if String.eqb analyzer "what" then string_list (get d "strings" (JList []))
  else if String.eqb analyzer "dump-h" then named_list (get d "sections" (JList []))
  else if String.eqb analyzer "dump-T" then
    named_list (get d "imports" (JList [])) && named_list (get d "exports" (JList []))
  else true.

Definition well_shaped (s : Snapshot) : bool :=
  forallb (fun kv : string * AnalysisResult => shaped kv.1 (data kv.2))
          (map_to_list (results s)).



(** A token that [_extract_symbol_name] passes over: a field
    keyword, a value in hexadecimal, a bracketed index, a number, or
    a token that is empty or starts with a dot. *)
Definition is_structural (part : string) : bool :=
  DumpLoaderAnalyzer.is_field_keyword part
  || startswith "0x" part || startswith "[" part
  || isdigit part
  || negb (truthy part) || startswith "." part.

(** The first character of a string is not white space. *)
Definition starts_clean (s : string) : Prop :=
  match s with
  | String c _ => isspace c = false
  | EmptyString => True
  end.

(** The last character of a string is not white space. *)
Definition ends_clean (s : string) : Prop :=
  match last_char s with
  | Some c => isspace c = false
  | None => True
  end.



(** A name that is one component of a path: not empty, without
    separator, and neither [.] nor [..]. *)
Definition plain (name : string) : Prop :=
  mem_char "/" name = false /\ name <> "" /\ name <> "." /\ name <> "..".

(** A file path whose record lies in the directory of its snapshot
    set: the relative path of the record is not anchored at the root
    and has no [..]. *)
Definition tame (filepath : string) : Prop :=
  startswith "/" (_filepath_to_relpath filepath) = false
  /\ ".." ∉ path_parts (_filepath_to_relpath filepath).

(** The state of a host: [db_path] is a location; every directory
    and every regular file lies in a directory; and so does
    [registry.txt] when it is there. *)
Definition well_formed (db : database) : bool :=
  bool_decide (".." ∉ db_path db)
  && forallb (fun location => is_dir (dirs db) (removelast location))
             (elements (dirs db ∪ dom (records db)))
  && match registry db with
     | Some _ => is_dir (dirs db) (db_path db)
     | None => true
     end.

(** Every directory on the way from [cur] down the components [p]
    is there. *)
Fixpoint way (ds : gset path) (cur p : path) : bool :=
  match p with
  | [] => true
  | c :: rest => is_dir ds cur && way ds (cur ++ [c])%list rest
  end.







(** An analyzer name passes the selection of [capture]: it is among
    the names asked for, when any are, and not among those excluded. *)
Definition is_selected (analyzers exclude : option (list string)) (k : string) : bool :=
  match analyzers with
  | Some ((_ :: _) as wanted) => bool_decide (k ∈ wanted)
  | _ => true
  end
  && match exclude with
     | Some ((_ :: _) as unwanted) => negb (bool_decide (k ∈ unwanted))
     | _ => true
     end.

(** The result of a registered analyzer, or a failure under no name
    for a name that is not registered. *)
Definition run_of (run : runner) (filepath : string) (timeout : Z) (n : string)
  : AnalysisResult * list command :=
  match SnapshotManager.get_analyzer n with
  | Some a => a run filepath timeout
  | None => (failed "" "", [])
  end.

End Notions.

(** * Inputs used in the examples *)

Module Inputs.
Import Py Core ComparisonEngine Analyzer Storage XCOFFValidator.

(** A database directory that has not been made yet. *)
Definition empty_database : database :=
  {| db_path := ["home"; "user"; ".xcoffscandb"];
     dirs := ∅; records := ∅; registry := None |}.

(** A database whose snapshot set [base] holds one record, for
    [/usr/bin/cat], with a given content. *)
Definition database_with (content : file_content) : database :=
  {| db_path := ["home"; "user"; ".xcoffscandb"];
     dirs := (mkdir_parents ∅ ["home"; "user"; ".xcoffscandb"; "snapshots";
                               "base"; "usr"; "bin"]).1;
     records := {[ ["home"; "user"; ".xcoffscandb"; "snapshots"; "base";
                    "usr"; "bin"; "cat.json"] := content ]};
     registry := None |}.

Definition what_v1 : AnalysisResult :=
  {| analyzer_name := "what"; success := true;
     data := {["strings" := JList [JStr "@(#) libfoo 1.0"]]};
     error := None; truncated := false |}.

Definition what_v2 : AnalysisResult :=
  {| analyzer_name := "what"; success := true;
     data := {["strings" := JList [JStr "@(#) libfoo 1.1"]]};
     error := None; truncated := false |}.

Definition loader_v1 : AnalysisResult :=
  {| analyzer_name := "dump-T"; success := true;
     data := {["exports" := JList []]};
     error := None; truncated := false |}.

Definition before : Snapshot :=
  {| filepath := "/usr/lib/libfoo.a"; timestamp := "2024-01-01T00:00:00";
     file_size := 4096; file_mtime := "2023-12-31T00:00:00";
     file_type := "xcoff32"; name := None;
     results := <["what" := what_v1]> {["dump-T" := loader_v1]} |}.

Definition after : Snapshot :=
  {| filepath := "/usr/lib/libfoo.a"; timestamp := "2024-02-01T00:00:00";
     file_size := 4100; file_mtime := "2024-01-31T00:00:00";
     file_type := "xcoff32"; name := None;
     results := {["what" := what_v2]} |}.

(** A platform whose [dump] rejects the verbose flag and prints the
    loader table without it. *)
Definition terse_dump : runner := fun cmd _ =>
  if bool_decide ("-Tv" ∈ cmd) then Completed 1 "" "dump: -v: not supported"
  else Completed 0 "[0] 0x10000128 .text EXP DS SECdef [noIMid] main" "".

Definition crafted_header : list byte :=
  [x01; xdf; x00; x03; x00; x00; x00; x01; x00; x00; x10; x00;
   x00; x00; x00; x05; x00; x48; x10; x02; x00; x00].

Definition crafted_file : file :=
  {| readable := true; content := crafted_header;
     fault := None |}.



(** The snapshot [before] taken again later, with the
    identification command failing after it printed its strings. *)
Definition recaptured : Snapshot :=
  {| filepath := "/usr/lib/libfoo.a"; timestamp := "2024-03-01T00:00:00";
     file_size := 4096; file_mtime := "2023-12-31T00:00:00";
     file_type := "xcoff32"; name := Some "base";
     results :=
       <["what" := {| analyzer_name := "what"; success := false;
                      data := {["strings" := JList [JStr "@(#) libfoo 1.0"]]};
                      error := Some "interrupted"; truncated := true |}]>
       {["dump-T" := loader_v1]} |}.

(** Loader data with one export, before and after the symbol moved. *)
Definition main_at (address : string) : gmap string json :=
  {["exports" :=
      JList [DumpLoaderAnalyzer.export_entry "main" (Some address)
               ("[1] " +:+ address +:+ " .text EXP DS SECdef [noIMid] main")]]}.

(** The data of the identification analyzer for given strings. *)
Definition strings_data (l : list string) : gmap string json :=
  {["strings" := JList (map JStr l)]}.


(** A machine with one object file, on which every command prints
    one identification string. *)
Definition sample_host : SnapshotManager.host :=
  {| SnapshotManager.files := fun path =>
       if String.eqb path "/tmp/crafted.o" then Some crafted_file else None;
     SnapshotManager.run := fun _ _ => Completed 0 "@(#) libfoo 1.0" "";
     SnapshotManager.now := "2024-01-01T00:00:00";
     SnapshotManager.resolve := fun path => path;
     SnapshotManager.mtime := fun _ => "2023-12-31T00:00:00" |}.

(** The database after [before] has been stored in the snapshot set
    [next], and after [after] has then been stored in the set
    [base]. *)
Definition stored_next : database :=
  (store "2024-03-01T00:00:00" empty_database "next" before).1.1.

Definition stored_both : database :=
  (store "2024-03-02T00:00:00" stored_next "base" after).1.1.

End Inputs.

(** * Properties *)

Import Notions Inputs.

(** ** The path mapping of the store *)

Section PathMapping.
Import Py Storage.

Lemma rstrip_by_all (p : ascii -> bool) (s : string) :
  all_chars p s = true -> rstrip_by p s = EmptyString.
Proof.
  induction s as [|c s IH]; simpl; [reflexivity|].
  intros [Hc Hs]%andb_prop. rewrite (IH Hs), Hc. reflexivity.
Qed.

(** A string that does not end in a stripped character keeps all of
    its characters when a run of stripped characters is appended and
    stripped again. *)
Lemma rstrip_by_app (p : ascii -> bool) (a b : string) :
  match last_char a with Some c => p c = false | None => True end ->
  all_chars p b = true ->
  rstrip_by p (a +:+ b) = a.
Proof.
  intros Ha Hb. induction a as [|c a IH]; simpl.
  - apply rstrip_by_all, Hb.
  - destruct a as [|d a].
    + simpl in *. rewrite (IH I), Ha. reflexivity.
    + rewrite IH by exact Ha. reflexivity.
Qed.

Lemma remove_char_absent (c : ascii) (s : string) :
  mem_char c s = false -> remove_char c s = s.
Proof.
  induction s as [|d s IH]; simpl; [reflexivity|].
  intros [Hd Hs]%orb_false_elim.
  unfold char_eqb in *. rewrite Ascii.eqb_sym, Hd, (IH Hs). reflexivity.
Qed.

Lemma lstrip_by_stop (p : ascii -> bool) (s : string) :
  match s with String c _ => p c = false | EmptyString => True end ->
  lstrip_by p s = s.
Proof. destruct s as [|c s]; simpl; [reflexivity|]. intros ->. reflexivity. Qed.

(** The example of the comment in [_relpath_to_filepath],
    [usr/bin/ls.json -> /usr/bin/ls], is not what the method
    returns: [rstrip] takes its argument for a set of characters and
    also strips the [s] of [ls]. *)
Example relpath_comment_example :
  _relpath_to_filepath "usr/bin/ls.json" = "/usr/bin/l".
Proof. reflexivity. Qed.

(** C2, as stated, fails on a POSIX path with a colon in it: the
    forward mapping removes every colon, and the inverse cannot put
    it back. *)
Lemma relpath_roundtrip_colon :
  _relpath_to_filepath (_filepath_to_relpath "/a:b") <> "/a:b".
Proof. vm_compute. discriminate. Qed.

(** C2, amended: a path made of one leading separator and a rest
    that starts with no separator or backslash, has no colon, and
    does not end in one of the characters of [".json"], is mapped
    back to itself. *)
Theorem relpath_roundtrip (rest : string) :
  startswith "/" rest = false ->
  startswith "\" rest = false ->
  mem_char ":" rest = false ->
  match last_char rest with
  | Some c => mem_char c ".json" = false
  | None => True
  end ->
  _relpath_to_filepath (_filepath_to_relpath ("/" +:+ rest)) = "/" +:+ rest.
Proof.
  intros Hslash Hback Hcolon Hlast.
  unfold _relpath_to_filepath, _filepath_to_relpath, lstrip, rstrip.
  assert (Hl1 : lstrip_by (fun c => mem_char c "/") ("/" +:+ rest) = rest).
  { change ("/" +:+ rest) with (String "/" rest). simpl.
    apply lstrip_by_stop. destruct rest as [|c r]; [exact I|].
    simpl in Hslash |- *. unfold char_eqb in *. rewrite Ascii.eqb_sym.
    destruct (Ascii.eqb "/" c); [discriminate | reflexivity]. }
  rewrite Hl1.
  assert (Hl2 : lstrip_by (fun c => mem_char c "\") rest = rest).
  { apply lstrip_by_stop. destruct rest as [|c r]; [exact I|].
    simpl in Hback |- *. unfold char_eqb in *. rewrite Ascii.eqb_sym.
    destruct (Ascii.eqb "\" c); [discriminate | reflexivity]. }
  rewrite Hl2, (remove_char_absent _ _ Hcolon).
  rewrite rstrip_by_app; [reflexivity | exact Hlast | reflexivity].
Qed.

Lemma relpath_roundtrip_witness :
  _relpath_to_filepath (_filepath_to_relpath "/usr/bin/cat") = "/usr/bin/cat".
Proof.
  apply (relpath_roundtrip "usr/bin/cat"); reflexivity.
Defined.

End PathMapping.

(** ** Storing and loading snapshots *)

Section StoreLoad.
Import Py Core Storage.





(** *** Paths and directories *)

Lemma is_dir_root (ds : gset path) : is_dir ds [] = true.
Proof. apply bool_decide_eq_true. left. reflexivity. Qed.

Lemma is_dir_elem (ds : gset path) (p : path) : p ∈ ds -> is_dir ds p = true.
Proof. intros Hp. apply bool_decide_eq_true. right. exact Hp. Qed.

Lemma is_dir_mono (ds ds' : gset path) (p : path) :
  ds ⊆ ds' -> is_dir ds p = true -> is_dir ds' p = true.
Proof.
  intros Hsub [->|Hp]%bool_decide_eq_true; [apply is_dir_root|].
  apply is_dir_elem, Hsub, Hp.
Qed.

Lemma locate_from_app (ds : gset path) (cur p q : path) :
  locate_from ds cur (p ++ q)%list
  = locate_from ds cur p ≫= fun r => locate_from ds r q.
Proof.
  revert cur. induction p as [|c p IH]; intros cur; simpl; [reflexivity|].
  destruct (is_dir ds cur); [apply IH | reflexivity].
Qed.

(** A path that the host finds is found at the same place when
    there are more directories. *)
Lemma locate_from_mono (ds ds' : gset path) (cur p r : path) :
  ds ⊆ ds' -> locate_from ds cur p = Some r -> locate_from ds' cur p = Some r.
Proof.
  intros Hsub. revert cur. induction p as [|c p IH]; intros cur; simpl; [tauto|].
  destruct (is_dir ds cur) eqn:Hcur; [|discriminate].
  rewrite (is_dir_mono ds ds' cur Hsub Hcur). apply IH.
Qed.

Lemma mkdir_from_subseteq (ds : gset path) (cur p : path) :
  ds ⊆ (mkdir_from ds cur p).1.
Proof.
  revert ds cur. induction p as [|c p IH]; intros ds cur; simpl; [reflexivity|].
  etransitivity; [|apply IH]. apply union_subseteq_r.
Qed.


Lemma split_where_none (p : ascii -> bool) (s : string) :
  all_chars (fun c => negb (p c)) s = true -> split_where p s = [s].
Proof.
  induction s as [|c s IH]; simpl; [reflexivity|].
  intros [Hc Hs]%andb_prop. apply negb_true_iff in Hc. rewrite Hc, (IH Hs). reflexivity.
Qed.

Lemma append_cons (c : ascii) (s t : string) : String c s +:+ t = String c (s +:+ t).
Proof. reflexivity. Qed.

(** The last piece of a string that ends in a text without
    separator ends in that text. *)
Lemma split_where_tail (p : ascii -> bool) (s tail : string) :
  all_chars (fun c => negb (p c)) tail = true ->
  exists pieces piece, split_where p (s +:+ tail) = (pieces ++ [piece +:+ tail])%list.
Proof.
  intros Htail. induction s as [|c s [pieces [piece IH]]].
  - exists [], EmptyString. apply (split_where_none p tail Htail).
  - rewrite append_cons. cbn [split_where]. destruct (p c).
    + exists (EmptyString :: pieces), piece. rewrite IH. reflexivity.
    + rewrite IH. destruct pieces as [|first pieces].
      * exists [], (String c piece). reflexivity.
      * exists (String c first :: pieces), piece. reflexivity.
Qed.

Lemma json_name_kept (piece : string) :
  piece +:+ ".json" <> "" /\ piece +:+ ".json" <> "." /\ piece +:+ ".json" <> "..".
Proof.
  destruct piece as [|a [|b [|c piece]]]; repeat split; intros H;
    repeat rewrite append_cons in H; discriminate H.
Qed.

(** The path of a record has a last component, which is the name of
    the record file: it ends in [.json], so that it is not [..]. *)
Lemma relpath_parts (filepath : string) :
  exists directory name,
    path_parts (_filepath_to_relpath filepath) = (directory ++ [name])%list
    /\ name <> "..".
Proof.
  unfold _filepath_to_relpath, path_parts, split_on.
  destruct (split_where_tail (fun c => char_eqb c "/")
              (remove_char ":" (lstrip "\" (lstrip "/" filepath))) ".json" eq_refl)
    as [pieces [piece ->]].
  destruct (json_name_kept piece) as [Hne [Hdot Hup]].
  exists (filter (fun c : string => c <> "" /\ c <> ".") pieces), (piece +:+ ".json").
  split; [|exact Hup].
  rewrite filter_app, filter_cons_True, filter_nil by (split; assumption).
  reflexivity.
Qed.

Lemma json_path_parts (db : database) (nm filepath : string) :
  exists directory name,
    json_path db nm filepath = (directory ++ [name])%list /\ name <> "..".
Proof.
  destruct (relpath_parts filepath) as [directory [name [Hparts Hname]]].
  unfold json_path, joinpath at 1. rewrite Hparts.
  destruct (startswith "/" (_filepath_to_relpath filepath)).
  - exists directory, name. split; [reflexivity | exact Hname].
  - exists (snap_dir db nm ++ directory)%list, name.
    split; [apply app_assoc | exact Hname].
Qed.

Lemma enter_name (cur : path) (name : string) :
  name <> ".." -> enter cur name = (cur ++ [name])%list.
Proof. intros Hname. unfold enter. rewrite bool_decide_eq_false_2 by exact Hname. reflexivity. Qed.

(** *** The record after a store *)

Lemma store_db_path (now : string) (db : database) (nm : string) (s : Snapshot) :
  db_path (store now db nm s).1.1 = db_path db.
Proof.
  unfold store. destruct (mkdir_parents _ _) as [made directory]. reflexivity.
Qed.



Lemma load_stat (db : database) (nm fp : string) (text : file_content) :
  stat db (json_path db nm fp) = Some (Regular text) ->
  load db nm fp = match (d ← json_load text; from_dict d) with
                  | Ok snapshot => Ok (Some snapshot)
                  | Raise JSONDecodeError | Raise (KeyError _) => Ok None
                  | Raise e => Raise e
                  end.
Proof. unfold load. intros ->. reflexivity. Qed.



(** A record that is not JSON is taken for a missing one. *)
Lemma load_garbage (db : database) (nm fp text : string) :
  stat db (json_path db nm fp) = Some (Regular (Garbage text)) ->
  load db nm fp = Ok None.
Proof. intros Hrec. rewrite (load_stat db nm fp _ Hrec). reflexivity. Qed.

(** A record that is no text in the encoding of the host makes
    [load] raise. *)
Lemma load_undecodable (db : database) (nm fp : string) :
  stat db (json_path db nm fp) = Some (Regular Undecodable) ->
  load db nm fp = Raise UnicodeDecodeError.
Proof. intros Hrec. rewrite (load_stat db nm fp _ Hrec). reflexivity. Qed.

(** So is a JSON object without results and without a file path. *)
Lemma load_missing_filepath (db : database) (nm fp : string) (m : gmap string json) :
  stat db (json_path db nm fp) = Some (Regular (Document (JDict m))) ->
  m !! "results" = None ->
  m !! "filepath" = None ->
  load db nm fp = Ok None.
Proof.
  intros Hrec Hres Hfp. rewrite (load_stat db nm fp _ Hrec). simpl.
  unfold get, getitem. rewrite Hres, Hfp. reflexivity.
Qed.





(** *** Captured snapshots *)

Lemma foldl_insert_keyed (runs : list (string * (AnalysisResult * list Analyzer.command)))
    (m0 : gmap string AnalysisResult) :
  (forall k r, m0 !! k = Some r -> analyzer_name r = k) ->
  Forall (fun nr => analyzer_name nr.2.1 = nr.1) runs ->
  forall k r,
    foldl (fun m (nr : string * (AnalysisResult * list Analyzer.command)) =>
             <[nr.1 := nr.2.1]> m) m0 runs !! k = Some r ->
    analyzer_name r = k.
Proof.
  revert m0. induction runs as [|nr runs IH]; intros m0 Hm0 Hruns k r; simpl.
  - apply Hm0.
  - apply Forall_cons in Hruns as [Hnr Hruns].
    apply IH; [|exact Hruns].
    intros k' r'. destruct (decide (nr.1 = k')) as [<-|Hne].
    + rewrite lookup_insert_eq. intros [= <-]. exact Hnr.
    + rewrite lookup_insert_ne by exact Hne. apply Hm0.
Qed.

(** Every analyzer of the registry names its results after itself. *)
Lemma registered_named (n : string) (a : SnapshotManager.analyzer) :
  SnapshotManager.get_analyzer n = Some a ->
  forall run filepath timeout, analyzer_name (a run filepath timeout).1 = n.
Proof.
  unfold SnapshotManager.get_analyzer. intros Hin%elem_of_list_to_map_2.
  unfold SnapshotManager.get_all_analyzers in Hin.
  rewrite !elem_of_cons in Hin.
  destruct Hin as [[= -> ->]|[[= -> ->]|[[= -> ->]|Hin]]]; [| | |inversion Hin];
    intros run filepath timeout.
  - unfold WhatAnalyzer.analyze, Analyzer._run_command.
    destruct (run _ _) as [rc out err| |msg]; simpl; try reflexivity.
    destruct (negb (rc =? 0)%Z && negb (truthy out)); reflexivity.
  - unfold DumpHeadersAnalyzer.analyze, Analyzer._run_command.
    destruct (run _ _) as [rc out err| |msg]; simpl; try reflexivity.
    destruct (negb (rc =? 0)%Z); [reflexivity|].
    destruct (DumpHeadersAnalyzer._parse_output out); reflexivity.
  - unfold DumpLoaderAnalyzer.analyze, Analyzer._run_command.
    destruct (run _ _) as [rc out err| |msg]; simpl; try reflexivity.
    destruct (negb (rc =? 0)%Z); [reflexivity|].
    destruct (DumpLoaderAnalyzer._parse_output out); reflexivity.
Qed.

Lemma first_seen_registered {A : Type} (P : string * A -> Prop)
    (seen : list string) (l : list (string * A)) :
  Forall P l -> Forall P (SnapshotManager.first_seen seen l).
Proof.
  revert seen. induction l as [|[n a] l IH]; intros seen Hl; simpl; [constructor|].
  apply Forall_cons in Hl as [Hna Hl].
  destruct (bool_decide (n ∈ seen)); [apply IH, Hl|].
  constructor; [exact Hna | apply IH, Hl].
Qed.

Lemma selected_registered (analyzers exclude : option (list string)) :
  Forall (fun na => SnapshotManager.get_analyzer na.1 = Some na.2)
         (SnapshotManager.selected analyzers exclude).
Proof.
  unfold SnapshotManager.selected.
  assert (Hall : Forall (fun na => SnapshotManager.get_analyzer na.1 = Some na.2)
                        SnapshotManager.get_all_analyzers).
  { repeat constructor. }
  assert (Hchosen : Forall (fun na => SnapshotManager.get_analyzer na.1 = Some na.2)
            match analyzers with
            | Some ((_ :: _) as wanted) =>
                SnapshotManager.first_seen []
                  (omap (fun n => pair n <$> SnapshotManager.get_analyzer n) wanted)
            | _ => SnapshotManager.get_all_analyzers
            end).
  { destruct analyzers as [[|w wanted]|]; try exact Hall.
    apply first_seen_registered. apply Forall_forall.
    intros [n a] Hin. apply list_elem_of_omap in Hin as [n' [_ Hn']].
    destruct (SnapshotManager.get_analyzer n') as [a'|] eqn:Ha; [|discriminate].
    simpl in Hn'. injection Hn' as <- <-. exact Ha. }
  destruct exclude as [[|u unwanted]|]; try exact Hchosen.
  apply Forall_forall. intros na [_ Hin]%list_elem_of_filter.
  exact (proj1 (Forall_forall _ _) Hchosen na Hin).
Qed.

(** A captured snapshot files each result under the name of the
    analyzer that produced it. *)
Lemma capture_keyed (h : SnapshotManager.host) (timeout : Z) (filepath : string)
    (analyzers exclude : option (list string)) (s : Snapshot)
    (started : list Analyzer.command) :
  SnapshotManager.capture h timeout filepath analyzers exclude = Ok (s, started) ->
  keyed s.
Proof.
  unfold SnapshotManager.capture.
  destruct (SnapshotManager.files h filepath) as [f|]; [|discriminate].
  intros [= <- _]. unfold keyed. cbn [results].
  apply foldl_insert_keyed.
  - intros k r. rewrite lookup_empty. discriminate.
  - apply Forall_map. eapply Forall_impl; [apply selected_registered|].
    intros [n a] Hna. simpl in *. apply (registered_named n a Hna).
Qed.

(** The paths that [list_files] reports for a stored snapshot are
    the inverse mapping of the record paths, so that a path ending in
    one of the characters of [".json"] is reported shortened. *)
Example list_files_after_store :
  list_files (store "now" empty_database "base"
                {| filepath := "/usr/bin/ls"; timestamp := "t"; file_size := 1;
                   file_mtime := "m"; file_type := "xcoff32"; name := None;
                   results := ∅ |}).1.1 "base"
  = ["/usr/bin/l"].
Proof. vm_compute. reflexivity. Qed.

(** C8: a record whose JSON value is not an object makes [load]
    raise: [from_dict] calls [data.get] on it, and [load] catches
    only [JSONDecodeError] and [KeyError]. *)
Theorem load_not_an_object (db : database) (nm fp : string) (v : json) :
  stat db (json_path db nm fp) = Some (Regular (Document v)) ->
  is_dict v = false ->
  load db nm fp = Raise AttributeError.
Proof.
  intros Hrec Hv. rewrite (load_stat db nm fp _ Hrec).
  destruct v; try reflexivity. discriminate.
Qed.

Lemma load_not_an_object_witness :
  load (database_with (Document (JList []))) "base" "/usr/bin/cat"
  = Raise AttributeError.
Proof.
  apply (load_not_an_object _ "base" "/usr/bin/cat" (JList [])).
  - vm_compute. reflexivity.
  - reflexivity.
Defined.

End StoreLoad.

(** ** Comparing snapshots *)

Section Comparison.
Import Py Core ComparisonEngine.

Variable repr_change : section_change -> string.

Lemma py_neqb_refl (v : json) : py_neqb v v = false.
Proof. unfold py_neqb, py_eqb. rewrite bool_decide_eq_true_2; reflexivity. Qed.

Lemma py_neqb_sym (a b : json) : py_neqb a b = py_neqb b a.
Proof.
  unfold py_neqb, py_eqb. f_equal. apply bool_decide_ext. split; congruence.
Qed.

(** A name under which both snapshots hold the same result adds
    nothing to [diffs]. *)
Lemma compare_loop_self (s : Snapshot) (names : list string)
    (acc : gmap string diff_entry * bool) :
  (forall n, n ∈ names -> is_Some (results s !! n)) ->
  compare_loop s s names acc = Ok acc.
Proof.
  induction names as [|n names IH]; intros Hin; simpl; [reflexivity|].
  destruct (Hin n) as [r Hr]; [left|].
  rewrite Hr. simpl. rewrite py_neqb_refl. simpl.
  apply IH. intros m Hm. apply Hin. right. exact Hm.
Qed.

(** C4: a snapshot compared with itself shows no difference. *)
Theorem compare_self (s : Snapshot) :
  compare repr_change s s
  = Ok {| filepath1 := filepath s; filepath2 := filepath s;
          has_differences := false; summary := "No differences";
          analyzer_diffs := ∅ |}.
Proof.
  unfold compare.
  rewrite bool_decide_eq_false_2 by (intros H; apply H; reflexivity).
  rewrite compare_loop_self.
  - reflexivity.
  - intros n Hn. rewrite elem_of_elements, elem_of_union, !elem_of_dom in Hn.
    tauto.
Qed.

(** *** The two directions of a comparison *)

Lemma diff_what_mirror (d1 d2 : gmap string json) :
  alike payload_alike (_diff_what d1 d2) (_diff_what d2 d1).
Proof.
  unfold _diff_what.
  destruct (to_set (get d1 "strings" (JList []))) as [s1|];
    destruct (to_set (get d2 "strings" (JList []))) as [s2|]; simpl; try exact I.
  rewrite (orb_comm (nonempty_set (s1 ∖ s2))).
  destruct (nonempty_set (s2 ∖ s1) || nonempty_set (s1 ∖ s2)); simpl; auto.
Qed.

Lemma classify_none_sym (a b : option json) :
  classify a b = None <-> classify b a = None.
Proof.
  destruct a as [x|], b as [y|]; simpl; try rewrite (py_neqb_sym y x);
    try destruct (py_neqb x y); split; intros H;
    first [ discriminate H | reflexivity ].
Qed.

Lemma merge_classify_empty_sym (a b : gmap hkey json) :
  merge classify a b = ∅ <-> merge classify b a = ∅.
Proof.
  rewrite !map_empty. split; intros H i; specialize (H i);
    rewrite lookup_merge in H |- *;
    destruct (a !! i) as [x|] eqn:Ha, (b !! i) as [y|] eqn:Hb; simpl in *;
    try discriminate; try reflexivity;
    apply (classify_none_sym (Some _) (Some _)); exact H.
Qed.

Lemma diff_sections_mirror (d1 d2 : gmap string json) :
  alike payload_alike (_diff_sections d1 d2) (_diff_sections d2 d1).
Proof.
  unfold _diff_sections.
  destruct (by_name (get d1 "sections" (JList []))) as [s1|];
    destruct (by_name (get d2 "sections" (JList []))) as [s2|]; simpl; try exact I.
  pose proof (merge_classify_empty_sym s1 s2) as Hsym.
  destruct (decide (merge classify s1 s2 = ∅)) as [He|Hne].
  - rewrite !bool_decide_eq_true_2 by tauto. exact I.
  - rewrite !bool_decide_eq_false_2 by tauto. simpl. auto.
Qed.

Lemma name_changes_none_sym (a b : gset hkey) :
  name_changes a b = None <-> name_changes b a = None.
Proof.
  unfold name_changes.
  destruct (decide (a = b)) as [->|Hne].
  - rewrite !bool_decide_eq_true_2 by reflexivity. tauto.
  - rewrite !bool_decide_eq_false_2 by congruence. split; discriminate.
Qed.

Lemma diff_loader_mirror (d1 d2 : gmap string json) :
  alike payload_alike (_diff_loader d1 d2) (_diff_loader d2 d1).
Proof.
  unfold _diff_loader.
  destruct (names_of (get d1 "imports" (JList []))) as [i1|];
    destruct (names_of (get d2 "imports" (JList []))) as [i2|];
    destruct (names_of (get d1 "exports" (JList []))) as [e1|];
    destruct (names_of (get d2 "exports" (JList []))) as [e2|];
    simpl; try exact I.
  pose proof (name_changes_none_sym i1 i2) as Hi.
  pose proof (name_changes_none_sym e1 e2) as He.
  destruct (name_changes i1 i2), (name_changes i2 i1),
           (name_changes e1 e2), (name_changes e2 e1); simpl; auto;
    exfalso; (destruct Hi as [Hi Hi']; destruct He as [He He'];
              first [ discriminate (Hi eq_refl) | discriminate (Hi' eq_refl)
                    | discriminate (He eq_refl) | discriminate (He' eq_refl) ]).
Qed.

Lemma diff_data_mirror (analyzer : string) (d1 d2 : gmap string json) :
  alike payload_alike (_diff_data analyzer d1 d2) (_diff_data analyzer d2 d1).
Proof.
  unfold _diff_data.
  destruct (String.eqb analyzer "what"); [apply diff_what_mirror|].
  destruct (String.eqb analyzer "dump-h"); [apply diff_sections_mirror|].
  destruct (String.eqb analyzer "dump-T"); [apply diff_loader_mirror|].
  rewrite (py_neqb_sym (JDict d2)).
  destruct (py_neqb (JDict d1) (JDict d2)); simpl; auto.
Qed.

Lemma analyzer_entry_mirror (n : string) (r1 r2 : option AnalysisResult) :
  is_Some r1 \/ is_Some r2 ->
  alike (fun e1 e2 => kind_of <$> e2 = mirror_kind <$> (kind_of <$> e1))
        (analyzer_entry n r1 r2) (analyzer_entry n r2 r1).
Proof.
  intros Hsome. destruct r1 as [a|], r2 as [b|]; simpl; try reflexivity.
  - rewrite (py_neqb_sym (JDict (data b))).
    destruct (py_neqb (JDict (data a)) (JDict (data b))); [|reflexivity].
    pose proof (diff_data_mirror n (data a) (data b)) as H.
    destruct (_diff_data n (data a) (data b)) as [[x|]|],
             (_diff_data n (data b) (data a)) as [[y|]|]; simpl in *; try tauto.
    destruct H as [-> ->]. reflexivity.
  - destruct Hsome as [[? [=]]|[? [=]]].
Qed.

(** What the loop of [compare] leaves under each name when it
    returns. *)
Lemma compare_loop_lookup (a b : Snapshot) (names : list string)
    (acc acc' : gmap string diff_entry * bool) (n : string) :
  NoDup names ->
  compare_loop a b names acc = Ok acc' ->
  acc'.1 !! n =
    match (if bool_decide (n ∈ names)
           then analyzer_entry n (results a !! n) (results b !! n)
           else Ok None) with
    | Ok (Some d) => Some d
    | _ => acc.1 !! n
    end.
Proof.
  revert acc. induction names as [|m names IH]; intros acc Hnd Hloop.
  - simpl in Hloop. injection Hloop as <-. reflexivity.
  - apply NoDup_cons in Hnd as [Hm Hnd]. simpl in Hloop.
    destruct (analyzer_entry m (results a !! m) (results b !! m)) as [e|] eqn:He;
      [|discriminate]. simpl in Hloop.
    destruct (decide (n = m)) as [->|Hne].
    + rewrite bool_decide_eq_true_2 by left. rewrite He.
      destruct e as [d|]; rewrite (IH _ Hnd Hloop);
        rewrite bool_decide_eq_false_2 by exact Hm; simpl;
        [apply lookup_insert_eq | reflexivity].
    + assert (Hiff : n ∈ m :: names <-> n ∈ names)
        by (rewrite elem_of_cons; split;
            [intros [Heq|Hin]; [congruence | exact Hin] | auto]).
      rewrite (bool_decide_ext _ _ Hiff).
      destruct e as [d|]; rewrite (IH _ Hnd Hloop); [|reflexivity].
      simpl. rewrite lookup_insert_ne by congruence. reflexivity.
Qed.

(** The loop returns exactly when the body returns for every name. *)
Lemma compare_loop_returns (a b : Snapshot) (names : list string)
    (acc : gmap string diff_entry * bool) :
  (exists acc', compare_loop a b names acc = Ok acc')
  <-> (forall n, n ∈ names ->
       exists e, analyzer_entry n (results a !! n) (results b !! n) = Ok e).
Proof.
  revert acc. induction names as [|m names IH]; intros acc; simpl.
  - split; [intros _ n Hn; inversion Hn | eauto].
  - destruct (analyzer_entry m (results a !! m) (results b !! m)) as [e|x] eqn:He;
      simpl.
    + assert (Hrest : forall acc0,
                (exists acc', compare_loop a b names acc0 = Ok acc')
                <-> (forall n, n ∈ m :: names ->
                     exists e0, analyzer_entry n (results a !! n) (results b !! n)
                                = Ok e0)).
      { intros acc0. rewrite IH. split.
        - intros H n Hn. apply elem_of_cons in Hn as [->|Hn]; eauto.
        - intros H n Hn. apply H. right. exact Hn. }
      destruct e; apply Hrest.
    + split; [intros [? [=]]|].
      intros H. destruct (H m) as [e He']; [left|]. congruence.
Qed.

(** *** Data for which the diff routines return *)

Lemma mapM_returns {A B : Type} (f : A -> py_result B) (ok : A -> bool) (l : list A) :
  (forall x, ok x = true -> exists y, f x = Ok y) ->
  forallb ok l = true ->
  exists ys, mapM f l = Ok ys.
Proof.
  intros Hf. induction l as [|x l IH]; simpl; [eauto|].
  intros [Hx Hl]%andb_prop.
  destruct (Hf x Hx) as [y ->]. destruct (IH Hl) as [ys ->]. simpl. eauto.
Qed.

Lemma to_set_returns (v : json) :
  string_list v = true -> exists s, to_set v = Ok s.
Proof.
  destruct v as [| | | |l|]; try discriminate. simpl. intros Hl.
  unfold to_set. simpl.
  destruct (mapM_returns hash_key is_str l) as [ks ->]; [|exact Hl|simpl; eauto].
  intros [] ; try discriminate. simpl. eauto.
Qed.

Lemma by_name_returns (v : json) :
  named_list v = true -> exists m, by_name v = Ok m.
Proof.
  destruct v as [| | | |l|]; try discriminate. simpl. intros Hl.
  unfold by_name. simpl.
  destruct (mapM_returns
              (fun s => n ← subscript s "name"; k ← hash_key n; Ok (k, s))
              named l) as [ks ->]; [|exact Hl|simpl; eauto].
  intros [| | | | |m]; try discriminate. simpl. unfold getitem.
  destruct (m !! "name") as [[]|]; try discriminate. simpl. eauto.
Qed.

Lemma names_of_returns (v : json) :
  named_list v = true -> exists s, names_of v = Ok s.
Proof.
  destruct v as [| | | |l|]; try discriminate. simpl. intros Hl.
  unfold names_of. simpl.
  destruct (mapM_returns
              (fun s => n ← get_method s "name" (JStr ""); hash_key n)
              named l) as [ks ->]; [|exact Hl|simpl; eauto].
  intros [| | | | |m]; try discriminate. simpl. unfold get.
  destruct (m !! "name") as [[]|]; try discriminate. simpl. eauto.
Qed.

Lemma diff_data_returns (analyzer : string) (d1 d2 : gmap string json) :
  shaped analyzer d1 = true -> shaped analyzer d2 = true ->
  exists e, _diff_data analyzer d1 d2 = Ok e.
Proof.
  unfold shaped, _diff_data.
  destruct (String.eqb analyzer "what").
  { intros [s1 H1]%to_set_returns [s2 H2]%to_set_returns.
    unfold _diff_what. rewrite H1, H2. simpl.
    destruct (_ || _); eauto. }
  destruct (String.eqb analyzer "dump-h").
  { intros [s1 H1]%by_name_returns [s2 H2]%by_name_returns.
    unfold _diff_sections. rewrite H1, H2. simpl.
    destruct (bool_decide _); eauto. }
  destruct (String.eqb analyzer "dump-T").
  { intros [[i1 Hi1]%names_of_returns [e1 He1]%names_of_returns]%andb_prop
           [[i2 Hi2]%names_of_returns [e2 He2]%names_of_returns]%andb_prop.
    unfold _diff_loader. rewrite Hi1, Hi2, He1, He2. simpl.
    destruct (name_changes i1 i2), (name_changes e1 e2); eauto. }
  intros _ _. destruct (py_neqb _ _); eauto.
Qed.

Lemma well_shaped_lookup (s : Snapshot) (n : string) (r : AnalysisResult) :
  well_shaped s = true -> results s !! n = Some r -> shaped n (data r) = true.
Proof.
  unfold well_shaped. rewrite forallb_forall. intros H Hn.
  apply (H (n, r)). apply list_elem_of_In, elem_of_map_to_list. exact Hn.
Qed.

Lemma analyzer_entry_returns (a b : Snapshot) (n : string) :
  well_shaped a = true -> well_shaped b = true ->
  exists e, analyzer_entry n (results a !! n) (results b !! n) = Ok e.
Proof.
  intros Ha Hb. unfold analyzer_entry.
  destruct (results a !! n) as [ra|] eqn:Hra; [|eauto].
  destruct (results b !! n) as [rb|] eqn:Hrb; [|eauto].
  destruct (py_neqb _ _); [|eauto].
  apply diff_data_returns;
    [exact (well_shaped_lookup a n ra Ha Hra) | exact (well_shaped_lookup b n rb Hb Hrb)].
Qed.

(** *** The results of the two directions *)

Lemma start_mirror (a b : Snapshot) (n : string) :
  kind_of <$> (start b a).1 !! n = mirror_kind <$> (kind_of <$> (start a b).1 !! n).
Proof.
  unfold start. destruct (decide (file_size a = file_size b)) as [He|Hne].
  - rewrite !bool_decide_eq_false_2 by (intros H; apply H; congruence).
    simpl. rewrite lookup_empty. reflexivity.
  - rewrite !bool_decide_eq_true_2 by congruence. simpl.
    destruct (decide (n = "_metadata")) as [->|Hn].
    + rewrite !lookup_singleton_eq. reflexivity.
    + rewrite !lookup_singleton_ne by congruence. reflexivity.
Qed.

Lemma loops_mirror (a b : Snapshot) (names : list string)
    (acc1 acc2 : gmap string diff_entry * bool) :
  NoDup names ->
  (forall n, n ∈ names -> is_Some (results a !! n) \/ is_Some (results b !! n)) ->
  compare_loop a b names (start a b) = Ok acc1 ->
  compare_loop b a names (start b a) = Ok acc2 ->
  forall n, kind_of <$> acc2.1 !! n = mirror_kind <$> (kind_of <$> acc1.1 !! n).
Proof.
  intros Hnd Hsome H1 H2 n.
  rewrite (compare_loop_lookup a b names _ _ n Hnd H1).
  rewrite (compare_loop_lookup b a names _ _ n Hnd H2).
  destruct (decide (n ∈ names)) as [Hin|Hin].
  - rewrite !bool_decide_eq_true_2 by exact Hin.
    pose proof (analyzer_entry_mirror n _ _ (Hsome n Hin)) as Hm.
    destruct (proj1 (compare_loop_returns a b names _) (ex_intro _ _ H1) n Hin)
      as [e1 He1].
    destruct (proj1 (compare_loop_returns b a names _) (ex_intro _ _ H2) n Hin)
      as [e2 He2].
    rewrite He1, He2 in Hm |- *. simpl in Hm.
    destruct e1 as [d1|], e2 as [d2|]; simpl in *;
      first [ exact Hm | discriminate Hm | apply start_mirror ].
  - rewrite !bool_decide_eq_false_2 by exact Hin. apply start_mirror.
Qed.

Lemma mirrored_of_lookup (c1 c2 : ComparisonResult) :
  (forall n, kind_of <$> analyzer_diffs c2 !! n
             = mirror_kind <$> (kind_of <$> analyzer_diffs c1 !! n)) ->
  mirrored c1 c2.
Proof.
  intros H. split; [|exact H].
  apply set_eq. intros n. rewrite !elem_of_dom. specialize (H n).
  destruct (analyzer_diffs c1 !! n), (analyzer_diffs c2 !! n);
    simpl in H; try discriminate H; split; intros [? [=]]; eauto.
Qed.

(** C5: [compare a b] and [compare b a] return together; when they
    do, their [analyzer_diffs] have the same names, an analyzer that
    one calls added the other calls removed, and the analyzers with a
    diff payload are the same.  They do return when the data of each
    result has the shape its analyzer produces. *)
Theorem compare_mirrored (a b : Snapshot) :
  alike mirrored (compare repr_change a b) (compare repr_change b a)
  /\ (well_shaped a = true -> well_shaped b = true ->
      exists c1 c2, compare repr_change a b = Ok c1
                    /\ compare repr_change b a = Ok c2
                    /\ mirrored c1 c2).
Proof.
  assert (Hnames : dom (results b) ∪ dom (results a)
                   = dom (results a) ∪ dom (results b)) by apply union_comm_L.
  set (names := elements (dom (results a) ∪ dom (results b))).
  assert (Hnd : NoDup names) by apply NoDup_elements.
  assert (Hsome : forall n, n ∈ names ->
                  is_Some (results a !! n) \/ is_Some (results b !! n)).
  { intros n Hn. unfold names in Hn.
    rewrite elem_of_elements, elem_of_union, !elem_of_dom in Hn. exact Hn. }
  assert (Hab : compare repr_change a b
                = acc ← compare_loop a b names (start a b);
                  Ok {| filepath1 := filepath a; filepath2 := filepath b;
                        has_differences := acc.2;
                        summary := _build_summary repr_change a b acc.1;
                        analyzer_diffs := acc.1 |}) by reflexivity.
  assert (Hba : compare repr_change b a
                = acc ← compare_loop b a names (start b a);
                  Ok {| filepath1 := filepath b; filepath2 := filepath a;
                        has_differences := acc.2;
                        summary := _build_summary repr_change b a acc.1;
                        analyzer_diffs := acc.1 |}).
  { unfold compare. rewrite Hnames. reflexivity. }
  assert (Halike : alike mirrored (compare repr_change a b) (compare repr_change b a)).
  { rewrite Hab, Hba.
    destruct (compare_loop a b names (start a b)) as [acc1|x1] eqn:H1;
      destruct (compare_loop b a names (start b a)) as [acc2|x2] eqn:H2; simpl.
    - apply mirrored_of_lookup. simpl. eapply loops_mirror; eassumption.
    - pose proof (proj1 (compare_loop_returns a b names _) (ex_intro _ _ H1)) as Hok.
      assert (Hno : ~ exists acc', compare_loop b a names (start b a) = Ok acc')
        by (rewrite H2; intros [? [=]]).
      apply Hno, compare_loop_returns. intros n Hn.
      destruct (Hok n Hn) as [e He].
      pose proof (analyzer_entry_mirror n _ _ (Hsome n Hn)) as Hm.
      rewrite He in Hm.
      destruct (analyzer_entry n (results b !! n) (results a !! n));
        [eauto | destruct Hm].
    - pose proof (proj1 (compare_loop_returns b a names _) (ex_intro _ _ H2)) as Hok.
      assert (Hno : ~ exists acc', compare_loop a b names (start a b) = Ok acc')
        by (rewrite H1; intros [? [=]]).
      apply Hno, compare_loop_returns. intros n Hn.
      destruct (Hok n Hn) as [e He].
      pose proof (analyzer_entry_mirror n _ _ (Hsome n Hn)) as Hm.
      rewrite He in Hm.
      destruct (analyzer_entry n (results a !! n) (results b !! n));
        [eauto | destruct Hm].
    - exact I. }
  split; [exact Halike|].
  intros Ha Hb.
  destruct (proj2 (compare_loop_returns a b names (start a b))) as [acc1 H1].
  { intros n _. apply analyzer_entry_returns; assumption. }
  rewrite Hab, H1 in Halike. rewrite Hab, H1. simpl in *.
  destruct (compare repr_change b a) as [c2|]; [|destruct Halike].
  eauto.
Qed.

End Comparison.

Lemma compare_mirrored_witness :
  exists c1 c2,
    ComparisonEngine.compare (fun _ => "") before after = Py.Ok c1
    /\ ComparisonEngine.compare (fun _ => "") after before = Py.Ok c2
    /\ mirrored c1 c2.
Proof.
  apply (proj2 (compare_mirrored (fun _ => "") before after)); reflexivity.
Defined.

(** ** The analyzers *)

Section Analyzers.
Import Py Core Analyzer.

(** *** The identification-string analyzer *)

(** C9: when the command completes, a non-zero exit status with
    output on stdout is a success carrying the parsed strings, and
    the result is a failure only for a non-zero status with an empty
    stdout. *)
Theorem what_nonzero_with_output (run : runner) (filepath : string) (timeout : Z)
    (returncode : Z) (stdout stderr : string) :
  run ["what"; filepath] timeout = Completed returncode stdout stderr ->
  (returncode <> 0 -> stdout <> "" ->
   (WhatAnalyzer.analyze run filepath timeout).1
   = succeeded "what"
       (<["strings" := JList (map JStr (WhatAnalyzer._parse_output stdout))]>
        {["count" := JInt (Z.of_nat (length (WhatAnalyzer._parse_output stdout)))]}))
  /\ (success (WhatAnalyzer.analyze run filepath timeout).1 = false
      <-> returncode <> 0 /\ stdout = "").
Proof.
  intros Hrun. unfold WhatAnalyzer.analyze, _run_command. rewrite Hrun. simpl.
  split.
  - intros _ Hout. destruct stdout; [contradiction|]. simpl.
    rewrite andb_false_r. reflexivity.
  - destruct (Z.eqb_spec returncode 0) as [->|Hrc]; simpl.
    + split; [discriminate | intros [H _]; contradiction].
    + destruct stdout; simpl; split; try discriminate; auto.
      intros [_ [=]].
Qed.

Lemma what_nonzero_with_output_witness :
  success (WhatAnalyzer.analyze (fun _ _ => Completed 1 "@(#) libfoo 1.0" "what: warning")
                                "/usr/lib/libfoo.a" 300).1 = true.
Proof.
  pose proof (what_nonzero_with_output
                (fun _ _ => Completed 1 "@(#) libfoo 1.0" "what: warning")
                "/usr/lib/libfoo.a" 300 1 "@(#) libfoo 1.0" "what: warning" eq_refl)
    as [H _].
  rewrite H; [reflexivity | discriminate | discriminate].
Defined.

(** *** The loader-symbol analyzer *)

Lemma split_from_spaces (cur s : string) :
  all_chars isspace s = true ->
  split_from cur s = if truthy cur then [cur] else [].
Proof.
  revert cur. induction s as [|c s IH]; intros cur; simpl; [reflexivity|].
  intros [Hc Hs]%andb_prop. rewrite Hc.
  destruct (truthy cur); rewrite (IH _ Hs); reflexivity.
Qed.

Lemma rstrip_by_empty (p : ascii -> bool) (s : string) :
  rstrip_by p s = EmptyString -> all_chars p s = true.
Proof.
  induction s as [|c s IH]; simpl; [reflexivity|].
  destruct (rstrip_by p s); [|discriminate].
  destruct (p c); [|discriminate]. intros _. simpl. apply IH. reflexivity.
Qed.

Lemma split_from_lstrip (s : string) :
  split_from EmptyString (lstrip_by isspace s) = split_from EmptyString s.
Proof.
  induction s as [|c s IH]; simpl; [reflexivity|].
  destruct (isspace c) eqn:Hc; [exact IH|]. simpl. rewrite Hc. reflexivity.
Qed.

Lemma split_from_cons (cur : string) (c : ascii) (s : string) :
  split_from cur (String c s)
  = if isspace c then
      if truthy cur then cur :: split_from EmptyString s
      else split_from EmptyString s
    else split_from (snoc cur c) s.
Proof. reflexivity. Qed.

Lemma split_from_rstrip (cur s : string) :
  split_from cur (rstrip_by isspace s) = split_from cur s.
Proof.
  revert cur. induction s as [|c s IH]; intros cur; [reflexivity|].
  cbn [rstrip_by]. destruct (rstrip_by isspace s) as [|d r] eqn:Hr.
  - apply rstrip_by_empty in Hr.
    rewrite (split_from_cons cur c s).
    destruct (isspace c) eqn:Hc.
    + rewrite (split_from_spaces _ s Hr). simpl. destruct (truthy cur); reflexivity.
    + rewrite (split_from_cons cur c EmptyString), Hc.
      rewrite (split_from_spaces _ s Hr). reflexivity.
  - rewrite (split_from_cons cur c (String d r)), (split_from_cons cur c s).
    destruct (isspace c); [destruct (truthy cur)|]; rewrite IH; reflexivity.
Qed.

(** Stripping a line does not change the tokens it splits into. *)
Lemma split_strip (line : string) : split (strip line) = split line.
Proof.
  unfold split, strip. rewrite split_from_rstrip. apply split_from_lstrip.
Qed.

Lemma parse_line_short (acc : list json * list json) (line : string) :
  (length (split line) < 4)%nat ->
  DumpLoaderAnalyzer.parse_line acc line = acc.
Proof.
  intros Hlen. unfold DumpLoaderAnalyzer.parse_line. destruct acc as [imports exports].
  destruct (truthy (strip line)); simpl; [|reflexivity].
  rewrite split_strip.
  rewrite (proj2 (Nat.ltb_lt _ _) Hlen). reflexivity.
Qed.

Lemma foldl_parse_line_filter (lines : list string) (acc : list json * list json) :
  foldl DumpLoaderAnalyzer.parse_line acc lines
  = foldl DumpLoaderAnalyzer.parse_line acc
      (filter (fun line => (4 <= length (split line))%nat) lines).
Proof.
  revert acc. induction lines as [|line lines IH]; intros acc; [reflexivity|].
  simpl. destruct (decide (4 <= length (split line))%nat) as [Hge|Hlt].
  - rewrite filter_cons_True by exact Hge. simpl. apply IH.
  - rewrite filter_cons_False by exact Hlt.
    rewrite parse_line_short by lia. apply IH.
Qed.

(** C10: a line of fewer than four tokens changes neither list,
    whatever markers it contains, and the whole output is parsed as
    if such lines were not there. *)
Theorem loader_short_lines_ignored :
  (forall (acc : list json * list json) (line : string),
      (length (split line) < 4)%nat ->
      DumpLoaderAnalyzer.parse_line acc line = acc)
  /\ (forall output : string,
        DumpLoaderAnalyzer._parse_output output
        = DumpLoaderAnalyzer.parse_lines
            (filter (fun line => (4 <= length (split line))%nat) (splitlines output))).
Proof.
  split; [exact parse_line_short|].
  intros output. apply foldl_parse_line_filter.
Qed.

Lemma loader_short_lines_ignored_witness :
  DumpLoaderAnalyzer.parse_line ([], []) "0x10000128 EXP main" = ([], []).
Proof.
  apply (proj1 loader_short_lines_ignored ([], []) "0x10000128 EXP main").
  vm_compute. lia.
Defined.

(** The loader analyzer starts one command, whatever comes of it. *)
Lemma loader_analyze_started (run : runner) (filepath : string) (timeout : Z) :
  (DumpLoaderAnalyzer.analyze run filepath timeout).2 = [["dump"; "-Tv"; filepath]].
Proof. reflexivity. Qed.

(** C1: on such a platform the analyzer reports a failure after the
    verbose command alone, where [capture_loader_symbols] of the
    script runs the command again without the flag and parses its
    output. *)
Theorem loader_analyze_no_retry :
  DumpLoaderAnalyzer.analyze terse_dump "/usr/lib/libfoo.a" 300
  = (failed "dump-T" "dump: -v: not supported", [["dump"; "-Tv"; "/usr/lib/libfoo.a"]])
  /\ XCOFFSnapshot.capture_loader_symbols terse_dump 64 "/usr/lib/libfoo.a"
     = (inr "[0] 0x10000128 .text EXP DS SECdef [noIMid] main",
        [["dump"; "-X64"; "-Tv"; "/usr/lib/libfoo.a"];
         ["dump"; "-X64"; "-T"; "/usr/lib/libfoo.a"]]).
Proof. split; reflexivity. Qed.

End Analyzers.

(** ** The validator *)

Section Validator.
Import Py Core XCOFFValidator.

Lemma append_empty (s : string) : s +:+ "" = s.
Proof.
  induction s as [|c s IH]; [reflexivity|]. rewrite append_cons, IH. reflexivity.
Qed.

Lemma startswith_app (p s : string) : startswith p (p +:+ s) = true.
Proof.
  induction p as [|c p IH]; [reflexivity|].
  rewrite append_cons. simpl. unfold char_eqb. rewrite Ascii.eqb_refl. exact IH.
Qed.

Lemma contains_prefix (p s : string) : startswith p s = true -> contains p s = true.
Proof. destruct s; simpl; [auto|]. intros ->. reflexivity. Qed.

Lemma contains_app_r (p a b : string) :
  contains p b = true -> contains p (a +:+ b) = true.
Proof.
  intros Hb. induction a as [|c a IH]; [exact Hb|].
  rewrite append_cons. cbn [contains]. rewrite IH. apply orb_true_r.
Qed.

(** A message is found in the text that joins it with others. *)
Lemma contains_join (sep x : string) (parts : list string) :
  x ∈ parts -> contains x (join sep parts) = true.
Proof.
  induction parts as [|y parts IH]; intros Hin; [inversion Hin|].
  apply elem_of_cons in Hin as [->|Hin].
  - destruct parts as [|z parts]; cbn [join].
    + rewrite <- (append_empty y) at 2. apply contains_prefix, startswith_app.
    + apply contains_prefix, startswith_app.
  - destruct parts as [|z parts]; [inversion Hin|]. cbn [join].
    apply contains_app_r, contains_app_r, IH, Hin.
Qed.

Lemma slice_take (off len n : nat) (b : list byte) :
  (off + len <= n)%nat -> slice off len (take n b) = slice off len b.
Proof.
  intros Hle. unfold slice. rewrite skipn_firstn_comm, firstn_firstn.
  f_equal. lia.
Qed.

Lemma validate_magic_32 (fs : filesystem) (path : string) (f : file) :
  fs path = Some f -> readable f = true -> fault f = None ->
  (20 <= length (content f))%nat ->
  be_uint (slice 0 2 (content f)) = MAGIC_32 ->
  validate fs path
  = _validate_xcoff (take 20 (content f)) (Z.of_nat (length (content f))) "xcoff32".
Proof.
  intros Hfs Hread Hfault Hlen Hmagic.
  unfold validate. rewrite Hfs, Hread, Hfault. cbn [negb].
  rewrite (proj2 (Z.ltb_ge _ _)) by lia.
  rewrite bool_decide_eq_false_2.
  - rewrite slice_take by lia. rewrite Hmagic. reflexivity.
  - intros Har. destruct (content f) as [|b0 [|b1 l]]; simpl in Hlen; try lia.
    unfold AR_MAGIC in Har. simpl in Har. injection Har as -> -> _.
    cbv in Hmagic. discriminate Hmagic.
Qed.

(** C6: a readable file of at least 20 bytes that starts with the
    32-bit magic and whose symbol-table offset lies beyond its size
    is invalid, its error names the offset, and [details] holds the
    decoded fields. *)
Theorem validate_symptr_beyond (fs : filesystem) (path : string) (f : file) :
  fs path = Some f -> readable f = true -> fault f = None ->
  (20 <= length (content f))%nat ->
  be_uint (slice 0 2 (content f)) = MAGIC_32 ->
  Z.of_nat (length (content f)) < be_uint (slice 8 4 (content f)) ->
  let r := validate fs path in
  valid r = false
  /\ (exists e, verror r = Some e
                /\ contains "Symbol table offset beyond file size" e = true)
  /\ details r !! "magic" = Some (JStr "0x01DF")
  /\ details r !! "sections" = Some (JInt (be_uint (slice 2 2 (content f))))
  /\ details r !! "timestamp" = Some (JInt (be_uint (slice 4 4 (content f))))
  /\ details r !! "symbol_table_offset"
     = Some (JInt (be_uint (slice 8 4 (content f))))
  /\ details r !! "symbol_count" = Some (JInt (be_uint (slice 12 4 (content f))))
  /\ details r !! "optional_header_size"
     = Some (JInt (be_uint (slice 16 2 (content f))))
  /\ details r !! "flags"
     = Some (JStr ("0x" +:+ format_04X (be_uint (slice 18 2 (content f))))).
Proof.
  intros Hfs Hread Hfault Hlen Hmagic Hsym r. subst r.
  rewrite (validate_magic_32 fs path f Hfs Hread Hfault Hlen Hmagic).
  unfold _validate_xcoff. rewrite !slice_take by lia. rewrite Hmagic.
  assert (Hmid : ((0 <? be_uint (slice 8 4 (content f)))
                  && (Z.of_nat (length (content f))
                      <? be_uint (slice 8 4 (content f))))%Z
                 = true).
  { apply andb_true_intro. split; apply Z.ltb_lt; lia. }
  rewrite Hmid.
  assert (Hfound : forall pre post : list string,
             contains "Symbol table offset beyond file size"
               (join "; " (pre ++ ["Symbol table offset beyond file size"] ++ post)%list)
             = true).
  { intros pre post. apply contains_join.
    apply elem_of_app. right. apply elem_of_app. left. apply list_elem_of_singleton.
    reflexivity. }
  destruct (1000 <? be_uint (slice 2 2 (content f)))%Z;
    destruct (1024 <? be_uint (slice 16 2 (content f)))%Z;
    cbn [app valid verror details];
    (split; [reflexivity|]);
    (split; [eexists; split; [reflexivity|]|]);
    try (repeat split;
         repeat (rewrite lookup_insert_eq || (rewrite lookup_insert_ne by done));
         reflexivity).
  - apply (Hfound [_] [_]).
  - apply (Hfound [_] []).
Qed.

End Validator.

Lemma validate_symptr_beyond_witness :
  XCOFFValidator.valid (XCOFFValidator.validate (fun _ => Some crafted_file) "/tmp/crafted.o")
  = false.
Proof.
  apply (validate_symptr_beyond (fun _ => Some crafted_file) "/tmp/crafted.o" crafted_file).
  - reflexivity.
  - reflexivity.
  - reflexivity.
  - vm_compute. lia.
  - reflexivity.
  - vm_compute. reflexivity.
Defined.

(** ** The section-header parser *)

Section SectionHeaders.
Import Py Core Analyzer DumpHeadersAnalyzer.

(** Without a header row the loop over the table leaves its state
    as it found it. *)
Lemma table_loop_no_header (lines : list string) (st : table_state) :
  in_section_table st = false ->
  (forall line, line ∈ lines -> is_header_row (strip line) = false) ->
  table_loop st lines = Ok st.
Proof.
  intros Hst. induction lines as [|line lines IH]; intros Hrows; [reflexivity|].
  simpl. unfold table_step.
  rewrite (Hrows line) by left. rewrite Hst.
  destruct (truthy (strip line)); simpl; apply IH;
    intros l Hl; apply Hrows; right; exact Hl.
Qed.










End SectionHeaders.


(** * Further properties *)

(** ** The validator *)

Section ValidatorMore.
Import Py Core XCOFFValidator.

(** A readable file of fewer than 20 bytes is rejected for its size
    before anything of it is read: the result carries the byte count
    and no file type. *)
Theorem validate_too_small (fs : filesystem) (path : string) (f : file) :
  fs path = Some f -> readable f = true ->
  (length (content f) < 20)%nat ->
  validate fs path
  = {| valid := false; vfile_type := None;
       verror := Some ("File too small: "
                       +:+ str_of_int (Z.of_nat (length (content f))) +:+ " bytes");
       details := {["file_size" := JInt (Z.of_nat (length (content f)))]} |}.
Proof.
  intros Hfs Hread Hlen. unfold validate. rewrite Hfs, Hread. cbn [negb].
  rewrite (proj2 (Z.ltb_lt _ _)) by lia. reflexivity.
Qed.

Lemma validate_too_small_witness :
  valid (validate (fun _ => Some {| readable := true;
                                    content := [x21; x3c; x61; x72; x63; x68; x3e; x0a];
                                    fault := None |}) "/tmp/empty.a") = false.
Proof.
  rewrite (validate_too_small _ "/tmp/empty.a"
             {| readable := true;
                content := [x21; x3c; x61; x72; x63; x68; x3e; x0a];
                fault := None |}).
  - reflexivity.
  - reflexivity.
  - reflexivity.
  - simpl. lia.
Defined.

(** A readable file of at least 20 bytes that starts with the archive
    signature is valid whatever follows the signature. *)
Theorem validate_archive (fs : filesystem) (path : string) (f : file) :
  fs path = Some f -> readable f = true -> fault f = None ->
  (20 <= length (content f))%nat ->
  take 8 (content f) = AR_MAGIC ->
  validate fs path
  = {| valid := true; vfile_type := Some "archive"; verror := None;
       details := {["file_size" := JInt (Z.of_nat (length (content f)))]} |}.
Proof.
  intros Hfs Hread Hfault Hlen Har. unfold validate.
  rewrite Hfs, Hread, Hfault. cbn [negb].
  rewrite (proj2 (Z.ltb_ge _ _)) by lia.
  rewrite bool_decide_eq_true_2; [reflexivity|].
  rewrite firstn_firstn. exact Har.
Qed.

Lemma validate_archive_witness :
  vfile_type (validate (fun _ => Some {| readable := true;
                                         content := AR_MAGIC ++ repeat x00 12;
                                         fault := None |}) "/usr/lib/libc.a")
  = Some "archive".
Proof.
  rewrite (validate_archive _ "/usr/lib/libc.a"
             {| readable := true; content := AR_MAGIC ++ repeat x00 12;
                fault := None |}).
  - reflexivity.
  - reflexivity.
  - reflexivity.
  - reflexivity.
  - simpl. lia.
  - reflexivity.
Defined.

Lemma validate_magic_64 (fs : filesystem) (path : string) (f : file) :
  fs path = Some f -> readable f = true -> fault f = None ->
  (20 <= length (content f))%nat ->
  be_uint (slice 0 2 (content f)) = MAGIC_64 ->
  validate fs path
  = _validate_xcoff (take 20 (content f)) (Z.of_nat (length (content f))) "xcoff64".
Proof.
  intros Hfs Hread Hfault Hlen Hmagic.
  unfold validate. rewrite Hfs, Hread, Hfault. cbn [negb].
  rewrite (proj2 (Z.ltb_ge _ _)) by lia.
  rewrite bool_decide_eq_false_2.
  - rewrite slice_take by lia. rewrite Hmagic. reflexivity.
  - intros Har. destruct (content f) as [|b0 [|b1 l]]; simpl in Hlen; try lia.
    unfold AR_MAGIC in Har. simpl in Har. injection Har as -> -> _.
    cbv in Hmagic. discriminate Hmagic.
Qed.

Lemma validate_xcoff_valid (header : list byte) (size : Z) (ft : string) :
  0 < size ->
  valid (_validate_xcoff header size ft) = true
  <-> be_uint (slice 2 2 header) <= 1000
      /\ be_uint (slice 8 4 header) <= size
      /\ be_uint (slice 16 2 header) <= 1024.
Proof.
  intros Hsize. unfold _validate_xcoff.
  destruct (Z.ltb_spec 1000 (be_uint (slice 2 2 header)));
    destruct (Z.ltb_spec 0 (be_uint (slice 8 4 header)));
    destruct (Z.ltb_spec size (be_uint (slice 8 4 header)));
    destruct (Z.ltb_spec 1024 (be_uint (slice 16 2 header)));
    cbn [andb app valid]; split; intros Hv; try discriminate Hv; try lia;
    try reflexivity.
Qed.

(** For a file that starts with one of the two object magics, the
    result is valid exactly when the section count is at most 1000,
    the symbol-table offset is at most the file size and the optional
    header is at most 1024 bytes. *)
Theorem validate_object_valid_iff (fs : filesystem) (path : string) (f : file) :
  fs path = Some f -> readable f = true -> fault f = None ->
  (20 <= length (content f))%nat ->
  be_uint (slice 0 2 (content f)) = MAGIC_32
  \/ be_uint (slice 0 2 (content f)) = MAGIC_64 ->
  valid (validate fs path) = true
  <-> be_uint (slice 2 2 (content f)) <= 1000
      /\ be_uint (slice 8 4 (content f)) <= Z.of_nat (length (content f))
      /\ be_uint (slice 16 2 (content f)) <= 1024.
Proof.
  intros Hfs Hread Hfault Hlen [Hmagic|Hmagic].
  - rewrite (validate_magic_32 fs path f Hfs Hread Hfault Hlen Hmagic).
    rewrite validate_xcoff_valid by lia. rewrite !slice_take by lia. reflexivity.
  - rewrite (validate_magic_64 fs path f Hfs Hread Hfault Hlen Hmagic).
    rewrite validate_xcoff_valid by lia. rewrite !slice_take by lia. reflexivity.
Qed.

Lemma validate_object_valid_iff_witness :
  valid (validate (fun _ => Some crafted_file) "/tmp/crafted.o") = true
  <-> be_uint (slice 2 2 crafted_header) <= 1000
      /\ be_uint (slice 8 4 crafted_header) <= 22
      /\ be_uint (slice 16 2 crafted_header) <= 1024.
Proof.
  apply (validate_object_valid_iff (fun _ => Some crafted_file) "/tmp/crafted.o"
           crafted_file).
  - reflexivity.
  - reflexivity.
  - reflexivity.
  - simpl. lia.
  - left. reflexivity.
Defined.

(** A valid result is an archive or one of the two object formats,
    and carries no error. *)
Theorem validate_valid_kinds (fs : filesystem) (path : string) :
  valid (validate fs path) = true ->
  verror (validate fs path) = None
  /\ (vfile_type (validate fs path) = Some "archive"
      \/ vfile_type (validate fs path) = Some "xcoff32"
      \/ vfile_type (validate fs path) = Some "xcoff64").
Proof.
  unfold validate.
  destruct (fs path) as [f|]; [|discriminate].
  destruct (negb (readable f)); [discriminate|].
  destruct (Z.of_nat (length (content f)) <? 20)%Z; [discriminate|].
  destruct (fault f); [discriminate|].
  destruct (bool_decide _); [intros _; split; [reflexivity | left; reflexivity]|].
  destruct (_ =? MAGIC_32)%Z.
  - unfold _validate_xcoff.
    match goal with
    | |- context [match ?l with [] => _ | _ :: _ => _ end] => destruct l
    end; [|discriminate].
    intros _. split; [reflexivity | right; left; reflexivity].
  - destruct (_ =? MAGIC_64)%Z; [|discriminate].
    unfold _validate_xcoff.
    match goal with
    | |- context [match ?l with [] => _ | _ :: _ => _ end] => destruct l
    end; [|discriminate].
    intros _. split; [reflexivity | right; right; reflexivity].
Qed.

Lemma validate_valid_kinds_witness :
  verror (validate (fun _ => Some {| readable := true;
                                     content := AR_MAGIC ++ repeat x00 12;
                                     fault := None |}) "/usr/lib/libc.a") = None.
Proof.
  apply (validate_valid_kinds
           (fun _ => Some {| readable := true; content := AR_MAGIC ++ repeat x00 12;
                             fault := None |}) "/usr/lib/libc.a").
  reflexivity.
Defined.

End ValidatorMore.

(** ** The identification strings *)

Section WhatMore.
Import Py Core Analyzer.

Lemma lstrip_by_head (p : ascii -> bool) (s : string) :
  match lstrip_by p s with
  | String c _ => p c = false
  | EmptyString => True
  end.
Proof.
  induction s as [|c s IH]; simpl; [exact I|].
  destruct (p c) eqn:Hc; [exact IH | exact Hc].
Qed.

Lemma rstrip_by_keep_head (p : ascii -> bool) (c : ascii) (s : string) :
  p c = false -> rstrip_by p (String c s) = String c (rstrip_by p s).
Proof.
  intros Hc. simpl. destruct (rstrip_by p s); [rewrite Hc|]; reflexivity.
Qed.

Lemma rstrip_by_last (p : ascii -> bool) (s : string) :
  match last_char (rstrip_by p s) with
  | Some c => p c = false
  | None => True
  end.
Proof.
  induction s as [|c s IH]; simpl; [exact I|].
  destruct (rstrip_by p s) as [|d r] eqn:Hr.
  - destruct (p c) eqn:Hc; simpl; [exact I | exact Hc].
  - exact IH.
Qed.

Lemma strip_clean (s : string) : starts_clean (strip s) /\ ends_clean (strip s).
Proof.
  unfold strip, starts_clean, ends_clean. split; [|apply rstrip_by_last].
  pose proof (lstrip_by_head isspace s) as Hhead.
  destruct (lstrip_by isspace s) as [|c r]; [exact I|].
  rewrite (rstrip_by_keep_head _ _ _ Hhead). exact Hhead.
Qed.

(** Every identification string is a line of the output stripped of
    white space at both ends, is not empty and does not end in a
    colon: no file-name header reaches the list. *)
Theorem what_strings_clean (output s : string) :
  s ∈ WhatAnalyzer._parse_output output ->
  s <> "" /\ endswith_char ":" s = false
  /\ starts_clean s /\ ends_clean s
  /\ exists line, line ∈ splitlines output /\ s = strip line.
Proof.
  unfold WhatAnalyzer._parse_output.
  intros [Hkeep Hin]%list_elem_of_filter.
  apply list_elem_of_fmap in Hin as [line [-> Hline]].
  apply andb_prop in Hkeep as [Hne Hcolon].
  split; [intros Heq; rewrite Heq in Hne; discriminate Hne|].
  split; [destruct (endswith_char ":" (strip line)); [discriminate Hcolon | reflexivity]|].
  split; [apply strip_clean|]. split; [apply strip_clean|].
  exists line. split; [exact Hline | reflexivity].
Qed.

Lemma what_strings_clean_witness :
  endswith_char ":" "@(#) libfoo 1.0" = false.
Proof.
  apply (what_strings_clean
           ("libfoo.a:" +:+ String "010" "   @(#) libfoo 1.0  ") "@(#) libfoo 1.0").
  vm_compute. apply list_elem_of_In. simpl. left. reflexivity.
Defined.

End WhatMore.

(** ** The loader symbols *)

Section LoaderMore.
Import Py Core Analyzer.

Lemma name_among_cons (part : string) (rest : list string) :
  DumpLoaderAnalyzer.name_among (part :: rest)
  = if is_structural part then DumpLoaderAnalyzer.name_among rest else Some part.
Proof.
  unfold is_structural. cbn [DumpLoaderAnalyzer.name_among].
  destruct (DumpLoaderAnalyzer.is_field_keyword part); [reflexivity|].
  destruct (startswith "0x" part); [reflexivity|].
  destruct (startswith "[" part); [reflexivity|].
  destruct (isdigit part); [reflexivity|].
  destruct (truthy part); [|reflexivity].
  destruct (startswith "." part); reflexivity.
Qed.

Lemma name_among_some (l : list string) (n : string) :
  DumpLoaderAnalyzer.name_among l = Some n
  <-> exists skipped rest,
        l = (skipped ++ n :: rest)%list
        /\ forallb is_structural skipped = true /\ is_structural n = false.
Proof.
  induction l as [|part l IH].
  - split; [discriminate|]. intros [[|? ?] [? [[=] _]]].
  - rewrite name_among_cons. destruct (is_structural part) eqn:Hpart.
    + rewrite IH. split.
      * intros [skipped [rest [-> [Hs Hn]]]].
        exists (part :: skipped), rest. simpl. rewrite Hpart, Hs. auto.
      * intros [[|p skipped] [rest [Heq [Hs Hn]]]]; simpl in Heq, Hs.
        -- injection Heq as -> _. congruence.
        -- injection Heq as <- ->. apply andb_prop in Hs as [_ Hs]. eauto.
    + split.
      * intros [= <-]. exists [], l. auto.
      * intros [[|p skipped] [rest [Heq [Hs Hn]]]]; simpl in Heq, Hs.
        -- injection Heq as -> _. reflexivity.
        -- injection Heq as <- _. apply andb_prop in Hs as [Hp _]. congruence.
Qed.

Lemma name_among_none (l : list string) :
  DumpLoaderAnalyzer.name_among l = None <-> forallb is_structural l = true.
Proof.
  induction l as [|part l IH]; [simpl; tauto|].
  rewrite name_among_cons. simpl. destruct (is_structural part); simpl.
  - exact IH.
  - split; discriminate.
Qed.

(** The symbol name of a line is its last token that is not
    structural: every token after it is a keyword, a hexadecimal
    value, a bracketed index, a number, or starts with a dot. *)
Theorem extract_symbol_name_last (parts : list string) (n : string) :
  DumpLoaderAnalyzer._extract_symbol_name parts = Some n
  <-> exists before after,
        parts = (before ++ n :: after)%list
        /\ is_structural n = false /\ forallb is_structural after = true.
Proof.
  unfold DumpLoaderAnalyzer._extract_symbol_name. rewrite name_among_some. split.
  - intros [skipped [rest [Hrev [Hs Hn]]]].
    exists (rev rest), (rev skipped).
    split; [|split; [exact Hn|]].
    + rewrite <- (rev_involutive parts), Hrev, rev_app_distr. simpl.
      rewrite <- app_assoc. reflexivity.
    + rewrite forallb_forall in Hs |- *. intros x Hx. apply Hs.
      rewrite in_rev. exact Hx.
  - intros [before [after [-> [Hn Ha]]]].
    exists (rev after), (rev before).
    split; [|split; [|exact Hn]].
    + rewrite rev_app_distr. simpl. rewrite <- app_assoc. reflexivity.
    + rewrite forallb_forall in Ha |- *. intros x Hx. apply Ha.
      rewrite in_rev. exact Hx.
Qed.

(** A line yields no symbol name exactly when all of its tokens are
    structural. *)
Theorem extract_symbol_name_none (parts : list string) :
  DumpLoaderAnalyzer._extract_symbol_name parts = None
  <-> forallb is_structural parts = true.
Proof.
  unfold DumpLoaderAnalyzer._extract_symbol_name. rewrite name_among_none.
  rewrite !forallb_forall. split; intros H x Hx; apply H.
  - rewrite <- in_rev. exact Hx.
  - rewrite in_rev. exact Hx.
Qed.

(** The address of an export line is its first token that starts
    with [0x]. *)
Theorem extract_address_first (parts : list string) (a : string) :
  DumpLoaderAnalyzer._extract_address parts = Some a
  <-> exists before after,
        parts = (before ++ a :: after)%list
        /\ startswith "0x" a = true
        /\ forallb (fun part => negb (startswith "0x" part)) before = true.
Proof.
  induction parts as [|part parts IH]; cbn [DumpLoaderAnalyzer._extract_address].
  - split; [discriminate|]. intros [[|? ?] [? [[=] _]]].
  - destruct (startswith "0x" part) eqn:Hpart.
    + split.
      * intros [= <-]. exists [], parts. auto.
      * intros [[|p before] [after [Heq [Ha Hb]]]]; cbn [forallb app] in Heq, Hb.
        -- injection Heq as -> _. reflexivity.
        -- injection Heq as <- _. rewrite Hpart in Hb. discriminate Hb.
    + rewrite IH. split.
      * intros [before [after [-> [Ha Hb]]]].
        exists (part :: before), after. cbn [forallb app]. rewrite Hpart, Hb. auto.
      * intros [[|p before] [after [Heq [Ha Hb]]]]; cbn [forallb app] in Heq, Hb.
        -- injection Heq as -> _. congruence.
        -- injection Heq as <- ->. apply andb_prop in Hb as [_ Hb]. eauto.
Qed.

(** What one line adds to the two lists does not depend on what
    they hold already. *)
Lemma parse_line_acc (acc : list json * list json) (line : string) :
  DumpLoaderAnalyzer.parse_line acc line
  = ((acc.1 ++ (DumpLoaderAnalyzer.parse_line ([], []) line).1)%list,
     (acc.2 ++ (DumpLoaderAnalyzer.parse_line ([], []) line).2)%list).
Proof.
  destruct acc as [imports exports]. unfold DumpLoaderAnalyzer.parse_line.
  destruct (negb (truthy (strip line))); [simpl; rewrite !app_nil_r; reflexivity|].
  destruct (length (split (strip line)) <? 4)%nat;
    [simpl; rewrite !app_nil_r; reflexivity|].
  destruct (DumpLoaderAnalyzer.is_import_line (strip line)).
  { destruct (DumpLoaderAnalyzer._extract_symbol_name (split (strip line)));
      simpl; rewrite ?app_nil_r; reflexivity. }
  destruct (DumpLoaderAnalyzer.is_export_line (strip line)).
  { destruct (DumpLoaderAnalyzer._extract_symbol_name (split (strip line)));
      simpl; rewrite ?app_nil_r; reflexivity. }
  simpl. rewrite !app_nil_r. reflexivity.
Qed.

Lemma foldl_parse_line_acc (lines : list string) (acc : list json * list json) :
  foldl DumpLoaderAnalyzer.parse_line acc lines
  = ((acc.1 ++ (DumpLoaderAnalyzer.parse_lines lines).1)%list,
     (acc.2 ++ (DumpLoaderAnalyzer.parse_lines lines).2)%list).
Proof.
  unfold DumpLoaderAnalyzer.parse_lines.
  revert acc. induction lines as [|line lines IH]; intros acc.
  - simpl. rewrite !app_nil_r. destruct acc; reflexivity.
  - cbn [foldl]. rewrite (IH (DumpLoaderAnalyzer.parse_line acc line)).
    rewrite (IH (DumpLoaderAnalyzer.parse_line ([], []) line)).
    rewrite (parse_line_acc acc line). cbn [fst snd].
    rewrite !app_assoc. reflexivity.
Qed.

Lemma parse_lines_split (lines1 lines2 : list string) :
  DumpLoaderAnalyzer.parse_lines (lines1 ++ lines2)%list
  = (((DumpLoaderAnalyzer.parse_lines lines1).1
      ++ (DumpLoaderAnalyzer.parse_lines lines2).1)%list,
     ((DumpLoaderAnalyzer.parse_lines lines1).2
      ++ (DumpLoaderAnalyzer.parse_lines lines2).2)%list).
Proof.
  unfold DumpLoaderAnalyzer.parse_lines at 1. rewrite foldl_app.
  fold (DumpLoaderAnalyzer.parse_lines lines1).
  apply foldl_parse_line_acc.
Qed.

(** The parse of two runs of lines is the parse of the first
    followed by the parse of the second: no line changes what another
    line contributes. *)
Theorem parse_lines_app (lines1 lines2 : list string) :
  DumpLoaderAnalyzer.parse_lines (lines1 ++ lines2)%list
  = (((DumpLoaderAnalyzer.parse_lines lines1).1
      ++ (DumpLoaderAnalyzer.parse_lines lines2).1)%list,
     ((DumpLoaderAnalyzer.parse_lines lines1).2
      ++ (DumpLoaderAnalyzer.parse_lines lines2).2)%list).
Proof. exact (parse_lines_split lines1 lines2). Qed.

(** A line with an import marker is never taken for an export, also
    when it has an export marker too; a line with neither marker
    changes nothing. *)
Theorem parse_line_markers (acc : list json * list json) (line : string) :
  (DumpLoaderAnalyzer.is_import_line (strip line) = true ->
   (DumpLoaderAnalyzer.parse_line acc line).2 = acc.2)
  /\ (DumpLoaderAnalyzer.is_import_line (strip line) = false ->
      (DumpLoaderAnalyzer.parse_line acc line).1 = acc.1)
  /\ (DumpLoaderAnalyzer.is_import_line (strip line) = false ->
      DumpLoaderAnalyzer.is_export_line (strip line) = false ->
      DumpLoaderAnalyzer.parse_line acc line = acc).
Proof.
  destruct acc as [imports exports]. unfold DumpLoaderAnalyzer.parse_line.
  destruct (negb (truthy (strip line))); [auto|].
  destruct (length (split (strip line)) <? 4)%nat; [auto|].
  split; [|split].
  - intros ->. destruct (DumpLoaderAnalyzer._extract_symbol_name _); reflexivity.
  - intros ->. destruct (DumpLoaderAnalyzer.is_export_line _); [|reflexivity].
    destruct (DumpLoaderAnalyzer._extract_symbol_name _); reflexivity.
  - intros -> ->. reflexivity.
Qed.

Lemma parse_line_markers_witness :
  (DumpLoaderAnalyzer.parse_line ([], []) "[3] 0x0 undef IMP EXP foo").2 = [].
Proof.
  apply (proj1 (parse_line_markers ([], []) "[3] 0x0 undef IMP EXP foo")).
  reflexivity.
Defined.

(** The entries that one line contributes. *)
Lemma parse_line_entries (raw_line : string) (e : json) :
  let line := strip raw_line in
  (e ∈ (DumpLoaderAnalyzer.parse_line ([], []) raw_line).1 ->
   exists symbol,
     e = DumpLoaderAnalyzer.import_entry symbol line
     /\ DumpLoaderAnalyzer._extract_symbol_name (split line) = Some symbol
     /\ DumpLoaderAnalyzer.is_import_line line = true)
  /\ (e ∈ (DumpLoaderAnalyzer.parse_line ([], []) raw_line).2 ->
      exists symbol,
        e = DumpLoaderAnalyzer.export_entry symbol
              (DumpLoaderAnalyzer._extract_address (split line)) line
        /\ DumpLoaderAnalyzer._extract_symbol_name (split line) = Some symbol
        /\ DumpLoaderAnalyzer.is_import_line line = false
        /\ DumpLoaderAnalyzer.is_export_line line = true).
Proof.
  intros line. subst line. unfold DumpLoaderAnalyzer.parse_line.
  destruct (negb (truthy (strip raw_line)));
    [split; intros H; inversion H|].
  destruct (length (split (strip raw_line)) <? 4)%nat;
    [split; intros H; inversion H|].
  destruct (DumpLoaderAnalyzer.is_import_line (strip raw_line)) eqn:Himp.
  { destruct (DumpLoaderAnalyzer._extract_symbol_name (split (strip raw_line)))
      as [symbol|] eqn:Hname; cbn [fst snd app];
      split; intros H; try (inversion H; fail).
    apply list_elem_of_singleton in H. eauto. }
  destruct (DumpLoaderAnalyzer.is_export_line (strip raw_line)) eqn:Hexp;
    [|split; intros H; inversion H].
  destruct (DumpLoaderAnalyzer._extract_symbol_name (split (strip raw_line)))
    as [symbol|] eqn:Hname; cbn [fst snd app];
    split; intros H; try (inversion H; fail).
  apply list_elem_of_singleton in H. eauto.
Qed.

Lemma parse_lines_entries (lines : list string) (e : json) :
  (e ∈ (DumpLoaderAnalyzer.parse_lines lines).1 ->
   exists raw_line, raw_line ∈ lines
     /\ e ∈ (DumpLoaderAnalyzer.parse_line ([], []) raw_line).1)
  /\ (e ∈ (DumpLoaderAnalyzer.parse_lines lines).2 ->
      exists raw_line, raw_line ∈ lines
        /\ e ∈ (DumpLoaderAnalyzer.parse_line ([], []) raw_line).2).
Proof.
  induction lines as [|line lines IH].
  - split; intros H; inversion H.
  - change (line :: lines) with ([line] ++ lines)%list.
    rewrite parse_lines_split. cbn [fst snd].
    assert (Hone : DumpLoaderAnalyzer.parse_lines [line]
                   = DumpLoaderAnalyzer.parse_line ([], []) line) by reflexivity.
    rewrite Hone. destruct IH as [IH1 IH2].
    split; intros [H|H]%elem_of_app.
    + exists line. split; [left | exact H].
    + destruct (IH1 H) as [l [Hl He]]. exists l. split; [right; exact Hl | exact He].
    + exists line. split; [left | exact H].
    + destruct (IH2 H) as [l [Hl He]]. exists l. split; [right; exact Hl | exact He].
Qed.

(** Every import and every export in the result comes from a line of
    the output that carries the marker; its name is the symbol name
    of that line and one of its tokens, its raw text is the stripped
    line, and an export carries the address of that line. *)
Theorem loader_entries_from_lines (output : string) (e : json) :
  (e ∈ (DumpLoaderAnalyzer._parse_output output).1 ->
   exists raw_line symbol,
     raw_line ∈ splitlines output
     /\ e = DumpLoaderAnalyzer.import_entry symbol (strip raw_line)
     /\ symbol ∈ split raw_line
     /\ is_structural symbol = false
     /\ DumpLoaderAnalyzer.is_import_line (strip raw_line) = true)
  /\ (e ∈ (DumpLoaderAnalyzer._parse_output output).2 ->
      exists raw_line symbol,
        raw_line ∈ splitlines output
        /\ e = DumpLoaderAnalyzer.export_entry symbol
                (DumpLoaderAnalyzer._extract_address (split raw_line)) (strip raw_line)
        /\ symbol ∈ split raw_line
        /\ is_structural symbol = false
        /\ DumpLoaderAnalyzer.is_import_line (strip raw_line) = false
        /\ DumpLoaderAnalyzer.is_export_line (strip raw_line) = true).
Proof.
  unfold DumpLoaderAnalyzer._parse_output.
  destruct (parse_lines_entries (splitlines output) e) as [H1 H2].
  split; intros He.
  - destruct (H1 He) as [raw_line [Hline Hin]].
    destruct (proj1 (parse_line_entries raw_line e) Hin) as [symbol [-> [Hname Himp]]].
    rewrite split_strip in Hname.
    pose proof (proj1 (name_among_some _ _) Hname) as [skipped [rest [Hrev [_ Hn]]]].
    exists raw_line, symbol. repeat split; try assumption.
    apply list_elem_of_In, in_rev. rewrite Hrev. apply in_or_app. right. left.
    reflexivity.
  - destruct (H2 He) as [raw_line [Hline Hin]].
    destruct (proj2 (parse_line_entries raw_line e) Hin)
      as [symbol [-> [Hname [Himp Hexp]]]].
    rewrite split_strip in Hname |- *.
    pose proof (proj1 (name_among_some _ _) Hname) as [skipped [rest [Hrev [_ Hn]]]].
    exists raw_line, symbol. repeat split; try assumption.
    apply list_elem_of_In, in_rev. rewrite Hrev. apply in_or_app. right. left.
    reflexivity.
Qed.

Lemma loader_entries_from_lines_witness :
  exists raw_line symbol,
    raw_line ∈ splitlines "[0] 0x0 undef IMP DS EXTref libc.a(shr.o) printf"
    /\ DumpLoaderAnalyzer.import_entry "printf"
         "[0] 0x0 undef IMP DS EXTref libc.a(shr.o) printf"
       = DumpLoaderAnalyzer.import_entry symbol (strip raw_line)
    /\ symbol ∈ split raw_line
    /\ is_structural symbol = false
    /\ DumpLoaderAnalyzer.is_import_line (strip raw_line) = true.
Proof.
  apply (proj1 (loader_entries_from_lines
                  "[0] 0x0 undef IMP DS EXTref libc.a(shr.o) printf"
                  (DumpLoaderAnalyzer.import_entry "printf"
                     "[0] 0x0 undef IMP DS EXTref libc.a(shr.o) printf"))).
  vm_compute. left.
Defined.

End LoaderMore.

(** ** The section headers *)

Section SectionHeadersMore.
Import Py Core Analyzer DumpHeadersAnalyzer.

(** A row of the table becomes a section with the index and the
    name of its first two tokens, and with [size], [vma], [lma] and
    [file_offset] exactly as far as the row has a third to a sixth
    token. *)
Theorem table_section_fields (parts : list string) (m : gmap string json) :
  table_section parts = Ok (Some (JDict m)) ->
  exists p0 p1 rest,
    parts = p0 :: p1 :: rest
    /\ m !! "index" = Some (JInt (decimal_value p0))
    /\ m !! "name" = Some (JStr p1)
    /\ m !! "size" = JStr <$> parts !! 2%nat
    /\ m !! "vma" = JStr <$> parts !! 3%nat
    /\ m !! "lma" = JStr <$> parts !! 4%nat
    /\ m !! "file_offset" = JStr <$> parts !! 5%nat.
Proof.
  unfold table_section. destruct parts as [|p0 [|p1 rest]]; try discriminate.
  destruct (isdigit p0); [|discriminate].
  unfold py_int. destruct (truthy p0 && all_chars isdecimal p0); [|discriminate].
  cbn [negb]. destruct (int_max_str_digits <? String.length p0)%nat; [discriminate|].
  simpl. intros [= <-]. exists p0, p1, rest. split; [reflexivity|].
  unfold with_field.
  destruct rest as [|p2 [|p3 [|p4 [|p5 rest]]]]; simpl;
    repeat split;
    repeat (rewrite lookup_insert_eq || (rewrite lookup_insert_ne by done));
    try reflexivity; rewrite ?lookup_singleton_eq; try reflexivity;
    rewrite lookup_singleton_ne by done; reflexivity.
Qed.

Lemma table_section_fields_witness :
  exists p0 p1 rest,
    [ "0"; ".text"; "0x10" ] = p0 :: p1 :: rest
    /\ (<["size" := JStr "0x10"]> (<["index" := JInt 0]> {["name" := JStr ".text"]})
        : gmap string json) !! "index" = Some (JInt (decimal_value p0))
    /\ (<["size" := JStr "0x10"]> (<["index" := JInt 0]> {["name" := JStr ".text"]})
        : gmap string json) !! "name" = Some (JStr p1)
    /\ (<["size" := JStr "0x10"]> (<["index" := JInt 0]> {["name" := JStr ".text"]})
        : gmap string json) !! "size" = JStr <$> [ "0"; ".text"; "0x10" ] !! 2%nat
    /\ (<["size" := JStr "0x10"]> (<["index" := JInt 0]> {["name" := JStr ".text"]})
        : gmap string json) !! "vma" = JStr <$> [ "0"; ".text"; "0x10" ] !! 3%nat
    /\ (<["size" := JStr "0x10"]> (<["index" := JInt 0]> {["name" := JStr ".text"]})
        : gmap string json) !! "lma" = JStr <$> [ "0"; ".text"; "0x10" ] !! 4%nat
    /\ (<["size" := JStr "0x10"]> (<["index" := JInt 0]> {["name" := JStr ".text"]})
        : gmap string json) !! "file_offset"
       = JStr <$> [ "0"; ".text"; "0x10" ] !! 5%nat.
Proof.
  apply (table_section_fields [ "0"; ".text"; "0x10" ]). reflexivity.
Defined.

(** A row whose first token [isdigit] accepts and [int] does not,
    such as a superscript digit, makes the table pass raise
    [ValueError]. *)
Theorem table_section_not_decimal (p0 p1 : string) (rest : list string) :
  isdigit p0 = true ->
  all_chars isdecimal p0 = false ->
  table_section (p0 :: p1 :: rest)
  = Raise (ValueError ("invalid literal for int() with base 10: '" +:+ p0 +:+ "'")).
Proof.
  intros Hdigit Hdec. unfold table_section, py_int.
  rewrite Hdigit, Hdec, andb_false_r. reflexivity.
Qed.

Lemma table_section_not_decimal_witness :
  table_section [String (ascii_of_nat 178) ""; ".text"]
  = Raise (ValueError ("invalid literal for int() with base 10: '"
                       +:+ String (ascii_of_nat 178) "" +:+ "'")).
Proof.
  apply (table_section_not_decimal (String (ascii_of_nat 178) "") ".text" []);
    reflexivity.
Defined.

Lemma table_loop_app (st : table_state) (lines1 lines2 : list string) :
  table_loop st (lines1 ++ lines2)%list
  = st' ← table_loop st lines1; table_loop st' lines2.
Proof.
  revert st. induction lines1 as [|line lines1 IH]; intros st; [reflexivity|].
  cbn [app table_loop]. destruct (table_step st line) as [st'|e]; simpl; [apply IH|].
  reflexivity.
Qed.

(** Lines above the first header row take no part in the table pass,
    whatever they look like. *)
Theorem table_rows_above_header (above rest : list string) :
  (forall line, line ∈ above -> is_header_row (strip line) = false) ->
  table_loop {| sections := []; in_section_table := false; header_line := None |}
             (above ++ rest)%list
  = table_loop {| sections := []; in_section_table := false; header_line := None |}
               rest.
Proof.
  intros Habove. rewrite table_loop_app.
  rewrite table_loop_no_header; [reflexivity | reflexivity | exact Habove].
Qed.

Lemma table_rows_above_header_witness :
  table_loop {| sections := []; in_section_table := false; header_line := None |}
             (["0 .text 0x10"] ++ ["Idx Name Size"; "1 .data 0x20"])%list
  = table_loop {| sections := []; in_section_table := false; header_line := None |}
               ["Idx Name Size"; "1 .data 0x20"].
Proof.
  apply (table_rows_above_header ["0 .text 0x10"] ["Idx Name Size"; "1 .data 0x20"]).
  intros line Hin. apply list_elem_of_In in Hin. simpl in Hin.
  destruct Hin as [<-|[]]. reflexivity.
Defined.




End SectionHeadersMore.

(** ** Comparison *)

Section ComparisonMore.
Import Py Core ComparisonEngine.

Variable repr_change : section_change -> string.

Lemma compare_loop_quiet (a b : Snapshot) (names : list string)
    (acc : gmap string diff_entry * bool) :
  (forall n, n ∈ names ->
     analyzer_entry n (results a !! n) (results b !! n) = Ok None) ->
  compare_loop a b names acc = Ok acc.
Proof.
  induction names as [|n names IH]; intros Hq; [reflexivity|].
  cbn [compare_loop]. rewrite (Hq n) by left. simpl.
  apply IH. intros m Hm. apply Hq. right. exact Hm.
Qed.

(** Two snapshots of the same size whose results hold the same data
    under the same analyzer names compare as equal, whatever their
    time stamps and the [success], [error] and [truncated] of their
    results. *)
Theorem compare_same_data (a b : Snapshot) :
  file_size a = file_size b ->
  data <$> results a = data <$> results b ->
  compare repr_change a b
  = Ok {| filepath1 := filepath a; filepath2 := filepath b;
          has_differences := false; summary := "No differences";
          analyzer_diffs := ∅ |}.
Proof.
  intros Hsize Hdata. unfold compare.
  rewrite bool_decide_eq_false_2 by (intros H; apply H; exact Hsize).
  rewrite compare_loop_quiet; [reflexivity|].
  intros n Hin. rewrite elem_of_elements, elem_of_union, !elem_of_dom in Hin.
  assert (Hn : data <$> results a !! n = data <$> results b !! n)
    by (rewrite <- !lookup_fmap, Hdata; reflexivity).
  destruct (results a !! n) as [ra|], (results b !! n) as [rb|];
    simpl in Hn; try discriminate Hn.
  - injection Hn as Hd. simpl. rewrite Hd, py_neqb_refl. reflexivity.
  - destruct Hin as [[? [=]]|[? [=]]].
Qed.

Lemma compare_loop_flag (a b : Snapshot) (names : list string)
    (acc acc' : gmap string diff_entry * bool) :
  (acc.2 = true <-> acc.1 <> ∅) ->
  compare_loop a b names acc = Ok acc' ->
  (acc'.2 = true <-> acc'.1 <> ∅).
Proof.
  revert acc. induction names as [|n names IH]; intros acc Hacc.
  - intros [= <-]. exact Hacc.
  - cbn [compare_loop].
    destruct (analyzer_entry n (results a !! n) (results b !! n)) as [[d|]|];
      simpl; [| |discriminate].
    + apply IH. simpl. split; [intros _; apply insert_non_empty | reflexivity].
    + apply IH, Hacc.
Qed.

(** When a comparison returns, [has_differences] is set exactly when
    [analyzer_diffs] has an entry. *)
Theorem compare_flag_iff_entries (a b : Snapshot) (c : ComparisonResult) :
  compare repr_change a b = Ok c ->
  (has_differences c = true <-> analyzer_diffs c <> ∅).
Proof.
  unfold compare.
  destruct (compare_loop a b _ _) as [acc|] eqn:Hloop; [|discriminate].
  simpl. intros [= <-]. simpl.
  refine (compare_loop_flag a b _ _ _ _ Hloop).
  destruct (bool_decide (file_size a ≠ file_size b)); simpl.
  - split; [intros _; apply insert_non_empty | reflexivity].
  - split; [discriminate | intros H; contradiction H; reflexivity].
Qed.

Lemma compare_lookup (a b : Snapshot) (c : ComparisonResult) (n : string) :
  compare repr_change a b = Ok c ->
  analyzer_diffs c !! n =
    match (if bool_decide (n ∈ elements (dom (results a) ∪ dom (results b)))
           then analyzer_entry n (results a !! n) (results b !! n)
           else Ok None) with
    | Ok (Some d) => Some d
    | _ => (start a b).1 !! n
    end.
Proof.
  unfold compare. fold (start a b).
  destruct (compare_loop a b _ _) as [acc|] eqn:Hloop; [|discriminate].
  simpl. intros [= <-]. simpl.
  apply (compare_loop_lookup a b _ _ _ n (NoDup_elements _) Hloop).
Qed.

(** When a comparison returns, an analyzer that only the second
    snapshot has is entered as added, and one that only the first
    has as removed. *)
Theorem compare_added_removed (a b : Snapshot) (c : ComparisonResult) (n : string) :
  compare repr_change a b = Ok c ->
  (results a !! n = None -> is_Some (results b !! n) ->
   analyzer_diffs c !! n = Some (DStatus StAdded))
  /\ (is_Some (results a !! n) -> results b !! n = None ->
      analyzer_diffs c !! n = Some (DStatus StRemoved)).
Proof.
  intros Hc. rewrite (compare_lookup a b c n Hc). split.
  - intros Ha [rb Hb]. rewrite bool_decide_eq_true_2.
    + rewrite Ha. reflexivity.
    + rewrite elem_of_elements, elem_of_union, !elem_of_dom. right. eauto.
  - intros [ra Ha] Hb. rewrite bool_decide_eq_true_2.
    + rewrite Ha, Hb. reflexivity.
    + rewrite elem_of_elements, elem_of_union, !elem_of_dom. left. eauto.
Qed.

(** When a comparison returns and no analyzer is called [_metadata],
    the entry of that name records the two file sizes when they
    differ and is absent when they are equal. *)
Theorem compare_metadata (a b : Snapshot) (c : ComparisonResult) :
  compare repr_change a b = Ok c ->
  results a !! "_metadata" = None -> results b !! "_metadata" = None ->
  analyzer_diffs c !! "_metadata"
  = if bool_decide (file_size a = file_size b) then None
    else Some (DMetadata (file_size a) (file_size b)).
Proof.
  intros Hc Ha Hb. rewrite (compare_lookup a b c "_metadata" Hc).
  rewrite bool_decide_eq_false_2.
  2:{ rewrite elem_of_elements, elem_of_union, !elem_of_dom, Ha, Hb.
      intros [[? [=]]|[? [=]]]. }
  unfold start. destruct (decide (file_size a = file_size b)) as [He|Hne].
  - rewrite bool_decide_eq_false_2 by (intros H; apply H; exact He).
    rewrite bool_decide_eq_true_2 by exact He. apply lookup_empty.
  - rewrite bool_decide_eq_true_2 by exact Hne.
    rewrite bool_decide_eq_false_2 by exact Hne. apply lookup_singleton_eq.
Qed.

(** When a comparison returns, every entry is under the name of an
    analyzer of one of the two snapshots or under [_metadata], and an
    analyzer whose data is equal in both has no entry of its own. *)
Theorem compare_entry_names (a b : Snapshot) (c : ComparisonResult) (n : string) :
  compare repr_change a b = Ok c ->
  (is_Some (analyzer_diffs c !! n) ->
   n = "_metadata" \/ is_Some (results a !! n) \/ is_Some (results b !! n))
  /\ (forall ra rb, results a !! n = Some ra -> results b !! n = Some rb ->
      py_eqb (JDict (data ra)) (JDict (data rb)) = true ->
      n <> "_metadata" ->
      analyzer_diffs c !! n = None).
Proof.
  intros Hc. rewrite (compare_lookup a b c n Hc). split.
  - destruct (decide (n ∈ elements (dom (results a) ∪ dom (results b)))) as [Hin|Hin].
    + rewrite elem_of_elements, elem_of_union, !elem_of_dom in Hin. tauto.
    + rewrite bool_decide_eq_false_2 by exact Hin. unfold start.
      destruct (bool_decide (file_size a ≠ file_size b)); simpl.
      * destruct (decide (n = "_metadata")) as [->|Hn]; [auto|].
        rewrite lookup_singleton_ne by congruence. intros [? [=]].
      * rewrite lookup_empty. intros [? [=]].
  - intros ra rb Ha Hb Heq Hn. rewrite Ha, Hb. simpl.
    unfold py_neqb. rewrite Heq. simpl.
    destruct (bool_decide _); unfold start;
      (destruct (bool_decide (file_size a ≠ file_size b)); simpl;
       [rewrite lookup_singleton_ne by congruence; reflexivity | apply lookup_empty]).
Qed.

Lemma mapM_hash_strings (l : list string) :
  mapM hash_key (map JStr l) = Ok (map HStr l).
Proof.
  induction l as [|x l IH]; [reflexivity|].
  cbn [map mapM]. simpl. rewrite IH. reflexivity.
Qed.

Lemma to_set_strings (l : list string) :
  to_set (JList (map JStr l)) = Ok (list_to_set (map HStr l)).
Proof. unfold to_set. simpl. rewrite mapM_hash_strings. reflexivity. Qed.

Lemma elem_of_string_set (x : string) (l : list string) :
  HStr x ∈ (list_to_set (map HStr l) : gset hkey) <-> x ∈ l.
Proof.
  rewrite elem_of_list_to_set. split.
  - intros [y [[= ->] Hy]]%list_elem_of_fmap. exact Hy.
  - intros Hx. apply list_elem_of_fmap. exists x. auto.
Qed.

Lemma string_sets_equal (l1 l2 : list string) :
  (list_to_set (map HStr l1) : gset hkey) = list_to_set (map HStr l2)
  <-> forall x, x ∈ l1 <-> x ∈ l2.
Proof.
  split.
  - intros Heq x. rewrite <- !elem_of_string_set, Heq. reflexivity.
  - intros Hmem. apply set_eq. intros k. rewrite !elem_of_list_to_set. split.
    + intros [y [-> Hy]]%list_elem_of_fmap. apply list_elem_of_fmap.
      exists y. split; [reflexivity | apply Hmem, Hy].
    + intros [y [-> Hy]]%list_elem_of_fmap. apply list_elem_of_fmap.
      exists y. split; [reflexivity | apply Hmem, Hy].
Qed.

Lemma differences_empty (s1 s2 : gset hkey) :
  nonempty_set (s2 ∖ s1) || nonempty_set (s1 ∖ s2) = false <-> s1 = s2.
Proof.
  unfold nonempty_set. rewrite orb_false_iff, !negb_false_iff, !bool_decide_eq_true.
  split.
  - intros [H21 H12]. apply set_eq. intros k. split; intros Hk.
    + destruct (decide (k ∈ s2)) as [|Hn]; [assumption|].
      assert (Hd : k ∈ s1 ∖ s2) by (apply elem_of_difference; auto).
      rewrite H12 in Hd. apply not_elem_of_empty in Hd. destruct Hd.
    + destruct (decide (k ∈ s1)) as [|Hn]; [assumption|].
      assert (Hd : k ∈ s2 ∖ s1) by (apply elem_of_difference; auto).
      rewrite H21 in Hd. apply not_elem_of_empty in Hd. destruct Hd.
  - intros ->. split; apply set_eq; intros k;
      rewrite elem_of_difference; split; [tauto | intros Hk | tauto | intros Hk];
      apply not_elem_of_empty in Hk; destruct Hk.
Qed.

(** Two lists of identification strings differ for [_diff_what] only
    when one holds a string that the other does not: order and
    repetition are no difference. *)
Theorem diff_what_none_iff (d1 d2 : gmap string json) (l1 l2 : list string) :
  d1 !! "strings" = Some (JList (map JStr l1)) ->
  d2 !! "strings" = Some (JList (map JStr l2)) ->
  (_diff_what d1 d2 = Ok None <-> forall x, x ∈ l1 <-> x ∈ l2).
Proof.
  intros H1 H2. unfold _diff_what, get. rewrite H1, H2. simpl.
  rewrite !to_set_strings. simpl.
  rewrite <- string_sets_equal, <- differences_empty.
  destruct (nonempty_set _ || nonempty_set _); split; intros H;
    first [reflexivity | discriminate H].
Qed.

(** The loader diff is empty exactly when the two snapshots have the
    same import names and the same export names: addresses, types and
    raw lines play no part. *)
Theorem diff_loader_none_iff (d1 d2 : gmap string json) (i1 i2 e1 e2 : gset hkey) :
  names_of (get d1 "imports" (JList [])) = Ok i1 ->
  names_of (get d2 "imports" (JList [])) = Ok i2 ->
  names_of (get d1 "exports" (JList [])) = Ok e1 ->
  names_of (get d2 "exports" (JList [])) = Ok e2 ->
  (_diff_loader d1 d2 = Ok None <-> i1 = i2 /\ e1 = e2).
Proof.
  intros Hi1 Hi2 He1 He2. unfold _diff_loader. rewrite Hi1, Hi2, He1, He2. simpl.
  unfold name_changes.
  destruct (decide (i1 = i2)) as [Hi|Hi], (decide (e1 = e2)) as [He|He].
  - rewrite !bool_decide_eq_true_2 by assumption. tauto.
  - rewrite bool_decide_eq_true_2 by assumption.
    rewrite bool_decide_eq_false_2 by assumption. split; [discriminate | tauto].
  - rewrite bool_decide_eq_false_2 by assumption.
    destruct (bool_decide (e1 = e2)); split; try discriminate; tauto.
  - rewrite bool_decide_eq_false_2 by assumption.
    destruct (bool_decide (e1 = e2)); split; try discriminate; tauto.
Qed.

End ComparisonMore.

Lemma compare_same_data_witness :
  ComparisonEngine.has_differences
    <$> (match ComparisonEngine.compare (fun _ => "") before recaptured with
         | Py.Ok c => Some c
         | Py.Raise _ => None
         end) = Some false.
Proof.
  rewrite (compare_same_data (fun _ => "") before recaptured).
  - reflexivity.
  - reflexivity.
  - vm_compute. reflexivity.
Defined.

Lemma compare_flag_iff_entries_witness :
  match ComparisonEngine.compare (fun _ => "") before after with
  | Py.Ok c => ComparisonEngine.has_differences c = true
               <-> ComparisonEngine.analyzer_diffs c <> ∅
  | Py.Raise _ => False
  end.
Proof.
  destruct (ComparisonEngine.compare (fun _ => "") before after) as [c|e] eqn:Hc.
  - exact (compare_flag_iff_entries (fun _ => "") before after c Hc).
  - vm_compute in Hc. discriminate Hc.
Defined.

Lemma compare_added_removed_witness :
  match ComparisonEngine.compare (fun _ => "") before after with
  | Py.Ok c => ComparisonEngine.analyzer_diffs c !! "dump-T"
               = Some (ComparisonEngine.DStatus ComparisonEngine.StRemoved)
  | Py.Raise _ => False
  end.
Proof.
  destruct (ComparisonEngine.compare (fun _ => "") before after) as [c|e] eqn:Hc.
  - apply (proj2 (compare_added_removed (fun _ => "") before after c "dump-T" Hc)).
    + eexists. vm_compute. reflexivity.
    + vm_compute. reflexivity.
  - vm_compute in Hc. discriminate Hc.
Defined.

Lemma compare_metadata_witness :
  match ComparisonEngine.compare (fun _ => "") before after with
  | Py.Ok c => ComparisonEngine.analyzer_diffs c !! "_metadata"
               = Some (ComparisonEngine.DMetadata 4096 4100)
  | Py.Raise _ => False
  end.
Proof.
  destruct (ComparisonEngine.compare (fun _ => "") before after) as [c|e] eqn:Hc.
  - rewrite (compare_metadata (fun _ => "") before after c Hc).
    + reflexivity.
    + vm_compute. reflexivity.
    + vm_compute. reflexivity.
  - vm_compute in Hc. discriminate Hc.
Defined.

Lemma compare_entry_names_witness :
  match ComparisonEngine.compare (fun _ => "") before recaptured with
  | Py.Ok c => ComparisonEngine.analyzer_diffs c !! "what" = None
  | Py.Raise _ => False
  end.
Proof.
  destruct (ComparisonEngine.compare (fun _ => "") before recaptured) as [c|e] eqn:Hc.
  - eapply (proj2 (compare_entry_names (fun _ => "") before recaptured c "what" Hc)).
    + vm_compute. reflexivity.
    + vm_compute. reflexivity.
    + vm_compute. reflexivity.
    + discriminate.
  - vm_compute in Hc. discriminate Hc.
Defined.

Lemma diff_what_none_iff_witness :
  ComparisonEngine._diff_what (strings_data ["a"; "b"; "a"]) (strings_data ["b"; "a"])
  = Py.Ok None.
Proof.
  apply (proj2 (diff_what_none_iff
                  (strings_data ["a"; "b"; "a"]) (strings_data ["b"; "a"])
                  ["a"; "b"; "a"] ["b"; "a"]
                  ltac:(vm_compute; reflexivity) ltac:(vm_compute; reflexivity))).
  intros x. rewrite !elem_of_cons. pose proof (not_elem_of_nil x). tauto.
Defined.

Lemma diff_loader_none_iff_witness :
  ComparisonEngine._diff_loader (main_at "0x10000128") (main_at "0x10000200")
  = Py.Ok None.
Proof.
  apply (proj2 (diff_loader_none_iff
                  (main_at "0x10000128") (main_at "0x10000200")
                  ∅ ∅ {[ComparisonEngine.HStr "main"]} {[ComparisonEngine.HStr "main"]}
                  ltac:(vm_compute; reflexivity) ltac:(vm_compute; reflexivity)
                  ltac:(vm_compute; reflexivity) ltac:(vm_compute; reflexivity))).
  split; reflexivity.
Defined.

(** ** The store *)

Section StoreMore.
Import Py Core Storage.


Lemma locate_from_tame (ds : gset path) (cur p : path) :
  ".." ∉ p ->
  locate_from ds cur p = if way ds cur p then Some (cur ++ p)%list else None.
Proof.
  revert cur. induction p as [|c p IH]; intros cur Hp.
  - simpl. rewrite app_nil_r. reflexivity.
  - apply not_elem_of_cons in Hp as [Hc Hp]. cbn [locate_from way].
    destruct (is_dir ds cur); [|reflexivity]. cbn [andb].
    rewrite enter_name by congruence. rewrite (IH _ Hp), <- app_assoc. reflexivity.
Qed.

Lemma way_mono (ds ds' : gset path) (cur p : path) :
  ds ⊆ ds' -> way ds cur p = true -> way ds' cur p = true.
Proof.
  intros Hsub. revert cur. induction p as [|c p IH]; intros cur; [reflexivity|].
  cbn [way]. intros [Hcur Hway]%andb_prop.
  rewrite (is_dir_mono ds ds' cur Hsub Hcur), (IH _ Hway). reflexivity.
Qed.

(** The directories on the way are the same when the two states
    have the same directories above the path. *)
Lemma way_agree (ds ds' : gset path) (cur p : path) :
  (forall q, q `prefix_of` (cur ++ p)%list -> (q ∈ ds <-> q ∈ ds')) ->
  way ds cur p = way ds' cur p.
Proof.
  revert cur. induction p as [|c p IH]; intros cur Hsame; [reflexivity|].
  cbn [way]. f_equal.
  - unfold is_dir. apply bool_decide_ext. rewrite (Hsame cur); [reflexivity|].
    apply prefix_app_r. reflexivity.
  - apply IH. intros q Hq. apply Hsame. rewrite <- app_assoc in Hq. exact Hq.
Qed.

Lemma wf_parts (db : database) :
  well_formed db = true ->
  (".." ∉ db_path db)
  /\ (forall location, location ∈ dirs db \/ is_Some (records db !! location) ->
      is_dir (dirs db) (removelast location) = true)
  /\ (is_Some (registry db) -> is_dir (dirs db) (db_path db) = true).
Proof.
  unfold well_formed. intros [[Hpath Hin]%andb_prop Hreg]%andb_prop.
  apply bool_decide_eq_true in Hpath. split; [exact Hpath|]. split.
  - intros location Hloc. apply (proj1 (forallb_forall _ _) Hin).
    apply list_elem_of_In, elem_of_elements, elem_of_union.
    destruct Hloc as [H|H]; [left; exact H | right; apply elem_of_dom; exact H].
  - intros [text Htext]. rewrite Htext in Hreg. exact Hreg.
Qed.

Lemma removelast_snoc_take {A} (l : list A) : removelast l = take (length l - 1) l.
Proof.
  induction l as [|x l IH]; [reflexivity|].
  destruct l as [|y l]; [reflexivity|].
  change (removelast (x :: y :: l)) with (x :: removelast (y :: l)).
  rewrite IH. simpl. rewrite Nat.sub_0_r. reflexivity.
Qed.

(** In a well-formed state every directory above a file or a
    directory is there. *)
Lemma wf_above (db : database) (location : path) (k : nat) :
  well_formed db = true ->
  location ∈ dirs db \/ is_Some (records db !! location) ->
  (k < length location)%nat ->
  is_dir (dirs db) (take k location) = true.
Proof.
  intros Hwf. destruct (wf_parts db Hwf) as [_ [Hparent _]].
  remember (length location) as n eqn:Hn. revert location Hn k.
  induction n as [|n IH]; intros location Hn k Hloc Hk; [lia|].
  pose proof (Hparent location Hloc) as Hup.
  rewrite removelast_snoc_take, <- Hn in Hup. replace (S n - 1)%nat with n in Hup by lia.
  destruct (decide (k = n)) as [->|Hne]; [exact Hup|].
  apply bool_decide_eq_true in Hup. destruct Hup as [Hroot|Hdir].
  - apply bool_decide_eq_true. left.
    assert (Hlen : length (take n location) = 0%nat) by (rewrite Hroot; reflexivity).
    rewrite length_take in Hlen.
    apply nil_length_inv. rewrite length_take. lia.
  - assert (Htake : take k location = take k (take n location)).
    { rewrite take_take. f_equal. lia. }
    rewrite Htake. apply IH.
    + rewrite length_take. lia.
    + left. exact Hdir.
    + lia.
Qed.

Lemma way_spec (ds : gset path) (cur p : path) :
  way ds cur p = true
  <-> forall k, (k < length p)%nat -> is_dir ds (cur ++ take k p)%list = true.
Proof.
  revert cur. induction p as [|c p IH]; intros cur.
  - simpl. split; [intros _ k Hk; lia | reflexivity].
  - cbn [way]. rewrite andb_true_iff, IH. split.
    + intros [Hcur Hrest] [|k] Hk.
      * simpl. rewrite app_nil_r. exact Hcur.
      * cbn [take]. rewrite (cons_middle c cur (take k p)), app_assoc.
        apply Hrest. simpl in Hk. lia.
    + intros Hall. split.
      * specialize (Hall 0%nat). simpl in Hall. rewrite app_nil_r in Hall. apply Hall. lia.
      * intros k Hk. rewrite <- app_assoc. apply (Hall (S k)). simpl. lia.
Qed.

(** In a well-formed state the host finds every file and every
    directory whose location has no [..]. *)
Lemma wf_way (db : database) (location : path) :
  well_formed db = true ->
  location ∈ dirs db \/ is_Some (records db !! location) ->
  way (dirs db) [] location = true.
Proof.
  intros Hwf Hloc. apply way_spec. intros k Hk. apply (wf_above db location k Hwf Hloc Hk).
Qed.

Lemma stat_tame (db : database) (p : path) :
  ".." ∉ p ->
  stat db p = if way (dirs db) [] p then
                match records db !! p with
                | Some c => Some (Regular c)
                | None => if is_dir (dirs db) p then Some Directory else None
                end
              else None.
Proof.
  intros Hp. unfold stat, locate. rewrite (locate_from_tame _ _ _ Hp).
  destruct (way (dirs db) [] p); reflexivity.
Qed.

(** In a well-formed state, what the host finds at a path without
    [..] is what is at the location of that name. *)
Lemma stat_wf (db : database) (p : path) :
  well_formed db = true -> ".." ∉ p -> p <> [] ->
  stat db p = match records db !! p with
              | Some c => Some (Regular c)
              | None => if bool_decide (p ∈ dirs db) then Some Directory else None
              end.
Proof.
  intros Hwf Hp Hne. rewrite (stat_tame db p Hp).
  assert (Hdir : is_dir (dirs db) p = bool_decide (p ∈ dirs db)).
  { unfold is_dir. apply bool_decide_ext. tauto. }
  rewrite Hdir.
  destruct (way (dirs db) [] p) eqn:Hway; [reflexivity|].
  destruct (records db !! p) as [c|] eqn:Hrec.
  - rewrite (wf_way db p Hwf) in Hway; [discriminate | right; eauto].
  - destruct (decide (p ∈ dirs db)) as [Hin|Hin].
    + rewrite (wf_way db p Hwf) in Hway; [discriminate | left; exact Hin].
    + rewrite bool_decide_eq_false_2 by exact Hin. reflexivity.
Qed.

Lemma mem_char_all (c : ascii) (s : string) :
  mem_char c s = false -> all_chars (fun d => negb (char_eqb d c)) s = true.
Proof.
  induction s as [|d s IH]; simpl; [reflexivity|].
  intros [Hd Hs]%orb_false_elim. unfold char_eqb in *.
  rewrite Ascii.eqb_sym, Hd, (IH Hs). reflexivity.
Qed.

Lemma plain_parts (name : string) :
  plain name -> path_parts name = [name] /\ startswith "/" name = false.
Proof.
  intros [Hsep [Hne [Hdot _]]]. split.
  - unfold path_parts, split_on.
    rewrite (split_where_none _ name (mem_char_all "/" name Hsep)).
    rewrite filter_cons_True by (split; assumption). reflexivity.
  - destruct name as [|c name]; [reflexivity|]. simpl in Hsep |- *.
    apply orb_false_elim in Hsep as [Hc _]. rewrite Hc. reflexivity.
Qed.

Lemma snap_dir_plain (db : database) (nm : string) :
  plain nm -> snap_dir db nm = (db_path db ++ ["snapshots"; nm])%list.
Proof.
  intros [Hparts Habs]%plain_parts. unfold snap_dir, joinpath.
  rewrite Habs, Hparts.
  change (startswith "/" "snapshots") with false. cbn iota.
  change (path_parts "snapshots") with ["snapshots"].
  rewrite <- app_assoc. reflexivity.
Qed.

Lemma json_path_tame (db : database) (nm fp : string) :
  plain nm -> tame fp ->
  json_path db nm fp
  = (db_path db ++ ["snapshots"; nm] ++ path_parts (_filepath_to_relpath fp))%list.
Proof.
  intros Hnm [Hrel _]. unfold json_path, joinpath at 1.
  rewrite Hrel, (snap_dir_plain db nm Hnm), <- app_assoc. reflexivity.
Qed.

Lemma json_path_no_up (db : database) (nm fp : string) :
  well_formed db = true -> plain nm -> tame fp -> ".." ∉ json_path db nm fp.
Proof.
  intros Hwf Hnm Hfp. rewrite (json_path_tame db nm fp Hnm Hfp).
  destruct (wf_parts db Hwf) as [Hpath _]. destruct Hnm as [_ [_ [_ Hup]]].
  destruct Hfp as [_ Hparts].
  rewrite !elem_of_app, !elem_of_cons. intros [H|[[H|[H|H]]|H]]; try contradiction.
  - discriminate H.
  - congruence.
  - inversion H.
Qed.

(** Two snapshot sets of different plain names have no record path
    in common, and no record path of one is a directory on the way
    to a record of the other. *)
Lemma json_path_apart (db : database) (nm nm' fp fp' : string) :
  plain nm -> plain nm' -> tame fp -> tame fp' -> nm' <> nm ->
  ~ json_path db nm' fp' `prefix_of` json_path db nm fp.
Proof.
  intros Hnm Hnm' Hfp Hfp' Hne.
  rewrite (json_path_tame db nm fp Hnm Hfp), (json_path_tame db nm' fp' Hnm' Hfp').
  intros Hpre%prefix_app_inv. cbn [app] in Hpre.
  apply prefix_cons_inv_2, prefix_cons_inv_1 in Hpre. exact (Hne Hpre).
Qed.

Lemma mkdir_from_tame (ds : gset path) (cur p : path) :
  ".." ∉ p ->
  (mkdir_from ds cur p).2 = (cur ++ p)%list
  /\ forall q, q ∈ (mkdir_from ds cur p).1 ->
       q ∈ ds \/ (q `prefix_of` (cur ++ p)%list /\ (length cur < length q)%nat).
Proof.
  revert ds cur. induction p as [|c p IH]; intros ds cur Hp.
  - simpl. rewrite app_nil_r. split; [reflexivity | auto].
  - apply not_elem_of_cons in Hp as [Hc Hp]. cbn [mkdir_from].
    rewrite enter_name by congruence.
    destruct (IH ({[(cur ++ [c])%list]} ∪ ds) (cur ++ [c])%list Hp) as [Hloc Hnew].
    rewrite <- app_assoc in Hloc, Hnew. split; [exact Hloc|].
    intros q Hq. destruct (Hnew q Hq) as [Hin|[Hpre Hlen]].
    + apply elem_of_union in Hin as [->%elem_of_singleton|Hin]; [|auto].
      right. split; [apply prefix_app, prefix_cons, prefix_nil|].
      rewrite length_app. simpl. lia.
    + right. split; [exact Hpre|]. rewrite length_app in Hlen. simpl in Hlen. lia.
Qed.

(** What the host finds at a path does not change when directories
    are made, none of them at the location of the path, in a
    well-formed state. *)
Lemma stat_grow (db db' : database) (p : path) :
  well_formed db = true -> ".." ∉ p -> p <> [] ->
  dirs db ⊆ dirs db' ->
  (forall q, q ∈ dirs db' -> q ∈ dirs db \/ q <> p) ->
  records db' !! p = records db !! p ->
  stat db' p = stat db p.
Proof.
  intros Hwf Hp Hne Hsub Hnew Hrec.
  rewrite (stat_wf db p Hwf Hp Hne), (stat_tame db' p Hp), Hrec.
  assert (Hdir : is_dir (dirs db') p = bool_decide (p ∈ dirs db)).
  { unfold is_dir. apply bool_decide_ext. split.
    - intros [?|Hin]; [contradiction|]. destruct (Hnew p Hin); [assumption | congruence].
    - intros Hin. right. apply Hsub, Hin. }
  rewrite Hdir.
  destruct (way (dirs db') [] p) eqn:Hway; [reflexivity|].
  destruct (records db !! p) as [c|] eqn:Hc.
  - rewrite (way_mono (dirs db) (dirs db') [] p Hsub) in Hway; [discriminate|].
    apply (wf_way db p Hwf). right. eauto.
  - destruct (decide (p ∈ dirs db)) as [Hin|Hin].
    + rewrite (way_mono (dirs db) (dirs db') [] p Hsub) in Hway; [discriminate|].
      apply (wf_way db p Hwf). left. exact Hin.
    + rewrite bool_decide_eq_false_2 by exact Hin. reflexivity.
Qed.

Lemma load_same_stat (db db' : database) (nm fp : string) :
  db_path db' = db_path db ->
  stat db' (json_path db nm fp) = stat db (json_path db nm fp) ->
  load db' nm fp = load db nm fp.
Proof.
  intros Hpath Hstat. unfold load.
  assert (Hjson : json_path db' nm fp = json_path db nm fp)
    by (unfold json_path, snap_dir; rewrite Hpath; reflexivity).
  rewrite Hjson, Hstat. reflexivity.
Qed.

(** The directories and the records after a store into a snapshot
    set of a plain name, for a tame file path. *)
Lemma store_tame (now : string) (db : database) (nm : string) (s : Snapshot) :
  well_formed db = true -> plain nm -> tame (filepath s) ->
  dirs db ⊆ dirs (store now db nm s).1.1
  /\ (forall q, q ∈ dirs (store now db nm s).1.1 ->
      q ∈ dirs db \/ q `prefix_of` json_path db nm (filepath s))
  /\ records (store now db nm s).1.1
     = <[json_path db nm (filepath s) := json_dump (to_dict (store now db nm s).1.2)]>
         (records db).
Proof.
  intros Hwf Hnm Hfp.
  pose proof (json_path_no_up db nm (filepath s) Hwf Hnm Hfp) as Hup.
  destruct (json_path_parts db nm (filepath s)) as [front [name [Hpath Hname]]].
  destruct (wf_parts db Hwf) as [Hdb _].
  assert (Hfront : ".." ∉ front).
  { intros Hin. apply Hup. rewrite Hpath. apply elem_of_app. left. exact Hin. }
  assert (Hsnap : ".." ∉ snap_dir db nm).
  { rewrite (snap_dir_plain db nm Hnm). destruct Hnm as [_ [_ [_ Hnm]]].
    rewrite elem_of_app, !elem_of_cons. intros [H|[H|[H|H]]]; try contradiction.
    - discriminate H.
    - congruence.
    - inversion H. }
  assert (Hsnap_pre : snap_dir db nm `prefix_of` json_path db nm (filepath s)).
  { rewrite (json_path_tame db nm _ Hnm Hfp), (snap_dir_plain db nm Hnm).
    apply prefix_app. exists (path_parts (_filepath_to_relpath (filepath s))).
    reflexivity. }
  unfold store. cbn [filepath]. rewrite Hpath in Hsnap_pre |- *. unfold parent, file_name.
  rewrite removelast_last, last_last. unfold mkdir_parents.
  destruct (mkdir_from_tame (dirs db) [] (snap_dir db nm) Hsnap) as [_ Hnew1].
  pose proof (mkdir_from_subseteq (dirs db) [] (snap_dir db nm)) as Hsub1.
  set (made1 := (mkdir_from (dirs db) [] (snap_dir db nm)).1) in *.
  destruct (mkdir_from_tame made1 [] front Hfront) as [Hloc2 Hnew2].
  pose proof (mkdir_from_subseteq made1 [] front) as Hsub2.
  destruct (mkdir_from made1 [] front) as [made2 directory].
  cbn [fst snd] in *. subst directory.
  unfold _update_registry, _write_registry, mkdir_parents. cbn [dirs records db_path].
  destruct (mkdir_from_tame made2 [] (db_path db) Hdb) as [_ Hnew3].
  pose proof (mkdir_from_subseteq made2 [] (db_path db)) as Hsub3.
  split; [|split].
  - etransitivity; [exact Hsub1|]. etransitivity; [exact Hsub2 | exact Hsub3].
  - intros q Hq. destruct (Hnew3 q Hq) as [Hq2|[Hpre _]].
    + destruct (Hnew2 q Hq2) as [Hq1|[Hpre _]].
      * destruct (Hnew1 q Hq1) as [Hq0|[Hpre _]]; [auto|].
        right. etransitivity; [exact Hpre | exact Hsnap_pre].
      * right. apply prefix_app_r. exact Hpre.
    + right. etransitivity; [exact Hpre|]. etransitivity; [|exact Hsnap_pre].
      rewrite (snap_dir_plain db nm Hnm). apply prefix_app_r. reflexivity.
  - rewrite enter_name by exact Hname. reflexivity.
Qed.

(** A store into a snapshot set of a plain name, of a snapshot
    whose record lies in the directory of the set, leaves what the
    other sets of plain names give for such records as it was. *)
Theorem store_load_other (now : string) (db : database) (nm : string) (s : Snapshot)
    (nm' fp' : string) :
  well_formed db = true ->
  plain nm -> tame (filepath s) ->
  plain nm' -> tame fp' ->
  nm' <> nm ->
  load (store now db nm s).1.1 nm' fp' = load db nm' fp'.
Proof.
  intros Hwf Hnm Hfp Hnm' Hfp' Hne.
  destruct (store_tame now db nm s Hwf Hnm Hfp) as [Hsub [Hnew Hrec]].
  pose proof (json_path_apart db nm nm' (filepath s) fp' Hnm Hnm' Hfp Hfp' Hne) as Hapart.
  apply load_same_stat; [apply store_db_path|].
  apply stat_grow.
  - exact Hwf.
  - apply json_path_no_up; assumption.
  - destruct (json_path_parts db nm' fp') as [front [name [-> _]]].
    intros H. symmetry in H. exact (app_cons_not_nil _ _ _ H).
  - exact Hsub.
  - intros q Hq. destruct (Hnew q Hq) as [Hin|Hpre]; [auto|].
    right. intros ->. exact (Hapart Hpre).
  - rewrite Hrec. apply lookup_insert_ne. intros Heq. apply Hapart. rewrite Heq. reflexivity.
Qed.


Lemma store_load_other_witness :
  load (store "later" stored_next "base" after).1.1 "next" "/usr/lib/libfoo.a"
  = load stored_next "next" "/usr/lib/libfoo.a".
Proof.
  apply (store_load_other "later" stored_next "base" after "next" "/usr/lib/libfoo.a").
  - vm_compute. reflexivity.
  - repeat split; discriminate.
  - split; [reflexivity|]. apply (bool_decide_unpack _). vm_compute. exact I.
  - repeat split; discriminate.
  - split; [reflexivity|]. apply (bool_decide_unpack _). vm_compute. exact I.
  - discriminate.
Defined.

Lemma below_spec (d location : path) :
  below d location = true <-> d `prefix_of` location /\ d <> location.
Proof.
  unfold below. rewrite andb_true_iff, Nat.ltb_lt, bool_decide_eq_true. split.
  - intros [Hlen Htake]. split.
    + exists (drop (length d) location). rewrite <- Htake at 1. symmetry. apply take_drop.
    + intros ->. lia.
  - intros [[rest ->] Hne]. split.
    + rewrite length_app. destruct rest; [|simpl; lia].
      rewrite app_nil_r in Hne. contradiction.
    + rewrite take_app_length. reflexivity.
Qed.

Lemma below_false (d location : path) :
  below d location = false <-> (d `prefix_of` location -> d = location).
Proof.
  rewrite <- not_true_iff_false, below_spec. split.
  - intros Hn Hpre. destruct (decide (d = location)); [assumption|]. exfalso. auto.
  - intros H [Hpre Hne]. auto.
Qed.

(** The outcomes of [delete_snapshot]. *)
Lemma delete_snapshot_ok (db db' : database) (nm : string) (flag : bool) :
  delete_snapshot db nm = Ok (db', flag) ->
  at_registry db (snap_dir db nm) = false
  /\ ((flag = false /\ db' = db /\ stat db (snap_dir db nm) = None)
      \/ (flag = true /\ exists d,
        stat db (snap_dir db nm) = Some Directory
        /\ locate (dirs db) (snap_dir db nm) = Some d /\ d <> []
        /\ db' = _remove_from_registry nm
                   {| db_path := db_path db;
                      dirs := dirs (emptied db d) ∖ {[d]};
                      records := records (emptied db d);
                      registry := registry (emptied db d) |})).
Proof.
  unfold delete_snapshot. cbv zeta.
  destruct (at_registry db (snap_dir db nm)); [discriminate|].
  intros Hdelete. split; [reflexivity|]. revert Hdelete.
  destruct (stat db (snap_dir db nm)) as [[c|]|] eqn:Hstat; [discriminate| |].
  - destruct (locate (dirs db) (snap_dir db nm)) as [d|] eqn:Hloc.
    + cbn [default].
      case_bool_decide as Hgo; [|discriminate]. destruct Hgo as [_ Hd].
      intros [= <- <-]. right. split; [reflexivity|]. exists d. auto.
    + unfold stat in Hstat. rewrite Hloc in Hstat. discriminate Hstat.
  - intros [= <- <-]. left. auto.
Qed.

Lemma locate_wf_db_path (db : database) :
  well_formed db = true -> is_dir (dirs db) (db_path db) = true ->
  forall q, q `prefix_of` db_path db -> q <> [] -> q ∈ dirs db.
Proof.
  intros Hwf Hdir q [rest Hq] Hne.
  apply bool_decide_eq_true in Hdir. destruct Hdir as [Hroot|Hin].
  - rewrite Hroot in Hq. symmetry in Hq. apply app_eq_nil in Hq as [-> _]. contradiction.
  - destruct rest as [|c rest].
    + rewrite app_nil_r in Hq. rewrite <- Hq. exact Hin.
    + pose proof (wf_above db (db_path db) (length q) Hwf (or_introl Hin)) as Habove.
      rewrite Hq, take_app_length in Habove.
      apply bool_decide_eq_true in Habove.
      * destruct Habove as [?|?]; [contradiction | assumption].
      * rewrite length_app. simpl. lia.
Qed.

(** The state after a snapshot set, whose directory is at [d], has
    been deleted. *)
Lemma deleted_state (db : database) (nm : string) (d : path) :
  well_formed db = true ->
  let db' := _remove_from_registry nm
               {| db_path := db_path db;
                  dirs := dirs (emptied db d) ∖ {[d]};
                  records := records (emptied db d);
                  registry := registry (emptied db d) |} in
  db_path db' = db_path db
  /\ records db' = filter (fun kv : path * file_content => below d kv.1 = false) (records db)
  /\ forall q, q ∈ dirs db' <-> (q ∈ dirs db /\ below d q = false /\ q <> d).
Proof.
  intros Hwf db'.
  assert (Hkept : forall q, q ∈ dirs (emptied db d) ∖ {[d]}
                            <-> (q ∈ dirs db /\ below d q = false /\ q <> d)).
  { intros q. cbn [emptied dirs].
    rewrite elem_of_difference, elem_of_filter, elem_of_singleton. tauto. }
  subst db'. unfold _remove_from_registry. cbn [registry].
  destruct (registry (emptied db d)) as [text|] eqn:Hreg;
    [|split; [reflexivity|]; split; [reflexivity | exact Hkept]].
  unfold _write_registry, mkdir_parents. cbn [db_path dirs records].
  split; [reflexivity|]. split; [reflexivity|].
  destruct (wf_parts db Hwf) as [Hpath [_ Hhome]].
  assert (Hsome : is_Some (registry db)).
  { cbn [emptied registry] in Hreg.
    destruct (locate (dirs db) (db_path db)) as [home|]; [|rewrite Hreg; eauto].
    destruct (below d (home ++ ["registry.txt"])%list); [discriminate | rewrite Hreg; eauto]. }
  specialize (Hhome Hsome).
  assert (Hfound : locate (dirs db) (db_path db) = Some (db_path db)).
  { unfold locate. rewrite (locate_from_tame _ _ _ Hpath).
    assert (Hway : way (dirs db) [] (db_path db) = true).
    { apply bool_decide_eq_true in Hhome as [Hroot|Hin].
      - rewrite Hroot. reflexivity.
      - apply (wf_way db _ Hwf). left. exact Hin. }
    rewrite Hway. reflexivity. }
  cbn [emptied registry] in Hreg. rewrite Hfound in Hreg.
  destruct (below d (db_path db ++ ["registry.txt"])%list) eqn:Hbelow; [discriminate|].
  assert (Hout : forall q, q `prefix_of` db_path db -> ~ d `prefix_of` q).
  { intros q Hq Hd. apply below_false in Hbelow.
    - pose proof (prefix_length _ _ Hd) as H1. pose proof (prefix_length _ _ Hq) as H2.
      rewrite Hbelow, length_app in H1. simpl in H1. lia.
    - etransitivity; [exact Hd|]. etransitivity; [exact Hq|]. apply prefix_app_r. reflexivity. }
  intros q. split.
  - intros Hq.
    destruct (mkdir_from_tame (dirs (emptied db d) ∖ {[d]}) [] (db_path db) Hpath)
      as [_ Hnew].
    destruct (Hnew q Hq) as [Hin|[Hpre Hlen]]; [apply Hkept, Hin|].
    split; [|split].
    + apply (locate_wf_db_path db Hwf Hhome q Hpre). intros ->. simpl in Hlen. lia.
    + apply below_false. intros Hd. exfalso. exact (Hout q Hpre Hd).
    + intros ->. apply (Hout d Hpre). reflexivity.
  - intros Hq. apply mkdir_from_subseteq, Hkept, Hq.
Qed.

(** The host finds nothing below a path at which there is no
    directory. *)
Lemma stat_below_missing (db : database) (p rest : path) :
  rest <> [] ->
  (forall d, locate (dirs db) p = Some d -> is_dir (dirs db) d = false) ->
  stat db (p ++ rest)%list = None.
Proof.
  intros Hrest Hmissing. unfold stat, locate. rewrite locate_from_app.
  destruct (locate_from (dirs db) [] p) as [d|] eqn:Hd; [|reflexivity].
  destruct rest as [|c rest]; [contradiction|].
  cbn [mbind option_bind locate_from]. rewrite (Hmissing d Hd). reflexivity.
Qed.

Lemma load_below_missing (db : database) (nm fp : string) :
  startswith "/" (_filepath_to_relpath fp) = false ->
  (forall d, locate (dirs db) (snap_dir db nm) = Some d -> is_dir (dirs db) d = false) ->
  load db nm fp = Ok None.
Proof.
  intros Hrel Hmissing. unfold load, json_path, joinpath at 1. rewrite Hrel.
  destruct (relpath_parts fp) as [directory [name [Hparts _]]].
  rewrite stat_below_missing; [reflexivity | | exact Hmissing].
  rewrite Hparts. intros H. symmetry in H. exact (app_cons_not_nil _ _ _ H).
Qed.

Lemma stat_same (db db' : database) (p : path) :
  ".." ∉ p ->
  (forall q, q `prefix_of` p -> (q ∈ dirs db <-> q ∈ dirs db')) ->
  records db' !! p = records db !! p ->
  stat db' p = stat db p.
Proof.
  intros Hp Hdirs Hrec. rewrite !stat_tame by exact Hp. rewrite Hrec.
  rewrite (way_agree (dirs db') (dirs db) [] p)
    by (intros q Hq; symmetry; apply Hdirs, Hq).
  assert (Hdir : is_dir (dirs db') p = is_dir (dirs db) p).
  { unfold is_dir. apply bool_decide_ext. rewrite (Hdirs p); reflexivity. }
  rewrite Hdir. reflexivity.
Qed.

Lemma list_files_missing (db : database) (nm : string) :
  (forall d, locate (dirs db) (snap_dir db nm) = Some d -> is_dir (dirs db) d = false) ->
  list_files db nm = [].
Proof.
  intros Hmissing. unfold list_files.
  destruct (negb (path_exists db (snap_dir db nm))); [reflexivity|].
  unfold rglob_json.
  destruct (locate (dirs db) (snap_dir db nm)) as [d|]; [|reflexivity].
  rewrite (Hmissing d eq_refl). reflexivity.
Qed.

(** After a snapshot set has been deleted it has no files and no
    record that could be loaded; the sets of other plain names are
    as they were; and the method reports whether the directory of
    the set was there. *)
Theorem delete_snapshot_gone (db db' : database) (nm : string) (flag : bool) :
  well_formed db = true ->
  delete_snapshot db nm = Ok (db', flag) ->
  list_files db' nm = []
  /\ (forall fp, startswith "/" (_filepath_to_relpath fp) = false ->
      load db' nm fp = Ok None)
  /\ (forall nm' fp', plain nm -> plain nm' -> nm' <> nm -> tame fp' ->
      load db' nm' fp' = load db nm' fp')
  /\ (flag = true <-> path_exists db (snap_dir db nm) = true).
Proof.
  intros Hwf Hdelete.
  destruct (delete_snapshot_ok db db' nm flag Hdelete)
    as [Hreg [[-> [-> Hstat]]|[-> [d [Hstat [Hloc [Hd ->]]]]]]].
  - assert (Hmissing : forall d, locate (dirs db) (snap_dir db nm) = Some d ->
                       is_dir (dirs db) d = false).
    { intros d Hd. unfold stat in Hstat. rewrite Hd in Hstat. cbn in Hstat.
      destruct (records db !! d); [discriminate|].
      destruct (is_dir (dirs db) d); [discriminate | reflexivity]. }
    split; [|split; [|split]].
    + apply list_files_missing, Hmissing.
    + intros fp Hrel. apply load_below_missing; assumption.
    + reflexivity.
    + unfold path_exists. rewrite Hstat, Hreg.
      rewrite bool_decide_eq_false_2 by (intros [? [=]]). split; discriminate.
  - destruct (deleted_state db nm d Hwf) as [Hpath [Hrec Hdirs]].
    set (db' := _remove_from_registry nm _) in *.
    assert (Hsnap : snap_dir db' nm = snap_dir db nm)
      by (unfold snap_dir; rewrite Hpath; reflexivity).
    assert (Hsub : dirs db' ⊆ dirs db) by (intros q Hq; apply Hdirs in Hq; tauto).
    assert (Hmissing : forall d', locate (dirs db') (snap_dir db' nm) = Some d' ->
                       is_dir (dirs db') d' = false).
    { intros d' Hd'. rewrite Hsnap in Hd'.
      apply (locate_from_mono _ _ _ _ _ Hsub) in Hd'. unfold locate in Hloc.
      assert (d' = d) as -> by congruence.
      apply bool_decide_eq_false. intros [?|Hin]; [contradiction|].
      apply Hdirs in Hin. tauto. }
    split; [|split; [|split]].
    + apply list_files_missing, Hmissing.
    + intros fp Hrel. apply load_below_missing; assumption.
    + intros nm' fp' Hnm Hnm' Hne Hfp'.
      apply load_same_stat; [exact Hpath|].
      assert (Hd_eq : d = snap_dir db nm).
      { unfold locate in Hloc. rewrite locate_from_tame in Hloc.
        - destruct (way (dirs db) [] (snap_dir db nm));
            [injection Hloc as <-; reflexivity | discriminate Hloc].
        - rewrite (snap_dir_plain db nm Hnm). destruct (wf_parts db Hwf) as [Hpath' _].
          destruct Hnm as [_ [_ [_ Hup]]].
          rewrite elem_of_app, !elem_of_cons. intros [H|[H|[H|H]]]; try contradiction.
          + discriminate H.
          + congruence.
          + inversion H. }
      assert (Hout : forall q, q `prefix_of` json_path db nm' fp' -> ~ d `prefix_of` q).
      { intros q Hq Hdq. rewrite Hd_eq, (snap_dir_plain db nm Hnm) in Hdq.
        assert (Hpre : (db_path db ++ ["snapshots"; nm])%list
                       `prefix_of` json_path db nm' fp')
          by (etransitivity; eassumption).
        rewrite (json_path_tame db nm' fp' Hnm' Hfp') in Hpre.
        apply prefix_app_inv, prefix_cons_inv_2, prefix_cons_inv_1 in Hpre. auto. }
      apply stat_same.
      * apply json_path_no_up; assumption.
      * intros q Hq. rewrite Hdirs. split; [|tauto].
        intros Hin. split; [exact Hin|]. split.
        -- apply below_false. intros Hdq. exfalso. exact (Hout q Hq Hdq).
        -- intros ->. apply (Hout d Hq). reflexivity.
      * rewrite Hrec. destruct (records db !! json_path db nm' fp') as [c|] eqn:Hc.
        -- apply map_lookup_filter_Some. split; [exact Hc|]. cbn.
           apply below_false. intros Hdq. exfalso.
           exact (Hout (json_path db nm' fp') (reflexivity _) Hdq).
        -- apply map_lookup_filter_None. left. exact Hc.
    + unfold path_exists. rewrite Hstat. rewrite bool_decide_eq_true_2 by eauto.
      split; reflexivity.
Qed.

Lemma delete_snapshot_gone_witness :
  match delete_snapshot stored_both "base" with
  | Ok (db', flag) =>
      list_files db' "base" = []
      /\ load db' "next" "/usr/lib/libfoo.a" = load stored_both "next" "/usr/lib/libfoo.a"
      /\ flag = true
  | Raise _ => False
  end.
Proof.
  destruct (delete_snapshot stored_both "base") as [[db' flag]|e] eqn:Hdelete.
  - destruct (delete_snapshot_gone stored_both db' "base" flag) as [Hfiles [_ [Hother Hflag]]].
    + vm_compute. reflexivity.
    + exact Hdelete.
    + split; [exact Hfiles|]. split.
      * apply Hother.
        -- repeat split; discriminate.
        -- repeat split; discriminate.
        -- discriminate.
        -- split; [reflexivity|]. apply (bool_decide_unpack _). vm_compute. exact I.
      * apply Hflag. vm_compute. reflexivity.
  - assert (Hreturns : match delete_snapshot stored_both "base" with
                       | Ok _ => true
                       | Raise _ => false
                       end = true) by (vm_compute; reflexivity).
    rewrite Hdelete in Hreturns. discriminate Hreturns.
Defined.

Lemma last_char_cons_nonempty (c d : ascii) (s : string) :
  last_char (String c (String d s)) = last_char (String d s).
Proof. reflexivity. Qed.

Lemma last_char_some (c : ascii) (s : string) : is_Some (last_char (String c s)).
Proof.
  revert c. induction s as [|d s IH]; intros c; [eexists; reflexivity|].
  rewrite last_char_cons_nonempty. apply IH.
Qed.

(** No path that [list_files] reports ends in one of the characters
    of [".json"]: the inverse mapping strips them all. *)
Theorem list_files_last_char (db : database) (nm fp : string) :
  fp ∈ list_files db nm ->
  exists c, last_char fp = Some c /\ mem_char c ".json" = false.
Proof.
  unfold list_files. destruct (negb (path_exists db (snap_dir db nm))).
  { intros Hin. inversion Hin. }
  intros [rel [-> _]]%list_elem_of_fmap.
  unfold _relpath_to_filepath, rstrip.
  pose proof (rstrip_by_last (fun c => mem_char c ".json") (join "/" rel)) as Hlast.
  change ("/" +:+ rstrip_by (fun c => mem_char c ".json") (join "/" rel))
    with (String "/" (rstrip_by (fun c => mem_char c ".json") (join "/" rel))).
  destruct (rstrip_by (fun c => mem_char c ".json") (join "/" rel)) as [|d r].
  - exists "/"%char. split; reflexivity.
  - rewrite last_char_cons_nonempty.
    destruct (last_char (String d r)) as [c|] eqn:Hc.
    + exists c. split; [reflexivity | exact Hlast].
    + destruct (last_char_some d r) as [c Hc']. congruence.
Qed.

Lemma list_files_last_char_witness :
  exists c, last_char "/usr/bin/l" = Some c /\ mem_char c ".json" = false.
Proof.
  apply (list_files_last_char
           (store "now" empty_database "base"
              {| filepath := "/usr/bin/ls"; timestamp := "t"; file_size := 1;
                 file_mtime := "m"; file_type := "xcoff32"; name := None;
                 results := ∅ |}).1.1 "base" "/usr/bin/l").
  vm_compute. left.
Defined.

(** *** Lines and fields *)



















(** *** Reading the registry *)








(** *** The rows of the registry *)



Lemma digit_not_space (c : ascii) : isdecimal c = true -> isspace c = false.
Proof. destruct c as [[] [] [] [] [] [] [] []]; vm_compute; congruence. Qed.


Lemma last_char_all (p : ascii -> bool) (s : string) :
  s <> "" -> all_chars p s = true -> exists c, last_char s = Some c /\ p c = true.
Proof.
  induction s as [|c s IH]; [contradiction|]. intros _ [Hc Hs]%andb_prop.
  destruct s as [|d s]; [exists c; auto|].
  rewrite last_char_cons_nonempty. apply IH; [discriminate | exact Hs].
Qed.

Lemma ends_clean_digits (s : string) :
  s <> "" -> all_chars isdecimal s = true -> ends_clean s.
Proof.
  intros Hne Hs. destruct (last_char_all _ s Hne Hs) as [c [Hc Hd]].
  unfold ends_clean. rewrite Hc. apply digit_not_space, Hd.
Qed.









(** *** The registry after a store *)











End StoreMore.

(** ** Capture *)

Section CaptureMore.
Import Py Core Analyzer SnapshotManager.

Lemma capture_keyed_witness :
  match capture sample_host 300 "/tmp/crafted.o" (Some ["what"; "nm"]) None with
  | Ok (s, _) => keyed s
  | Raise _ => False
  end.
Proof.
  destruct (capture sample_host 300 "/tmp/crafted.o" (Some ["what"; "nm"]) None)
    as [[s started]|e] eqn:Hc.
  - exact (capture_keyed sample_host 300 "/tmp/crafted.o" _ _ s started Hc).
  - vm_compute in Hc. discriminate Hc.
Defined.

Lemma foldl_insert_lookup (g : string -> AnalysisResult * list command)
    (runs : list (string * (AnalysisResult * list command)))
    (m0 : gmap string AnalysisResult) (k : string) :
  Forall (fun nr => nr.2 = g nr.1) runs ->
  foldl (fun m (nr : string * (AnalysisResult * list command)) =>
           <[nr.1 := nr.2.1]> m) m0 runs !! k
  = if bool_decide (k ∈ runs.*1) then Some (g k).1 else m0 !! k.
Proof.
  revert m0. induction runs as [|[n r] runs IH]; intros m0 Hruns.
  - cbn [foldl fmap list_fmap].
    rewrite bool_decide_eq_false_2 by apply not_elem_of_nil. reflexivity.
  - apply Forall_cons in Hruns as [Hr Hruns]. simpl in Hr. subst r.
    cbn [foldl fmap list_fmap fst snd]. rewrite (IH _ Hruns).
    destruct (decide (k ∈ runs.*1)) as [Hin|Hin].
    + rewrite !bool_decide_eq_true_2; [reflexivity | right; exact Hin | exact Hin].
    + rewrite (bool_decide_eq_false_2 _ Hin).
      destruct (decide (k = n)) as [->|Hne].
      * rewrite bool_decide_eq_true_2 by left. apply lookup_insert_eq.
      * rewrite bool_decide_eq_false_2
          by (rewrite elem_of_cons; intros [?|?]; [congruence | contradiction]).
        apply lookup_insert_ne. congruence.
Qed.

Lemma first_seen_names {A : Type} (seen : list string) (l : list (string * A))
    (k : string) :
  k ∈ (first_seen seen l).*1 <-> k ∈ l.*1 /\ k ∉ seen.
Proof.
  revert seen. induction l as [|[n a] l IH]; intros seen.
  - simpl. split; [intros H; inversion H | intros [H _]; inversion H].
  - cbn [first_seen]. destruct (decide (n ∈ seen)) as [Hn|Hn].
    + rewrite bool_decide_eq_true_2 by exact Hn. rewrite IH.
      cbn [fmap list_fmap fst]. rewrite elem_of_cons. split.
      * intros [Hk Hs]. auto.
      * intros [[->|Hk] Hs]; [contradiction | auto].
    + rewrite bool_decide_eq_false_2 by exact Hn.
      cbn [fmap list_fmap fst]. rewrite !elem_of_cons, IH, elem_of_cons. split.
      * intros [->|[Hk Hs]]; [auto|]. split; [auto|]. intros Hks. apply Hs. auto.
      * intros [[->|Hk] Hs]; [auto|].
        destruct (decide (k = n)) as [->|Hne]; [auto|].
        right. split; [exact Hk|]. intros [?|?]; [congruence | contradiction].
Qed.

Lemma registered_names (k : string) :
  k ∈ get_all_analyzers.*1 <-> is_Some (get_analyzer k).
Proof.
  unfold get_analyzer. split.
  - intros Hin.
    destruct ((list_to_map get_all_analyzers : gmap string analyzer) !! k) eqn:Hk;
      [eauto|].
    apply not_elem_of_list_to_map_2 in Hk. contradiction.
  - intros [a Ha]. destruct (decide (k ∈ get_all_analyzers.*1)) as [Hin|Hin];
      [exact Hin|].
    apply (not_elem_of_list_to_map_1 (A := analyzer)) in Hin. congruence.
Qed.

Lemma selected_names (analyzers exclude : option (list string)) (k : string) :
  k ∈ (selected analyzers exclude).*1
  <-> is_selected analyzers exclude k = true /\ is_Some (get_analyzer k).
Proof.
  unfold selected, is_selected.
  set (chosen := match analyzers with
                 | Some ((_ :: _) as wanted) =>
                     first_seen [] (omap (fun n => pair n <$> get_analyzer n) wanted)
                 | _ => get_all_analyzers
                 end).
  assert (Hchosen : k ∈ chosen.*1
                    <-> match analyzers with
                        | Some ((_ :: _) as wanted) => bool_decide (k ∈ wanted)
                        | _ => true
                        end = true /\ is_Some (get_analyzer k)).
  { subst chosen. destruct analyzers as [[|w wanted]|];
      try (rewrite registered_names; tauto).
    rewrite first_seen_names, bool_decide_eq_true. split.
    - intros [Hk _]. apply list_elem_of_fmap in Hk as [[n a] [-> Hin]].
      apply list_elem_of_omap in Hin as [n' [Hn' Hget]].
      destruct (get_analyzer n') as [a'|] eqn:Ha; [|discriminate Hget].
      simpl in Hget. injection Hget as <- <-. simpl. rewrite Ha. eauto.
    - intros [Hk [a Ha]]. split; [|apply not_elem_of_nil].
      apply list_elem_of_fmap. exists (k, a). split; [reflexivity|].
      apply list_elem_of_omap. exists k. split; [exact Hk|]. rewrite Ha. reflexivity. }
  destruct exclude as [[|u unwanted]|];
    try (rewrite Hchosen, andb_true_r; reflexivity).
  rewrite andb_true_iff, negb_true_iff, bool_decide_eq_false. split.
  - intros Hk. apply list_elem_of_fmap in Hk as [[n a] [-> Hin]].
    apply list_elem_of_filter in Hin as [Hex Hin].
    assert (Hc : (n, a).1 ∈ chosen.*1)
      by (apply list_elem_of_fmap; exists (n, a); auto).
    apply Hchosen in Hc as [HX Hget]. auto.
  - intros [[HX Hex] Hget].
    assert (Hc : k ∈ chosen.*1) by (apply Hchosen; auto).
    apply list_elem_of_fmap in Hc as [[n a] [-> Hin]].
    apply list_elem_of_fmap. exists (n, a). split; [reflexivity|].
    apply list_elem_of_filter. auto.
Qed.

Lemma runs_names {A B : Type} (f : string * A -> B) (l : list (string * A)) :
  (map (fun na : string * A => (na.1, f na)) l).*1 = l.*1.
Proof.
  induction l as [|na l IH]; [reflexivity|]. simpl. f_equal. exact IH.
Qed.

(** A capture holds one result for each registered analyzer that
    passes the selection, and nothing else: names that the registry
    does not know are dropped, an excluded name is left out even when
    it was asked for, and each result is what its own analyzer
    returns. *)
Theorem capture_results (h : host) (timeout : Z) (filepath : string)
    (analyzers exclude : option (list string)) (s : Snapshot)
    (started : list command) (k : string) :
  capture h timeout filepath analyzers exclude = Ok (s, started) ->
  results s !! k
  = if is_selected analyzers exclude k
    then (fun a : analyzer => (a (run h) filepath timeout).1) <$> get_analyzer k
    else None.
Proof.
  unfold capture. destruct (files h filepath) as [f|]; [|discriminate].
  intros [= <- _]. cbn [results].
  rewrite (foldl_insert_lookup (run_of (run h) filepath timeout)).
  - pose proof (selected_names analyzers exclude k) as Hsel.
    rewrite runs_names.
    destruct (is_selected analyzers exclude k) eqn:Hk.
    + destruct (get_analyzer k) as [a|] eqn:Ha.
      * rewrite bool_decide_eq_true_2 by (apply Hsel; eauto).
        unfold run_of. rewrite Ha. reflexivity.
      * rewrite bool_decide_eq_false_2; [apply lookup_empty|].
        intros [_ [? [=]]]%Hsel.
    + rewrite bool_decide_eq_false_2; [apply lookup_empty|].
      intros [[=] _]%Hsel.
  - apply Forall_map. eapply Forall_impl; [apply selected_registered|].
    intros [n a] Hna. simpl in *. unfold run_of. rewrite Hna. reflexivity.
Qed.

Lemma capture_results_witness :
  match capture sample_host 300 "/tmp/crafted.o"
                (Some ["dump-h"; "what"; "nm"]) (Some ["what"; "dump-T"]) with
  | Ok (s, _) =>
      results s !! "dump-h"
      = Some (DumpHeadersAnalyzer.analyze (run sample_host) "/tmp/crafted.o" 300).1
      /\ results s !! "what" = None /\ results s !! "nm" = None
  | Raise _ => False
  end.
Proof.
  destruct (capture sample_host 300 "/tmp/crafted.o"
              (Some ["dump-h"; "what"; "nm"]) (Some ["what"; "dump-T"]))
    as [[s started]|e] eqn:Hc.
  - rewrite !(capture_results sample_host 300 "/tmp/crafted.o" _ _ s started _ Hc).
    repeat split.
  - vm_compute in Hc. discriminate Hc.
Defined.



End CaptureMore.
